(** * AAMI dynamic check runner (scripts/node/dynamic_check.py)

    A shallow embedding of [DynamicCheckRunner] and the properties of its
    script cache, check executor, metrics writer and run coordinator.

    Modelling conventions.
    - Python [str] values are Rocq strings read as sequences of code points
      below 256, without NUL; Python [int] is [Z]; a Python [float] is a
      binary64 number ([PrimFloat]).  The only floats are the readings of
      the clock: JSON numbers are integers.
    - A [pathlib.Path] is its root and its list of components; the file system
      is a finite map from paths to nodes.  Symbolic links are followed on the
      last component only, their targets are looked up as they are written
      (the directories of the runner are absolute), and [..] is not collapsed
      (as in pathlib).  So two spellings of a path are two entries: a
      property that tells entries apart by their names is stated for plain
      names (one component, not [..]) below one directory.
    - Looking at the disk (stat, open for reading, read) is never refused
      and a regular file holds text: read permissions, name length limits
      and bytes that do not decode are not part of the model.
    - Operating-system calls are explicit state passing over [World]; every
      performed mutation, child process and HTTP request is appended to the
      world's log together with the file system it leaves behind, so that
      the intermediate states of an operation can be inspected.
    - What the runner does not decide is in [Env]: the answer of the server,
      what a script does when run (also whether the kernel can start its
      text at all), the clock, and whether the operating system refuses a
      mutation (permissions, no space).
    - A child process is known by what [subprocess.run] gives back; what it
      may do to the disk itself is not modelled.  One runner runs at a time.
    - Exceptions are the [Raise] results of the monad [M]; effects performed
      before a raise are kept.
    - Of the logger, [_setup_logging] is modelled as far as it touches the
      disk (it makes the log directory and opens the log file); the lines
      that are logged later, which the log file gains, are not. *)

From Stdlib Require Import ZArith String Ascii List Lia.
From Stdlib Require Import Floats.PrimFloat Floats.SpecFloat Floats.FloatOps.
From stdpp Require Import gmap strings list fin_maps pretty.

Open Scope Z_scope.
Open Scope string_scope.
Open Scope list_scope.

(** ** Python strings *)

Module PyStr.

Definition chr (n : nat) : ascii := ascii_of_nat n.
Definition ord (c : ascii) : nat := nat_of_ascii c.

Definition slash : ascii := "/"%char.

(** [sep.join(l)] *)
Fixpoint join (sep : string) (l : list string) : string :=
  match l with
  | [] => ""
  | [x] => x
  | x :: rest => x +:+ sep +:+ join sep rest
  end.

(** [s.split(c)] for a one-character separator: never empty, the last
    element is the text after the last separator. *)
Fixpoint split (c : ascii) (s : string) : list string :=
  match s with
  | EmptyString => [""]
  | String a s' =>
      if Ascii.eqb a c then "" :: split c s'
      else match split c s' with
           | [] => [String a ""]
           | w :: ws => String a w :: ws
           end
  end.

(** [s.split(c, 1)]: the text before the first separator and, when there is
    one, the text after it. *)
Fixpoint split1 (c : ascii) (s : string) : string * option string :=
  match s with
  | EmptyString => ("", None)
  | String a s' =>
      if Ascii.eqb a c then ("", Some s')
      else let '(h, t) := split1 c s' in (String a h, t)
  end.

Definition startswith (s pre : string) : bool := String.prefix pre s.

Fixpoint lstrip_by (f : ascii -> bool) (s : string) : string :=
  match s with
  | EmptyString => ""
  | String a s' => if f a then lstrip_by f s' else s
  end.

Fixpoint rstrip_by (f : ascii -> bool) (s : string) : string :=
  match s with
  | EmptyString => ""
  | String a s' =>
      match rstrip_by f s' with
      | EmptyString => if f a then "" else String a ""
      | r => String a r
      end
  end.

Definition strip_by (f : ascii -> bool) (s : string) : string :=
  rstrip_by f (lstrip_by f s).

(** [str.isspace] on code points below 256. *)
Definition isspace (c : ascii) : bool :=
  let n := ord c in
  ((9 <=? n) && (n <=? 13) || (28 <=? n) && (n <=? 32)
   || (n =? 133) || (n =? 160))%nat.

(** [s.strip()], [s.strip(c)] and [s.rstrip(c)] *)
Definition strip (s : string) : string := strip_by isspace s.
Definition strip_char (c : ascii) (s : string) : string := strip_by (Ascii.eqb c) s.
Definition rstrip_char (c : ascii) (s : string) : string := rstrip_by (Ascii.eqb c) s.

(** [s[:n]] *)
Fixpoint take (n : nat) (s : string) : string :=
  match n, s with
  | O, _ => ""
  | _, EmptyString => ""
  | S n', String a s' => String a (take n' s')
  end.

(** Lines of a text file opened with universal newlines, without their
    terminators ([\n], [\r\n] and [\r] all end a line). *)
Fixpoint lines_from (cur : string) (s : string) : list string :=
  match s with
  | EmptyString => if String.eqb cur "" then [] else [cur]
  | String a s' =>
      if Ascii.eqb a (chr 10) then cur :: lines_from "" s'
      else if Ascii.eqb a (chr 13) then
        match s' with
        | String b s'' =>
            if Ascii.eqb b (chr 10) then cur :: lines_from "" s''
            else cur :: lines_from "" s'
        | EmptyString => [cur]
        end
      else lines_from (cur +:+ String a "") s'
  end.

Definition lines (s : string) : list string := lines_from "" s.

Definition hexdigit (n : nat) : ascii :=
  if (n <? 10)%nat then chr (48 + n) else chr (87 + n).

(** ['{0:02x}'.format(n)] for [n < 256] *)
Definition hex2 (n : nat) : string :=
  String (hexdigit (n / 16)) (String (hexdigit (n mod 16)) "").

Definition concat_map (f : ascii -> string) (s : string) : string :=
  (fix go (s : string) : string :=
     match s with
     | EmptyString => ""
     | String a s' => f a +:+ go s'
     end) s.

Fixpoint contains (c : ascii) (s : string) : bool :=
  match s with
  | EmptyString => false
  | String a s' => Ascii.eqb a c || contains c s'
  end.

End PyStr.

(** ** JSON values, [json.dumps] and [str()] *)

(** The values [json.loads] produces, floats left out.  An object keeps its
    keys in document order (keys are distinct after parsing). *)
#[warnings="-register-all"]
Inductive json : Type :=
| JNull
| JBool (b : bool)
| JInt (n : Z)
| JStr (s : string)
| JList (l : list json)
| JDict (d : list (string * json)).

Module Json.

(** Truth value of a Python object, as [or] tests it. *)
Definition truthy (v : json) : bool :=
  match v with
  | JNull => false
  | JBool b => b
  | JInt n => negb (n =? 0)%Z
  | JStr s => negb (String.eqb s "")
  | JList l => match l with [] => false | _ => true end
  | JDict d => match d with [] => false | _ => true end
  end.

(** [d.get(key)] on the pairs of an object. *)
Fixpoint assoc (key : string) (d : list (string * json)) : option json :=
  match d with
  | [] => None
  | (k, v) :: rest => if String.eqb k key then Some v else assoc key rest
  end.

(** [json.encoder.py_encode_basestring_ascii]: the characters from space to
    tilde stand for themselves, except the quote and the backslash; the rest
    is escaped. *)
Definition escape_char (c : ascii) : string :=
  let n := PyStr.ord c in
  if (n =? 34)%nat then "\" +:+ String (PyStr.chr 34) ""
  else if (n =? 92)%nat then "\\"
  else if (n =? 8)%nat then "\b"
  else if (n =? 12)%nat then "\f"
  else if (n =? 10)%nat then "\n"
  else if (n =? 13)%nat then "\r"
  else if (n =? 9)%nat then "\t"
  else if ((32 <=? n) && (n <=? 126))%nat then String c ""
  else "\u00" +:+ PyStr.hex2 n.

Definition encode_basestring_ascii (s : string) : string :=
  String (PyStr.chr 34) (PyStr.concat_map escape_char s) +:+ String (PyStr.chr 34) "".

(** [json.dumps(v)] with the default separators [", "] and [": "], no
    indentation, [ensure_ascii=True]. *)
Fixpoint dumps (v : json) : string :=
  match v with
  | JNull => "null"
  | JBool true => "true"
  | JBool false => "false"
  | JInt n => pretty n
  | JStr s => encode_basestring_ascii s
  | JList l => "[" +:+ PyStr.join ", " (List.map dumps l) +:+ "]"
  | JDict d =>
      "{" +:+ PyStr.join ", "
        (List.map (fun kv => match kv with
                             | (k, x) => encode_basestring_ascii k +:+ ": " +:+ dumps x
                             end) d) +:+ "}"
  end.

(** [repr(s)] of a string: single quotes unless the text has a single quote
    and no double quote. *)
Definition repr_quote (s : string) : ascii :=
  if PyStr.contains (PyStr.chr 39) s && negb (PyStr.contains (PyStr.chr 34) s)
  then PyStr.chr 34 else PyStr.chr 39.

Definition repr_char (q : ascii) (c : ascii) : string :=
  let n := PyStr.ord c in
  if Ascii.eqb c q || (n =? 92)%nat then String (PyStr.chr 92) (String c "")
  else if (n =? 9)%nat then "\t"
  else if (n =? 10)%nat then "\n"
  else if (n =? 13)%nat then "\r"
  else if ((n <? 32) || (n =? 127) || (128 <=? n) && (n <=? 160) || (n =? 173))%nat
       then "\x" +:+ PyStr.hex2 n
  else String c "".

Definition repr_str (s : string) : string :=
  let q := repr_quote s in
  String q (PyStr.concat_map (repr_char q) s) +:+ String q "".

Fixpoint repr (v : json) : string :=
  match v with
  | JNull => "None"
  | JBool true => "True"
  | JBool false => "False"
  | JInt n => pretty n
  | JStr s => repr_str s
  | JList l => "[" +:+ PyStr.join ", " (List.map repr l) +:+ "]"
  | JDict d =>
      "{" +:+ PyStr.join ", "
        (List.map (fun kv => match kv with
                             | (k, x) => repr_str k +:+ ": " +:+ repr x
                             end) d) +:+ "}"
  end.

(** [str(v)], which is what an f-string field formats. *)
Definition str (v : json) : string :=
  match v with
  | JStr s => s
  | _ => repr v
  end.

End Json.

(** ** pathlib paths *)

(** A [PurePosixPath]: the root ([""] for a relative path, ["/"] or ["//"])
    and the components after it. *)
Record Path : Type := mkPath { root : string; parts : list string }.

#[global] Instance Path_eq_dec : EqDecision Path.
Proof. solve_decision. Defined.

#[global] Instance Path_countable : Countable Path.
Proof.
  refine (inj_countable' (fun p => (root p, parts p))
                         (fun rp => mkPath (fst rp) (snd rp)) _).
  intros []; reflexivity.
Defined.

Module PyPath.

(** The root of a path text: two leading slashes are kept apart from one or
    from three and more. *)
Definition root_of (s : string) : string :=
  match s with
  | String a (String b rest) =>
      if Ascii.eqb a PyStr.slash then
        if Ascii.eqb b PyStr.slash then
          match rest with
          | String c _ => if Ascii.eqb c PyStr.slash then "/" else "//"
          | EmptyString => "//"
          end
        else "/"
      else ""
  | String a EmptyString => if Ascii.eqb a PyStr.slash then "/" else ""
  | EmptyString => ""
  end.

Definition keep_part (c : string) : bool :=
  negb (String.eqb c "") && negb (String.eqb c ".").

(** The components of a path text: empty ones and ["."] are dropped. *)
Definition parts_of (s : string) : list string :=
  List.filter keep_part (PyStr.split PyStr.slash s).

(** [Path(s)] *)
Definition of_str (s : string) : Path := mkPath (root_of s) (parts_of s).

(** [p / s]: an absolute right operand replaces the left one. *)
Definition join (p : Path) (s : string) : Path :=
  if String.eqb (root_of s) "" then mkPath (root p) (parts p ++ parts_of s)
  else of_str s.

(** [str(p)] *)
Definition str (p : Path) : string :=
  match parts p with
  | [] => if String.eqb (root p) "" then "." else root p
  | _ => root p +:+ PyStr.join "/" (parts p)
  end.

(** [p.parent] *)
Definition parent (p : Path) : Path := mkPath (root p) (removelast (parts p)).

(** The path and its ancestors that have a component, outermost first. *)
Definition ancestors (p : Path) : list Path :=
  List.map (fun n => mkPath (root p) (firstn n (parts p)))
           (seq 1 (length (parts p))).

End PyPath.

(** ** The file system *)

Inductive node : Type :=
| File (data : string) (executable : bool)
| Symlink (target : Path)
| Dir.

#[global] Instance node_eq_dec : EqDecision node.
Proof. solve_decision. Defined.

Abbreviation FS := (gmap Path node).

Inductive exn : Type :=
| FileNotFoundError
| FileExistsError
| IsADirectoryError
| NotADirectoryError
| TooManyLinks          (* OSError ELOOP *)
| PermissionError       (* refused by the operating system *)
| NoSpaceError          (* OSError ENOSPC *)
| DirectoryNotEmpty
| InvalidArgument       (* OSError EINVAL *)
| TypeError
| ValueError
| OverflowError.

(** What a primitive call asks of the operating system. *)
Inductive op : Type :=
| OpMkdir (p : Path)
| OpWrite (p : Path) (data : string)
| OpChmod (p : Path)
| OpUnlink (p : Path)
| OpSymlink (link target : Path)
| OpRename (src dst : Path)
| OpOpen (p : Path)                     (* open for appending *)
| OpSpawn (argv : list string) (stdin : string)
| OpUrlopen (url : string).

(** How the operating system may refuse a mutation that is otherwise
    possible: not at all, before touching anything, or when the data is
    written (the file is then already created or truncated). *)
Inductive fault : Type := NoFault | Denied | NoSpace.

Module Fs.

(** A path without components is the root or the working directory. *)
Definition lstat (fs : FS) (p : Path) : option node :=
  match parts p with
  | [] => Some Dir
  | _ => fs !! p
  end.

(** Following the symbolic links at [p]: [None] when there are too many,
    else the path reached and what is there. *)
Fixpoint resolve (fuel : nat) (fs : FS) (p : Path) : option (Path * option node) :=
  match lstat fs p with
  | Some (Symlink t) =>
      match fuel with
      | O => None
      | S fuel' => resolve fuel' fs t
      end
  | o => Some (p, o)
  end.

(** The kernel's bound on nested links. *)
Definition max_links : nat := 40.

Definition stat (fs : FS) (p : Path) : option (Path * option node) :=
  resolve max_links fs p.

(** [p.exists()]: true when the links lead to something. *)
Definition exists_ (fs : FS) (p : Path) : bool :=
  match stat fs p with
  | Some (_, Some _) => true
  | _ => false
  end.

(** [p.is_symlink()] *)
Definition is_symlink (fs : FS) (p : Path) : bool :=
  match lstat fs p with
  | Some (Symlink _) => true
  | _ => false
  end.

(** [p.is_dir()] *)
Definition is_dir (fs : FS) (p : Path) : bool :=
  match stat fs p with
  | Some (_, Some Dir) => true
  | _ => false
  end.

(** The text a reader gets from [p], if it leads to a regular file. *)
Definition read_text (fs : FS) (p : Path) : option string :=
  match stat fs p with
  | Some (_, Some (File data _)) => Some data
  | _ => None
  end.

(** Whether an entry may be created at [p]. *)
Definition parent_is_dir (fs : FS) (p : Path) : bool :=
  match parts p with
  | [] => false
  | _ => is_dir fs (PyPath.parent p)
  end.

(** [under d p]: [p] lies strictly below the directory [d]. *)
Definition under (d p : Path) : bool :=
  String.eqb (root d) (root p)
  && (length (parts d) <? length (parts p))%nat
  && bool_decide (firstn (length (parts d)) (parts p) = parts d).

Definition dir_empty (fs : FS) (d : Path) : bool :=
  forallb (fun kv => negb (under d (fst kv))) (map_to_list fs).

(** Moving the directory [src] with all it holds to [dst]. *)
Definition move_tree (fs : FS) (src dst : Path) : FS :=
  list_to_map
    (List.map (fun kv =>
       let k := fst kv in
       if bool_decide (k = src) then (dst, snd kv)
       else if under src k
            then (mkPath (root dst)
                    (parts dst ++ skipn (length (parts src)) (parts k)), snd kv)
            else kv)
       (map_to_list fs)).

End Fs.

(** ** The world, the environment and the monad of effects *)

(** One entry of the log: the call and the file system after it. *)
Record event : Type := mkEvent { ev_op : op; ev_fs : FS }.

Record World : Type := mkWorld {
  w_fs : FS;
  w_log : list event;     (* oldest first *)
  w_clock : nat           (* calls of time.time() so far *)
}.

(** What [subprocess.run] gives back: the finished child, the timeout, or
    any other exception with its message. *)
Inductive proc_outcome : Type :=
| Completed (returncode : Z) (stdout stderr : string)
| TimeoutExpired
| ProcRaised (msg : string).

(** What the HTTP request and [json.loads] give back. *)
Inductive fetch_outcome : Type :=
| URLError
| JSONDecodeError
| OtherFetchError
| Payload (data : json).

(** Everything the runner does not decide itself.  [proc] and [disk_fault]
    take the number of calls logged so far, so that they may answer
    differently as the run goes on. *)
Record Env : Type := mkEnv {
  urlopen : string -> fetch_outcome;
  proc : nat -> string -> string -> proc_outcome;   (* script body, stdin *)
  time_time : nat -> float;
  disk_fault : nat -> op -> fault;
  gethostname : string;
  exn_str : exn -> string                            (* str(e) *)
}.

Inductive result (A : Type) : Type :=
| Ok (a : A)
| Raise (e : exn).
Arguments Ok {A} a.
Arguments Raise {A} e.

Definition M (A : Type) : Type := World -> result A * World.

Definition ret {A} (a : A) : M A := fun w => (Ok a, w).
Definition raise {A} (e : exn) : M A := fun w => (Raise e, w).
Definition bind {A B} (m : M A) (k : A -> M B) : M B :=
  fun w => match m w with
           | (Ok a, w') => k a w'
           | (Raise e, w') => (Raise e, w')
           end.
(** [try: m  except Exception as e: h e] *)
Definition try_except {A} (m : M A) (h : exn -> M A) : M A :=
  fun w => match m w with
           | (Ok a, w') => (Ok a, w')
           | (Raise e, w') => h e w'
           end.

(** Whether an exception is an [OSError]. *)
Definition is_os_error (e : exn) : bool :=
  match e with
  | TypeError | ValueError | OverflowError => false
  | _ => true
  end.

Definition is_permission_error (e : exn) : bool :=
  match e with
  | PermissionError => true
  | _ => false
  end.

(** [try: m  except E as e: h e] for the exceptions [E] that [catches]
    holds of; the others go on. *)
Definition try_except_when {A} (catches : exn -> bool) (m : M A) (h : exn -> M A) : M A :=
  fun w => match m w with
           | (Ok a, w') => (Ok a, w')
           | (Raise e, w') => if catches e then h e w' else (Raise e, w')
           end.

Declare Scope m_scope.
Delimit Scope m_scope with M.
Notation "x <- m ;; k" := (bind m (fun x => k))
  (at level 100, m at next level, right associativity) : m_scope.
Notation "m ;;; k" := (bind m (fun _ => k))
  (at level 100, right associativity) : m_scope.
Open Scope m_scope.

Definition get_fs : M FS := fun w => (Ok (w_fs w), w).

(** A performed call: the file system becomes [fs'] and the log grows. *)
Definition perform (o : op) (fs' : FS) : M unit :=
  fun w => (Ok tt, mkWorld fs' (w_log w ++ [mkEvent o fs']) (w_clock w)).

Definition fault_of (env : Env) (o : op) : M fault :=
  fun w => (Ok (disk_fault env (length (w_log w)) o), w).

(** [time.time()] *)
Definition time (env : Env) : M float :=
  fun w => (Ok (time_time env (w_clock w)),
            mkWorld (w_fs w) (w_log w) (S (w_clock w))).

(** The integer part of a float that is a number: truncation towards zero. *)
Definition int_of_float (x : float) : Z :=
  match Prim2SF x with
  | S754_finite s m e =>
      (* [Z.shiftl] by a negative amount shifts to the right *)
      let a := Z.shiftl (Zpos m) e in
      if s then - a else a
  | _ => 0
  end.

(** [int(x)] for a float [x]: a NaN and the infinities have no integer
    part. *)
Definition py_int (x : float) : M Z :=
  match Prim2SF x with
  | S754_nan => raise ValueError
  | S754_infinity _ => raise OverflowError
  | _ => ret (int_of_float x)
  end.

Module Os.

(** Why no entry can be created at [p], if so. *)
Definition parent_error (fs : FS) (p : Path) : option exn :=
  match parts p with
  | [] => Some FileExistsError
  | _ =>
      match Fs.stat fs (PyPath.parent p) with
      | None => Some TooManyLinks
      | Some (_, None) => Some FileNotFoundError
      | Some (_, Some Dir) => None
      | Some (_, Some _) => Some NotADirectoryError
      end
  end.

(** [os.mkdir(p)] *)
Definition mkdir (env : Env) (p : Path) : M unit :=
  fs <- get_fs ;;
  match Fs.lstat fs p with
  | Some _ => raise FileExistsError
  | None =>
      match parent_error fs p with
      | Some e => raise e
      | None =>
          f <- fault_of env (OpMkdir p) ;;
          match f with
          | NoFault => perform (OpMkdir p) (<[p := Dir]> fs)
          | Denied => raise PermissionError
          | NoSpace => raise NoSpaceError
          end
      end
  end.

(** [p.mkdir(exist_ok=True)]: an error is dropped when [p] is a directory. *)
Definition mkdir_exist_ok (env : Env) (p : Path) : M unit :=
  try_except (mkdir env p)
    (fun e => fs <- get_fs ;; if Fs.is_dir fs p then ret tt else raise e).

(** [p.mkdir(parents=True, exist_ok=True)]: when the parent is missing it is
    made first, then [p] itself. [n] bounds the ancestors. *)
Fixpoint mkdir_parents (env : Env) (n : nat) (p : Path) : M unit :=
  try_except (mkdir env p)
    (fun e =>
       match e, n with
       | FileNotFoundError, S n' =>
           mkdir_parents env n' (PyPath.parent p) ;;;
           mkdir_exist_ok env p
       | FileNotFoundError, O => raise e
       | _, _ => fs <- get_fs ;; if Fs.is_dir fs p then ret tt else raise e
       end).

Definition makedirs (env : Env) (p : Path) : M unit :=
  mkdir_parents env (length (parts p)) p.

(** [p.write_text(data)]: opens for writing through the links (creating or
    truncating the file), then writes. *)
Definition write_text (env : Env) (p : Path) (data : string) : M unit :=
  fs <- get_fs ;;
  match Fs.stat fs p with
  | None => raise TooManyLinks
  | Some (_, Some Dir) => raise IsADirectoryError
  | Some (_, Some (Symlink _)) => raise TooManyLinks
  | Some (q, Some (File _ x)) =>
      f <- fault_of env (OpWrite p data) ;;
      match f with
      | NoFault => perform (OpWrite p data) (<[q := File data x]> fs)
      | Denied => raise PermissionError
      | NoSpace => perform (OpWrite p data) (<[q := File "" x]> fs) ;;;
                   raise NoSpaceError
      end
  | Some (q, None) =>
      match parent_error fs q with
      | Some e => raise e
      | None =>
          f <- fault_of env (OpWrite p data) ;;
          match f with
          | NoFault => perform (OpWrite p data) (<[q := File data false]> fs)
          | Denied => raise PermissionError
          | NoSpace => perform (OpWrite p data) (<[q := File "" false]> fs) ;;;
                       raise NoSpaceError
          end
      end
  end.

(** [p.chmod(0o755)], through the links. *)
Definition chmod_755 (env : Env) (p : Path) : M unit :=
  fs <- get_fs ;;
  match Fs.stat fs p with
  | None => raise TooManyLinks
  | Some (_, None) => raise FileNotFoundError
  | Some (q, Some n) =>
      f <- fault_of env (OpChmod p) ;;
      match f with
      | NoFault =>
          match n with
          | File data _ => perform (OpChmod p) (<[q := File data true]> fs)
          | _ => perform (OpChmod p) fs
          end
      | _ => raise PermissionError
      end
  end.

(** [p.unlink()] *)
Definition unlink (env : Env) (p : Path) : M unit :=
  fs <- get_fs ;;
  match Fs.lstat fs p with
  | None => raise FileNotFoundError
  | Some Dir => raise IsADirectoryError
  | Some _ =>
      f <- fault_of env (OpUnlink p) ;;
      match f with
      | NoFault => perform (OpUnlink p) (delete p fs)
      | _ => raise PermissionError
      end
  end.

(** [link.symlink_to(target)] *)
Definition symlink_to (env : Env) (link target : Path) : M unit :=
  fs <- get_fs ;;
  match Fs.lstat fs link with
  | Some _ => raise FileExistsError
  | None =>
      match parent_error fs link with
      | Some e => raise e
      | None =>
          f <- fault_of env (OpSymlink link target) ;;
          match f with
          | NoFault => perform (OpSymlink link target) (<[link := Symlink target]> fs)
          | Denied => raise PermissionError
          | NoSpace => raise NoSpaceError
          end
      end
  end.

(** [src.rename(dst)]: the entry at [dst], if any, is replaced in one step. *)
Definition rename (env : Env) (src dst : Path) : M unit :=
  fs <- get_fs ;;
  match Fs.lstat fs src with
  | None => raise FileNotFoundError
  | Some n =>
      if bool_decide (src = dst) then perform (OpRename src dst) fs
      else
        match n, Fs.lstat fs dst with
        | Dir, Some Dir =>
            if Fs.dir_empty fs dst then
              f <- fault_of env (OpRename src dst) ;;
              match f with
              | NoFault => perform (OpRename src dst)
                             (Fs.move_tree (delete dst fs) src dst)
              | _ => raise PermissionError
              end
            else raise DirectoryNotEmpty
        | Dir, Some _ => raise NotADirectoryError
        | Dir, None =>
            if Fs.under src dst then raise InvalidArgument
            else
              match parent_error fs dst with
              | Some e => raise e
              | None =>
                  f <- fault_of env (OpRename src dst) ;;
                  match f with
                  | NoFault => perform (OpRename src dst) (Fs.move_tree fs src dst)
                  | _ => raise PermissionError
                  end
              end
        | _, Some Dir => raise IsADirectoryError
        | _, _ =>
            match parent_error fs dst with
            | Some e => raise e
            | None =>
                f <- fault_of env (OpRename src dst) ;;
                match f with
                | NoFault => perform (OpRename src dst) (<[dst := n]> (delete src fs))
                | _ => raise PermissionError
                end
            end
        end
  end.

(** [open(p, 'a')], as [logging.FileHandler(p)] does when it is made: a
    file that is not there is made, empty. *)
Definition open_append (env : Env) (p : Path) : M unit :=
  fs <- get_fs ;;
  match Fs.stat fs p with
  | None => raise TooManyLinks
  | Some (_, Some Dir) => raise IsADirectoryError
  | Some (_, Some (Symlink _)) => raise TooManyLinks
  | Some (_, Some (File _ _)) =>
      f <- fault_of env (OpOpen p) ;;
      match f with
      | Denied => raise PermissionError
      | _ => perform (OpOpen p) fs
      end
  | Some (q, None) =>
      match parent_error fs q with
      | Some e => raise e
      | None =>
          f <- fault_of env (OpOpen p) ;;
          match f with
          | NoFault => perform (OpOpen p) (<[q := File "" false]> fs)
          | Denied => raise PermissionError
          | NoSpace => raise NoSpaceError
          end
      end
  end.

(** [open(p).read()] *)
Definition read_file (p : Path) : M string :=
  fs <- get_fs ;;
  match Fs.stat fs p with
  | None => raise TooManyLinks
  | Some (_, Some (File data _)) => ret data
  | Some (_, Some Dir) => raise IsADirectoryError
  | Some (_, _) => raise FileNotFoundError
  end.

(** [subprocess.run([path], input=stdin, capture_output=True, text=True,
    timeout=30)]: the program at [path] must lead to an executable file. *)
Definition subprocess_run (env : Env) (path : string) (stdin : string) : M proc_outcome :=
  fun w =>
    let fs := w_fs w in
    let out :=
      match Fs.stat fs (PyPath.of_str path) with
      | Some (_, Some (File body true)) => proc env (length (w_log w)) body stdin
      | Some (_, Some (File _ false)) => ProcRaised (exn_str env PermissionError)
      | Some (_, Some Dir) => ProcRaised (exn_str env PermissionError)
      | None => ProcRaised (exn_str env TooManyLinks)
      | _ => ProcRaised (exn_str env FileNotFoundError)
      end in
    (Ok out, mkWorld fs (w_log w ++ [mkEvent (OpSpawn [path] stdin) fs]) (w_clock w)).

End Os.

(** ** The runner *)

Definition VERSION : string := "1.0.0".
Definition DEFAULT_TEXTFILE_DIR : string := "/var/lib/node_exporter/textfile_collector".
Definition DEFAULT_CHECK_SCRIPTS_DIR : string := "/usr/local/lib/aami/checks".
Definition DEFAULT_CONFIG_FILE : string := "/etc/aami/config".
Definition DEFAULT_LOG_FILE : string := "/var/log/aami/dynamic-check.log".

(** The dataclass declares [str] and [dict] fields but nothing enforces
    them: a field holds whatever the payload had. *)
Record CheckInfo : Type := mkCheckInfo {
  name : json;
  script_content : json;
  script_hash : json;
  config : json
}.

Record CheckResult : Type := mkCheckResult {
  r_name : json;
  success : bool;
  output : string;
  error : option string
}.

Record DynamicCheckRunner : Type := mkRunner {
  config_server_url : string;
  hostname : string;
  debug : bool;
  textfile_dir : Path;
  check_scripts_dir : Path;
  config_file : Path;
  log_file : Path
}.

Definition nl : string := String (PyStr.chr 10) EmptyString.
Definition dq : string := String (PyStr.chr 34) EmptyString.

Definition set_config_server_url (self : DynamicCheckRunner) (url : string)
  : DynamicCheckRunner :=
  mkRunner url (hostname self) (debug self) (textfile_dir self)
           (check_scripts_dir self) (config_file self) (log_file self).

(** The value of the first line that, stripped, starts with the key: the
    text after the first [=], stripped of double quotes and then of single
    quotes at both ends. *)
Fixpoint find_url (ls : list string) : option string :=
  match ls with
  | [] => None
  | l :: rest =>
      let line := PyStr.strip l in
      if PyStr.startswith line "AAMI_CONFIG_SERVER_URL=" then
        match snd (PyStr.split1 "="%char line) with
        | Some v => Some (PyStr.strip_char (PyStr.chr 39) (PyStr.strip_char (PyStr.chr 34) v))
        | None => None
        end
      else find_url rest
  end.

(** [_setup_logging], as far as it touches the disk: the directory of the
    log file is made and the file handler opens the log file; when either
    is refused ([PermissionError]) the runner logs to the console instead.
    The log file is taken as given ([main] gives an absolute, normalised
    one). *)
Definition _setup_logging (env : Env) (self : DynamicCheckRunner) : M unit :=
  try_except_when is_permission_error
    (Os.makedirs env (PyPath.parent (log_file self)) ;;;
     Os.open_append env (log_file self))
    (fun _ => ret tt).

Definition _load_config (self : DynamicCheckRunner) : M DynamicCheckRunner :=
  if negb (String.eqb (config_server_url self) "") then ret self
  else
    fs <- get_fs ;;
    if Fs.exists_ fs (config_file self) then
      (* except OSError *)
      try_except_when is_os_error
        (text <- Os.read_file (config_file self) ;;
         match find_url (PyStr.lines text) with
         | Some value => ret (set_config_server_url self value)
         | None => ret self
         end)
        (fun _ => ret self)
    else ret self.

Definition _ensure_directories (env : Env) (self : DynamicCheckRunner) : M unit :=
  Os.makedirs env (textfile_dir self) ;;;
  Os.makedirs env (check_scripts_dir self).

(** [DynamicCheckRunner(...)]: the arguments, then [_setup_logging],
    [_load_config] and [_ensure_directories]. *)
Definition __init__ (env : Env) (config_server_url hostname : string) (debug : bool)
    (textfile_dir check_scripts_dir config_file log_file : string)
  : M DynamicCheckRunner :=
  let self :=
    mkRunner config_server_url
             (if String.eqb hostname "" then gethostname env else hostname)
             debug (PyPath.of_str textfile_dir) (PyPath.of_str check_scripts_dir)
             (PyPath.of_str config_file) (PyPath.of_str log_file) in
  _setup_logging env self ;;;
  self <- _load_config self ;;
  _ensure_directories env self ;;;
  ret self.

(** [for item in data]: the elements of a list, the keys of an object, the
    characters of a string; nothing else can be iterated. *)
Definition py_iter (data : json) : option (list json) :=
  match data with
  | JList l => Some l
  | JDict d => Some (List.map (fun kv => JStr (fst kv)) d)
  | JStr s => Some (List.map (fun c => JStr (String c EmptyString)) (list_ascii_of_string s))
  | _ => None
  end.

(** [item.get(key, default)]; only an object has [get]. *)
Definition py_get (item : json) (key : string) (dflt : json) : option json :=
  match item with
  | JDict d => Some (default dflt (Json.assoc key d))
  | _ => None
  end.

Definition fetch_url (self : DynamicCheckRunner) : string :=
  PyStr.rstrip_char PyStr.slash (config_server_url self)
  +:+ "/api/v1/checks/target/hostname/" +:+ hostname self.

(** The body of the loop over the payload: a record that is not an object
    has no [get], which ends the whole fetch. *)
Definition check_of_item (item : json) : option CheckInfo :=
  match py_get item "name" (JStr EmptyString),
        py_get item "script_content" (JStr EmptyString),
        py_get item "script_hash" (JStr EmptyString),
        py_get item "config" JNull with
  | Some n, Some c, Some h, Some g =>
      Some (mkCheckInfo n c h (if Json.truthy g then g else JDict []))
  | _, _, _, _ => None
  end.

Fixpoint checks_of_items (items : list json) : option (list CheckInfo) :=
  match items with
  | [] => Some []
  | item :: rest =>
      match check_of_item item with
      | Some check =>
          match checks_of_items rest with
          | Some checks => Some (check :: checks)
          | None => None
          end
      | None => None
      end
  end.

(** What the fetch makes of the answer; every exception gives [None]. *)
Definition checks_of_outcome (o : fetch_outcome) : option (list CheckInfo) :=
  match o with
  | Payload data =>
      match py_iter data with
      | Some items => checks_of_items items
      | None => None
      end
  | _ => None
  end.

Definition _fetch_effective_checks (env : Env) (self : DynamicCheckRunner)
  : M (option (list CheckInfo)) :=
  let url := fetch_url self in
  (fs <- get_fs ;; perform (OpUrlopen url) fs) ;;;
  ret (checks_of_outcome (urlopen env url)).

(** Whether [v[:8]] can be taken. *)
Definition sliceable (v : json) : bool :=
  match v with
  | JStr _ | JList _ => true
  | _ => false
  end.

Definition script_dir_of (self : DynamicCheckRunner) (nm : string) : Path :=
  PyPath.join (check_scripts_dir self) nm.

Definition script_file_of (self : DynamicCheckRunner) (nm : string) (hash : json) : Path :=
  PyPath.join (script_dir_of self nm) (nm +:+ "_" +:+ Json.str hash +:+ ".sh").

Definition current_link_of (self : DynamicCheckRunner) (nm : string) : Path :=
  PyPath.join (script_dir_of self nm) "current.sh".

Definition _save_check_script (env : Env) (self : DynamicCheckRunner) (check : CheckInfo)
  : M Path :=
  match name check with
  | JStr nm =>
      let script_dir := script_dir_of self nm in
      Os.makedirs env script_dir ;;;
      let script_file := script_file_of self nm (script_hash check) in
      let current_link := current_link_of self nm in
      (* Check if script already exists with this hash *)
      (fs <- get_fs ;;
       if Fs.exists_ fs script_file then ret tt
       else
         (* the log line formats check.script_hash[:8] *)
         if sliceable (script_hash check) then
           match script_content check with
           | JStr body =>
               Os.write_text env script_file body ;;;
               Os.chmod_755 env script_file
           | _ => raise TypeError
           end
         else raise TypeError) ;;;
      (* Update symlink to current version *)
      (fs <- get_fs ;;
       if Fs.is_symlink fs current_link then Os.unlink env current_link
       else if Fs.exists_ fs current_link then Os.unlink env current_link
       else ret tt) ;;;
      Os.symlink_to env current_link script_file ;;;
      ret current_link
  | _ => raise TypeError      (* check_scripts_dir / check.name *)
  end.

Definition _generate_error_metric (check_name : json) : string :=
  "# HELP aami_check_error Check execution error (1=error)" +:+ nl +:+
  "# TYPE aami_check_error gauge" +:+ nl +:+
  "aami_check_error{check=" +:+ dq +:+ Json.str check_name +:+ dq +:+ "} 1" +:+ nl.

(** What the two [except] clauses of [_execute_check] catch. *)
Inductive caught : Type :=
| CaughtTimeout
| CaughtException (msg : string).

Definition output_file_of (self : DynamicCheckRunner) (check_name : json) : Path :=
  PyPath.join (textfile_dir self) (Json.str check_name +:+ ".prom.tmp").

Definition final_file_of (self : DynamicCheckRunner) (check_name : json) : Path :=
  PyPath.join (textfile_dir self) (Json.str check_name +:+ ".prom").

(** Whether the child did not end with exit code 0. *)
Definition is_failure (o : proc_outcome) : bool :=
  match o with
  | Completed returncode _ _ => negb (returncode =? 0)%Z
  | _ => true
  end.

Definition _execute_check (env : Env) (self : DynamicCheckRunner)
    (check_name : json) (script_path : Path) (config : json) : M CheckResult :=
  let output_file := output_file_of self check_name in
  let final_file := final_file_of self check_name in
  let write_error_metric : M unit :=
    let error_output := _generate_error_metric check_name in
    Os.write_text env output_file error_output ;;;
    Os.rename env output_file final_file in
  r <- try_except
         ((* Execute check script with config as stdin *)
          let config_json := Json.dumps config in
          result <- Os.subprocess_run env (PyPath.str script_path) config_json ;;
          match result with
          | Completed returncode stdout stderr =>
              if (returncode =? 0)%Z then
                (* Write output to temp file, then atomically move *)
                Os.write_text env output_file stdout ;;;
                Os.rename env output_file final_file ;;;
                ret (inl (mkCheckResult check_name true stdout None))
              else
                (* Write error metric *)
                write_error_metric ;;;
                ret (inl (mkCheckResult check_name false stdout (Some stderr)))
          | TimeoutExpired => ret (inr CaughtTimeout)
          | ProcRaised msg => ret (inr (CaughtException msg))
          end)
         (fun e => ret (inr (CaughtException (exn_str env e)))) ;;
  match r with
  | inl res => ret res
  | inr CaughtTimeout =>
      write_error_metric ;;;
      ret (mkCheckResult check_name false EmptyString (Some "Timeout"))
  | inr (CaughtException msg) =>
      write_error_metric ;;;
      ret (mkCheckResult check_name false EmptyString (Some msg))
  end.

(** The text of the status file. *)
Definition status_metrics (status_value timestamp duration
                           checks_total checks_success checks_failed : Z) : string :=
  "# HELP aami_check_fetch_status Check fetch status (1=success, 0=failed)" +:+ nl +:+
  "# TYPE aami_check_fetch_status gauge" +:+ nl +:+
  "aami_check_fetch_status " +:+ pretty status_value +:+ nl +:+
  nl +:+
  "# HELP aami_check_fetch_timestamp_seconds Last check fetch timestamp" +:+ nl +:+
  "# TYPE aami_check_fetch_timestamp_seconds gauge" +:+ nl +:+
  "aami_check_fetch_timestamp_seconds " +:+ pretty timestamp +:+ nl +:+
  nl +:+
  "# HELP aami_check_execution_duration_seconds Check execution duration" +:+ nl +:+
  "# TYPE aami_check_execution_duration_seconds gauge" +:+ nl +:+
  "aami_check_execution_duration_seconds " +:+ pretty duration +:+ nl +:+
  nl +:+
  "# HELP aami_checks_total Total number of checks configured" +:+ nl +:+
  "# TYPE aami_checks_total gauge" +:+ nl +:+
  "aami_checks_total " +:+ pretty checks_total +:+ nl +:+
  nl +:+
  "# HELP aami_checks_success Number of successful checks" +:+ nl +:+
  "# TYPE aami_checks_success gauge" +:+ nl +:+
  "aami_checks_success " +:+ pretty checks_success +:+ nl +:+
  nl +:+
  "# HELP aami_checks_failed Number of failed checks" +:+ nl +:+
  "# TYPE aami_checks_failed gauge" +:+ nl +:+
  "aami_checks_failed " +:+ pretty checks_failed +:+ nl.

Definition status_file_of (self : DynamicCheckRunner) : Path :=
  PyPath.join (textfile_dir self) "aami_status.prom".

Definition status_temp_of (self : DynamicCheckRunner) : Path :=
  PyPath.join (textfile_dir self) "aami_status.prom.tmp".

Definition _write_status_metrics (env : Env) (self : DynamicCheckRunner)
    (success : bool) (checks_total checks_success checks_failed duration : Z) : M unit :=
  now <- time env ;;
  timestamp <- py_int now ;;
  let status_value := if success then 1 else 0 in
  let metrics := status_metrics status_value timestamp duration
                   checks_total checks_success checks_failed in
  let status_file := status_file_of self in
  let temp_file := status_temp_of self in
  Os.write_text env temp_file metrics ;;;
  Os.rename env temp_file status_file.

(** The loop of [run] over the fetched checks, with its two counters. *)
Fixpoint run_checks (env : Env) (self : DynamicCheckRunner) (checks : list CheckInfo)
    (checks_success checks_failed : Z) : M (Z * Z) :=
  match checks with
  | [] => ret (checks_success, checks_failed)
  | check :: rest =>
      (* Save script *)
      script_path <- _save_check_script env self check ;;
      (* Execute check *)
      result <- _execute_check env self (name check) script_path (config check) ;;
      if success result
      then run_checks env self rest (checks_success + 1) checks_failed
      else run_checks env self rest checks_success (checks_failed + 1)
  end.

Definition run (env : Env) (self : DynamicCheckRunner) : M Z :=
  if String.eqb (config_server_url self) "" then
    _write_status_metrics env self false 0 0 0 0 ;;;
    ret 1
  else
    start_time <- time env ;;
    (* Fetch effective checks *)
    checks <- _fetch_effective_checks env self ;;
    match checks with
    | None =>
        t <- time env ;;
        duration <- py_int (t - start_time)%float ;;
        _write_status_metrics env self false 0 0 0 duration ;;;
        ret 1
    | Some checks =>
        (* Execute checks *)
        let checks_total := Z.of_nat (length checks) in
        counts <- run_checks env self checks 0 0 ;;
        (* Write status metrics *)
        t <- time env ;;
        duration <- py_int (t - start_time)%float ;;
        _write_status_metrics env self true checks_total (fst counts) (snd counts)
                              duration ;;;
        ret 0
    end.

(** The parsed command line. *)
Record Args : Type := mkArgs {
  arg_config_server : string;
  arg_hostname : string;
  arg_debug : bool;
  arg_textfile_dir : string;
  arg_check_scripts_dir : string
}.

(** What the user typed: an option that was not given is [None]; [-d] is
    a switch. *)
Record Flags : Type := mkFlags {
  flag_config_server : option string;
  flag_hostname : option string;
  flag_debug : bool;
  flag_textfile_dir : option string;
  flag_check_scripts_dir : option string
}.

(** [os.environ.get(key, dflt)] *)
Definition environ_get (environ : gmap string string) (key dflt : string) : string :=
  default dflt (environ !! key).

(** [parser.parse_args()] in [main]: an option that was not given takes its
    default, which is read from the environment. *)
Definition parse_args (environ : gmap string string) (flags : Flags) : Args :=
  mkArgs
    (default (environ_get environ "AAMI_CONFIG_SERVER_URL" EmptyString)
             (flag_config_server flags))
    (default (environ_get environ "AAMI_HOSTNAME" EmptyString) (flag_hostname flags))
    (flag_debug flags || String.eqb (environ_get environ "AAMI_DEBUG" "0") "1")
    (default (environ_get environ "TEXTFILE_DIR" DEFAULT_TEXTFILE_DIR)
             (flag_textfile_dir flags))
    (default (environ_get environ "CHECK_SCRIPTS_DIR" DEFAULT_CHECK_SCRIPTS_DIR)
             (flag_check_scripts_dir flags)).

(** What [parser.parse_args()] makes of the command line: [-h] or
    [--help] prints the help and [-V] or [--version] the version, and the
    process ends with status 0; a command line that argparse does not accept
    ends it with status 2; otherwise the options are returned. *)
Inductive cmdline : Type :=
| CmdHelp
| CmdVersion
| CmdUsageError
| CmdOptions (flags : Flags).

(** How the process ends: [sys.exit(n)] gives status [n]; an exception that
    nothing catches ends the interpreter with status 1. *)
Definition exit_status (r : result Z) : Z :=
  match r with
  | Ok status => status
  | Raise _ => 1
  end.

(** [main()]: the exit status of the process. *)
Definition main (env : Env) (environ : gmap string string) (cmd : cmdline) (w : World)
  : Z * World :=
  match cmd with
  | CmdHelp | CmdVersion => (0, w)
  | CmdUsageError => (2, w)
  | CmdOptions flags =>
      let args := parse_args environ flags in
      let r := (runner <- __init__ env (arg_config_server args) (arg_hostname args)
                            (arg_debug args) (arg_textfile_dir args)
                            (arg_check_scripts_dir args)
                            DEFAULT_CONFIG_FILE DEFAULT_LOG_FILE ;;
                run env runner) w in
      (exit_status (fst r), snd r)
  end.

(** The results the checks produce one after the other, which [run] only
    counts. *)
Fixpoint check_results (env : Env) (self : DynamicCheckRunner) (checks : list CheckInfo)
  : M (list CheckResult) :=
  match checks with
  | [] => ret []
  | check :: rest =>
      script_path <- _save_check_script env self check ;;
      result <- _execute_check env self (name check) script_path (config check) ;;
      results <- check_results env self rest ;;
      ret (result :: results)
  end.

Definition count_succeeded (rs : list CheckResult) : Z :=
  Z.of_nat (length (List.filter success rs)).

Definition count_failed (rs : list CheckResult) : Z :=
  Z.of_nat (length (List.filter (fun r => negb (success r)) rs)).

(** The world in which the loop of [run] starts: the clock was read once and
    the request was sent. *)
Definition after_fetch (self : DynamicCheckRunner) (w : World) : World :=
  mkWorld (w_fs w)
          (w_log w ++ [mkEvent (OpUrlopen (fetch_url self)) (w_fs w)])
          (S (w_clock w)).

(** The events of [w'] that [w] does not have yet. *)
Definition new_events (w w' : World) : list event :=
  skipn (length (w_log w)) (w_log w').

Definition is_spawn (o : op) : bool :=
  match o with OpSpawn _ _ => true | _ => false end.

Definition is_write (o : op) : bool :=
  match o with OpWrite _ _ => true | _ => false end.

Definition is_urlopen (o : op) : bool :=
  match o with OpUrlopen _ => true | _ => false end.

(** The world right after the child of a check was run, and what the child
    gave back. *)
Definition child_world (script_path : Path) (config : json) (w : World) : World :=
  mkWorld (w_fs w)
          (w_log w ++ [mkEvent (OpSpawn [PyPath.str script_path] (Json.dumps config))
                               (w_fs w)])
          (w_clock w).

Definition child_outcome (env : Env) (script_path : Path) (config : json) (w : World)
  : proc_outcome :=
  match fst (Os.subprocess_run env (PyPath.str script_path) (Json.dumps config) w) with
  | Ok o => o
  | Raise _ => TimeoutExpired
  end.

(** Writing [data] to the temporary file of a check and renaming it onto
    the metric file. *)
Definition publish_check (env : Env) (self : DynamicCheckRunner) (check_name : json)
    (data : string) : M unit :=
  Os.write_text env (output_file_of self check_name) data ;;;
  Os.rename env (output_file_of self check_name) (final_file_of self check_name).

(** [published_last w w' p dst data]: the last two calls between [w] and
    [w'] wrote [data] to [p] and renamed [p] onto [dst]. *)
Definition published_last (w w' : World) (p dst : Path) (data : string) : Prop :=
  exists evs fs1,
    new_events w w' =
      evs ++ [mkEvent (OpWrite p data) fs1; mkEvent (OpRename p dst) (w_fs w')].

(** The calls the script cache makes. *)
Definition is_cache_op (o : op) : bool :=
  match o with
  | OpMkdir _ | OpWrite _ _ | OpChmod _ | OpUnlink _ | OpSymlink _ _ => true
  | _ => false
  end.

Definition is_rename (o : op) : bool :=
  match o with OpRename _ _ => true | _ => false end.

(** ** Notions used in the proofs *)

(** A text without line feed. *)
Definition one_line (s : string) : Prop := PyStr.contains (PyStr.chr 10) s = false.

(** The samples of a metric file as a scraper reads them: its lines, the
    empty ones and the comments ([# HELP], [# TYPE]) left out. *)
Definition samples (text : string) : list string :=
  List.filter (fun l => negb (String.eqb l "") && negb (PyStr.startswith l "#"))
              (PyStr.split (PyStr.chr 10) text).

(** [log_grows P w w']: the log of [w'] is the log of [w] followed by calls
    that all satisfy [P]. *)
Definition log_grows (P : op -> Prop) (w w' : World) : Prop :=
  exists evs, w_log w' = w_log w ++ evs /\ Forall (fun ev => P (ev_op ev)) evs.

(** [emits P m]: whatever [m] does, it only adds calls that satisfy [P]. *)
Definition emits {A} (P : op -> Prop) (m : M A) : Prop :=
  forall w r w', m w = (r, w') -> log_grows P w w'.

Definition is_mkdir (o : op) : Prop := exists p, o = OpMkdir p.

(** The calls that publish a file: a write to the temporary path [p] or the
    renaming of [p] onto [dst]. *)
Definition is_publish (p dst : Path) (o : op) : Prop :=
  (exists data, o = OpWrite p data) \/ o = OpRename p dst.

Definition is_status_publish (self : DynamicCheckRunner) : op -> Prop :=
  is_publish (status_temp_of self) (status_file_of self).

(** The second step of [_save_check_script]: the body is written unless
    the script file exists. *)
Definition save_body (env : Env) (self : DynamicCheckRunner) (nm : string)
    (check : CheckInfo) : M unit :=
  fs <- get_fs ;;
  if Fs.exists_ fs (script_file_of self nm (script_hash check)) then ret tt
  else
    if sliceable (script_hash check) then
      match script_content check with
      | JStr body =>
          Os.write_text env (script_file_of self nm (script_hash check)) body ;;;
          Os.chmod_755 env (script_file_of self nm (script_hash check))
      | _ => raise TypeError
      end
    else raise TypeError.

(** The third step: the pointer is removed if there is one. *)
Definition remove_pointer (env : Env) (self : DynamicCheckRunner) (nm : string) : M unit :=
  fs <- get_fs ;;
  if Fs.is_symlink fs (current_link_of self nm) then Os.unlink env (current_link_of self nm)
  else if Fs.exists_ fs (current_link_of self nm) then Os.unlink env (current_link_of self nm)
  else ret tt.

(** [link_kept k w0 w]: there is an entry at [k] in [w] and after every
    call since [w0]. *)
Definition link_kept (k : Path) (w0 w : World) : Prop :=
  Fs.lstat (w_fs w) k <> None
  /\ exists evs, w_log w = w_log w0 ++ evs
                 /\ Forall (fun ev => Fs.lstat (ev_fs ev) k <> None) evs.

(** [preserves I m]: [m] keeps the invariant [I], also when it raises. *)
Definition preserves {A} (I : World -> Prop) (m : M A) : Prop :=
  forall w r w', m w = (r, w') -> I w -> I w'.

(** [fs_grows fs fs']: every entry of [fs] is in [fs'] as it is, and what
    [fs'] has besides are directories and empty files. *)
Definition fs_grows (fs fs' : FS) : Prop :=
  forall p,
    match Fs.lstat fs p with
    | Some n => Fs.lstat fs' p = Some n
    | None => Fs.lstat fs' p = None \/ Fs.lstat fs' p = Some Dir
              \/ Fs.lstat fs' p = Some (File "" false)
    end.

(** ** Reading a JSON text *)

(** The characters of a number. *)
Definition numchar (c : ascii) : bool :=
  Ascii.eqb c "-" || (48 <=? PyStr.ord c)%nat && (PyStr.ord c <=? 57)%nat.

Fixpoint all_numchars (s : string) : bool :=
  match s with
  | EmptyString => true
  | String c s' => numchar c && all_numchars s'
  end.

(** What may follow a value inside a JSON text: nothing, or a character
    that begins no value and continues no number. *)
Definition is_delim (r : string) : bool :=
  match r with
  | EmptyString => true
  | String c _ => Ascii.eqb c "," || Ascii.eqb c "]" || Ascii.eqb c "}"
  end.

Definition hexval (c : ascii) : nat :=
  let n := PyStr.ord c in
  if (n <? 58)%nat then n - 48 else n - 87.

(** The character a JSON string begins with, and the rest. *)
Definition unescape_head (s : string) : option (ascii * string) :=
  match s with
  | EmptyString => None
  | String c r =>
      if Ascii.eqb c "\" then
        match r with
        | String k r' =>
            if Ascii.eqb k "u" then
              match r' with
              | String _ (String _ (String h1 (String h2 r''))) =>
                  Some (PyStr.chr (16 * hexval h1 + hexval h2), r'')
              | _ => None
              end
            else if Ascii.eqb k "b" then Some (PyStr.chr 8, r')
            else if Ascii.eqb k "f" then Some (PyStr.chr 12, r')
            else if Ascii.eqb k "n" then Some (PyStr.chr 10, r')
            else if Ascii.eqb k "r" then Some (PyStr.chr 13, r')
            else if Ascii.eqb k "t" then Some (PyStr.chr 9, r')
            else Some (k, r')
        | EmptyString => None
        end
      else Some (c, r)
  end.

Definition delimchar (c : ascii) : bool :=
  Ascii.eqb c "," || Ascii.eqb c "]" || Ascii.eqb c "}".

(** [dumps_prefix_at v]: a text that begins with the text of [v], followed
    by a delimiter, begins with the text of no other value. *)
Definition dumps_prefix_at (v : json) : Prop :=
  forall b r1 r2, is_delim r1 = true -> is_delim r2 = true ->
    Json.dumps v +:+ r1 = Json.dumps b +:+ r2 -> v = b /\ r1 = r2.

(** What follows the first element of a joined list. *)
Definition tail_of (sep : string) (l : list string) : string :=
  match l with
  | [] => ""
  | _ => sep +:+ PyStr.join sep l
  end.

(** ** A concrete host

    Three checks as the server sends them: [A] prints a metric and exits
    with 0, [B] exits with 1, [C] runs into the timeout. *)
Module Ex.

(** A shell script of one command. *)
Definition sh (command : string) : string :=
  "#!/bin/sh" +:+ nl +:+ command +:+ nl.

Definition script_A : string := sh "echo up 1".
Definition script_B : string := sh "exit 1".
Definition script_C : string := sh "sleep 99".

Definition records : list (list (string * json)) :=
  [ [("name", JStr "A"); ("script_content", JStr script_A); ("script_hash", JStr "h1")];
    [("name", JStr "B"); ("script_content", JStr script_B); ("script_hash", JStr "h2");
     ("config", JDict [("limit", JInt 3)])];
    [("name", JStr "C"); ("script_content", JStr script_C); ("script_hash", JStr "h3")] ].

Definition checkA : CheckInfo :=
  mkCheckInfo (JStr "A") (JStr script_A) (JStr "h1") (JDict []).
Definition checkB : CheckInfo :=
  mkCheckInfo (JStr "B") (JStr script_B) (JStr "h2") (JDict [("limit", JInt 3)]).
Definition checkC : CheckInfo :=
  mkCheckInfo (JStr "C") (JStr script_C) (JStr "h3") (JDict []).

(** What the scripts do: a text that is none of them is not started. *)
Definition child (body stdin : string) : proc_outcome :=
  if String.eqb body script_A then Completed 0 ("up 1" +:+ nl) EmptyString
  else if String.eqb body script_B then Completed 1 "partial output" "boom"
  else if String.eqb body script_C then TimeoutExpired
  else ProcRaised "[Errno 8] Exec format error".

(** The same scripts on a host where [B] prints something else and exits
    with another code. *)
Definition child' (body stdin : string) : proc_outcome :=
  if String.eqb body script_A then Completed 0 ("up 1" +:+ nl) EmptyString
  else if String.eqb body script_B then Completed 7 "other text" EmptyString
  else if String.eqb body script_C then TimeoutExpired
  else ProcRaised "[Errno 8] Exec format error".

(** The clock starts at 1000 and every reading is two seconds later. *)
Fixpoint clock (n : nat) : float :=
  match n with
  | O => 1000%float
  | S k => (clock k + 2)%float
  end.

Definition env : Env :=
  mkEnv (fun _ => Payload (JList (List.map JDict records)))
        (fun _ => child) clock (fun _ _ => NoFault) "host1" (fun _ => "error").

Definition env' : Env :=
  mkEnv (fun _ => Payload (JList (List.map JDict records)))
        (fun _ => child') clock (fun _ _ => NoFault) "host1" (fun _ => "error").

(** The server cannot be reached. *)
Definition env_down : Env :=
  mkEnv (fun _ => URLError)
        (fun _ => child) clock (fun _ _ => NoFault) "host1" (fun _ => "error").

Definition self : DynamicCheckRunner :=
  mkRunner "http://config-server:8080/" "host1" false
           (PyPath.of_str "/tf") (PyPath.of_str "/cache")
           (PyPath.of_str DEFAULT_CONFIG_FILE) (PyPath.of_str DEFAULT_LOG_FILE).

Definition self_no_url : DynamicCheckRunner :=
  mkRunner EmptyString "host1" false
           (PyPath.of_str "/tf") (PyPath.of_str "/cache")
           (PyPath.of_str DEFAULT_CONFIG_FILE) (PyPath.of_str DEFAULT_LOG_FILE).

(** [dynamic_check.py -c http://config-server:8080/ --textfile-dir /tf
    --check-scripts-dir /cache], with nothing in the environment. *)
Definition environ : gmap string string := ∅.
Definition flags : Flags :=
  mkFlags (Some "http://config-server:8080/") None false (Some "/tf") (Some "/cache").

(** The script file of [A] cannot be written (permission denied). *)
Definition deny_script_A (n : nat) (o : op) : fault :=
  match o with
  | OpWrite p _ =>
      if bool_decide (p = script_file_of self "A" (JStr "h1")) then Denied else NoFault
  | _ => NoFault
  end.

Definition env_denied : Env :=
  mkEnv (fun _ => Payload (JList (List.map JDict records)))
        (fun _ => child) clock deny_script_A "host1" (fun _ => "error").

(** The server sends one record whose name is [null]; the disk is fine. *)
Definition env_null : Env :=
  mkEnv (fun _ => Payload (JList [JDict [("name", JNull);
                                         ("script_content", JStr script_A);
                                         ("script_hash", JStr "h1")]]))
        (fun _ => child) clock (fun _ _ => NoFault) "host1" (fun _ => "error").

(** An empty disk, and the disk with the two directories of the runner. *)
Definition w_empty : World := mkWorld ∅ [] 0.

Definition w0 : World :=
  mkWorld (<[PyPath.of_str "/tf" := Dir]> (<[PyPath.of_str "/cache" := Dir]> ∅)) [] 0.

(** The world after the script of [A] was saved once. *)
Definition w_saved : World := snd (_save_check_script env self checkA w0).

(** The world after the script of [B] was saved. *)
Definition w_saved_B : World := snd (_save_check_script env self checkB w0).

End Ex.

(** The line of the config file that sets the server URL. *)
Definition url_key : string := "AAMI_CONFIG_SERVER_URL=".

Definition is_url_line (l : string) : bool :=
  PyStr.startswith (PyStr.strip l) url_key.

(** The value of a config line: the quotes around it are dropped. *)
Definition unquote (v : string) : string :=
  PyStr.strip_char (PyStr.chr 39) (PyStr.strip_char (PyStr.chr 34) v).

(** Whether a JSON value is an object, the only kind with [get]. *)
Definition is_object (v : json) : bool :=
  match v with JDict _ => true | _ => false end.


(** The child process that [run] starts for a check: the pointer of the
    check as the whole command line, the serialized config as input. *)
Definition spawn_of (self : DynamicCheckRunner) (check : CheckInfo) : op :=
  OpSpawn [PyPath.str (current_link_of self (Json.str (name check)))]
          (Json.dumps (config check)).

(** A component as [Path] keeps them: not empty, not ["."], no slash. *)
Definition part_ok (c : string) : bool :=
  PyPath.keep_part c && negb (PyStr.contains PyStr.slash c).

(** A path as [Path(...)] and [/] build them. *)
Definition path_wf (p : Path) : bool :=
  (String.eqb (root p) "" || String.eqb (root p) "/" || String.eqb (root p) "//")
  && forallb part_ok (parts p).

(** A plain name: one component that names an entry of the directory it is
    joined to (no slash, not empty, neither [.] nor [..]). *)
Definition plain (c : string) : bool :=
  part_ok c && negb (String.eqb c "..").

(** An absolute path of plain names. *)
Definition plain_path (p : Path) : bool :=
  String.eqb (root p) "/" && forallb plain (parts p).

(** Whether a file can be written at [p] as the disk is: nothing is there,
    or a regular file. *)
Definition writable_at (fs : FS) (p : Path) : bool :=
  match Fs.lstat fs p with
  | None | Some (File _ _) => true
  | _ => false
  end.

(** ** A host that is configured by file *)
Module Ex2.

Definition config_text : string :=
  "# aami" +:+ nl +:+
  "  AAMI_CONFIG_SERVER_URL=" +:+ dq +:+ "http://cfg:8080/?a=b" +:+ dq +:+ nl +:+
  "AAMI_CONFIG_SERVER_URL=http://other" +:+ nl.

(** The disk of [Ex.w0] with the config file. *)
Definition w_config : World :=
  mkWorld (<[PyPath.of_str DEFAULT_CONFIG_FILE := File config_text false]>
             (<[PyPath.of_str "/etc/aami" := Dir]>
                (<[PyPath.of_str "/etc" := Dir]> (w_fs Ex.w0)))) [] 0.

Definition environ : gmap string string :=
  <["AAMI_HOSTNAME" := "node7"]> (<["TEXTFILE_DIR" := "/tf"]> ∅).

(** [dynamic_check.py --check-scripts-dir /cache] *)
Definition flags : Flags := mkFlags None None false None (Some "/cache").

(** A second version of the check [A]. *)
Definition checkA2 : CheckInfo :=
  mkCheckInfo (JStr "A") (JStr (Ex.sh "echo up 2")) (JStr "h1b") (JDict []).

End Ex2.

(** * Properties *)

(** ** Strings *)

Lemma app_cons a s t : String a s +:+ t = String a (s +:+ t).
Proof. reflexivity. Qed.

Lemma append_assoc (a b c : string) : (a +:+ b) +:+ c = a +:+ (b +:+ c).
Proof. induction a as [|x a IH]; [reflexivity|]. rewrite !app_cons, IH. reflexivity. Qed.

Lemma append_inj_l (x a b : string) : x +:+ a = x +:+ b -> a = b.
Proof.
  induction x as [|c x IH]; [auto|]. rewrite !app_cons. intros H.
  injection H as H. auto.
Qed.

(** ** The fetcher *)

Lemma checks_of_items_objects (ds : list (list (string * json))) :
  checks_of_items (List.map JDict ds) =
  Some (List.map (fun d =>
          mkCheckInfo (default (JStr EmptyString) (Json.assoc "name" d))
                      (default (JStr EmptyString) (Json.assoc "script_content" d))
                      (default (JStr EmptyString) (Json.assoc "script_hash" d))
                      (let g := default JNull (Json.assoc "config" d) in
                       if Json.truthy g then g else JDict [])) ds).
Proof.
  induction ds as [|d ds IH]; cbn [List.map checks_of_items]; [reflexivity|].
  rewrite IH. reflexivity.
Qed.

(** C9. Every record of a fetched payload (a list of objects) becomes one
    check, none is rejected; a missing [name], [script_content] or
    [script_hash] becomes the empty string and a missing [config] the empty
    mapping. *)
Theorem fetch_defaults (env : Env) (self : DynamicCheckRunner) (w : World)
    (ds : list (list (string * json))) :
  urlopen env (fetch_url self) = Payload (JList (List.map JDict ds)) ->
  exists checks,
    fst (_fetch_effective_checks env self w) = Ok (Some checks)
    /\ length checks = length ds
    /\ forall i d check, ds !! i = Some d -> checks !! i = Some check ->
         (Json.assoc "name" d = None -> name check = JStr EmptyString)
         /\ (Json.assoc "script_content" d = None -> script_content check = JStr EmptyString)
         /\ (Json.assoc "script_hash" d = None -> script_hash check = JStr EmptyString)
         /\ (Json.assoc "config" d = None -> config check = JDict [])
         /\ (forall v, Json.assoc "name" d = Some v -> name check = v)
         /\ (forall v, Json.assoc "script_content" d = Some v -> script_content check = v)
         /\ (forall v, Json.assoc "script_hash" d = Some v -> script_hash check = v)
         /\ (forall v, Json.assoc "config" d = Some v -> Json.truthy v = true ->
               config check = v).
Proof.
  intros Hpay. eexists. split.
  - unfold _fetch_effective_checks, bind, get_fs, perform, ret. cbn.
    rewrite Hpay. cbn [checks_of_outcome py_iter].
    rewrite checks_of_items_objects. reflexivity.
  - split; [apply length_map|].
    intros i d check Hd Hc.
    rewrite list_lookup_fmap, Hd in Hc. cbn in Hc. inversion Hc; subst check; clear Hc.
    cbn [name script_content script_hash config].
    repeat split; intros; repeat match goal with
      | H : Json.assoc _ d = _ |- _ => rewrite H
      end; cbn; try reflexivity.
    match goal with H : Json.truthy _ = true |- _ => rewrite H end. reflexivity.
Qed.

(** ** Reasoning about the monad *)

Lemma bind_ok {A B} (m : M A) (k : A -> M B) w b w' :
  bind m k w = (Ok b, w') ->
  exists a w1, m w = (Ok a, w1) /\ k a w1 = (Ok b, w').
Proof.
  unfold bind. destruct (m w) as [[a|e] w1]; intros H; [eauto|discriminate].
Qed.

Lemma bind_raise {A B} (m : M A) (k : A -> M B) w e w' :
  bind m k w = (Raise e, w') ->
  m w = (Raise e, w') \/ exists a w1, m w = (Ok a, w1) /\ k a w1 = (Raise e, w').
Proof.
  unfold bind. destruct (m w) as [[a|e0] w1]; intros H; [eauto|left; congruence].
Qed.

Lemma bind_eq {A B} (m : M A) (k : A -> M B) w a w1 :
  m w = (Ok a, w1) -> bind m k w = k a w1.
Proof. unfold bind. intros ->. reflexivity. Qed.

Lemma bind_eq_raise {A B} (m : M A) (k : A -> M B) w e w1 :
  m w = (Raise e, w1) -> bind m k w = (Raise e, w1).
Proof. unfold bind. intros ->. reflexivity. Qed.

Lemma pair_fst_snd {A B} (x : A * B) (a : A) : fst x = a -> x = (a, snd x).
Proof. intros <-. destruct x; reflexivity. Defined.

(** Splits a hypothesis [bind m k w = (Ok _, _)] into its two steps. *)
Ltac bind_inv H :=
  let a := fresh "a" in
  let w1 := fresh "w" in
  let H1 := fresh H "a" in
  apply bind_ok in H; destruct H as (a & w1 & H1 & H).

Ltac invc H := inversion H; subst; clear H.

(** ** File system lemmas *)

Lemma lstat_lookup (fs : FS) (p : Path) :
  parts p <> [] -> Fs.lstat fs p = fs !! p.
Proof. unfold Fs.lstat. destruct (parts p); [congruence|reflexivity]. Qed.

Lemma lstat_none_parts (fs : FS) (p : Path) :
  Fs.lstat fs p = None -> parts p <> [].
Proof. unfold Fs.lstat. destruct (parts p); [discriminate|congruence]. Qed.

Lemma lstat_not_dir_parts (fs : FS) (p : Path) :
  Fs.lstat fs p <> Some Dir -> parts p <> [].
Proof. unfold Fs.lstat. destruct (parts p); congruence. Qed.

Lemma resolve_not_symlink (n : nat) (fs : FS) (p : Path) :
  Fs.is_symlink fs p = false -> Fs.resolve n fs p = Some (p, Fs.lstat fs p).
Proof.
  unfold Fs.is_symlink. intros H.
  destruct n; cbn; destruct (Fs.lstat fs p) as [[]|]; congruence.
Qed.

Lemma resolve_never_symlink (n : nat) (fs : FS) (p q : Path) (t : Path) :
  Fs.resolve n fs p <> Some (q, Some (Symlink t)).
Proof.
  revert p. induction n as [|n IH]; intros p; cbn;
    destruct (Fs.lstat fs p) as [[]|]; solve [congruence | apply IH].
Qed.

Lemma parent_error_parts (fs : FS) (p : Path) :
  Os.parent_error fs p = None -> parts p <> [].
Proof. unfold Os.parent_error. destruct (parts p); [discriminate|congruence]. Qed.

(** ** The primitive calls *)

Arguments Fs.stat : simpl never.
Arguments Fs.lstat : simpl never.
Arguments Fs.exists_ : simpl never.
Arguments Fs.is_symlink : simpl never.
Arguments Fs.is_dir : simpl never.
Arguments Fs.read_text : simpl never.
Arguments Fs.dir_empty : simpl never.
Arguments Fs.move_tree : simpl never.
Arguments Fs.under : simpl never.
Arguments Os.parent_error : simpl never.

Ltac os_cases H :=
  unfold bind, get_fs, fault_of, perform, raise, ret in H; cbn in H;
  repeat case_match; simplify_eq.

Lemma write_text_ok env p data w u w' :
  Os.write_text env p data w = (Ok u, w') ->
  exists q x,
    (Fs.stat (w_fs w) p = Some (q, None) \/
     exists d, Fs.stat (w_fs w) p = Some (q, Some (File d x)))
    /\ w' = mkWorld (<[q := File data x]> (w_fs w))
              (w_log w ++ [mkEvent (OpWrite p data) (<[q := File data x]> (w_fs w))])
              (w_clock w).
Proof.
  intros H. unfold Os.write_text in H. os_cases H; eauto 10.
Qed.

Lemma rename_ok env src dst w u w' :
  Os.rename env src dst w = (Ok u, w') ->
  exists fs', w' = mkWorld fs' (w_log w ++ [mkEvent (OpRename src dst) fs'])
                     (w_clock w)
    /\ (forall d x, Fs.lstat (w_fs w) src = Some (File d x) ->
          Fs.lstat fs' dst = Some (File d x)).
Proof.
  intros H. unfold Os.rename in H. os_cases H; eexists; (split; [reflexivity|]);
    intros d0 x0 Hs; simplify_eq.
  all: try match goal with
    | H : bool_decide _ = true |- _ => apply bool_decide_eq_true in H; subst
    end; try assumption.
  all: match goal with
    | H : Os.parent_error _ _ = None |- _ => apply parent_error_parts in H
    end.
  all: rewrite lstat_lookup by assumption; apply lookup_insert_eq.
Qed.

Lemma unlink_ok env p w u w' :
  Os.unlink env p w = (Ok u, w') ->
  (exists n, Fs.lstat (w_fs w) p = Some n /\ n <> Dir)
  /\ w' = mkWorld (delete p (w_fs w))
            (w_log w ++ [mkEvent (OpUnlink p) (delete p (w_fs w))]) (w_clock w).
Proof.
  intros H. unfold Os.unlink in H. os_cases H; split; eauto; eexists; split; eauto; congruence.
Qed.

Lemma symlink_to_ok env link target w u w' :
  Os.symlink_to env link target w = (Ok u, w') ->
  Fs.lstat (w_fs w) link = None
  /\ Os.parent_error (w_fs w) link = None
  /\ w' = mkWorld (<[link := Symlink target]> (w_fs w))
            (w_log w ++ [mkEvent (OpSymlink link target)
                           (<[link := Symlink target]> (w_fs w))]) (w_clock w).
Proof.
  intros H. unfold Os.symlink_to in H. os_cases H; auto.
Qed.

Lemma chmod_755_ok env p w u w' :
  Os.chmod_755 env p w = (Ok u, w') ->
  exists q n fs',
    Fs.stat (w_fs w) p = Some (q, Some n)
    /\ fs' = match n with
             | File data _ => <[q := File data true]> (w_fs w)
             | _ => w_fs w
             end
    /\ w' = mkWorld fs' (w_log w ++ [mkEvent (OpChmod p) fs']) (w_clock w).
Proof.
  intros H. unfold Os.chmod_755 in H. os_cases H; eauto 10.
Qed.

(** ** What a computation adds to the log *)

Lemma log_grows_refl P w : log_grows P w w.
Proof. exists []. split; [symmetry; apply app_nil_r|constructor]. Qed.

Lemma log_grows_trans P w1 w2 w3 :
  log_grows P w1 w2 -> log_grows P w2 w3 -> log_grows P w1 w3.
Proof.
  intros (e1 & H1 & F1) (e2 & H2 & F2). exists (e1 ++ e2). split.
  - rewrite H2, H1. symmetry. apply app_assoc.
  - apply Forall_app. auto.
Qed.

Lemma log_grows_weaken (P Q : op -> Prop) w w' :
  (forall o, P o -> Q o) -> log_grows P w w' -> log_grows Q w w'.
Proof.
  intros HPQ (evs & H & F). exists evs. split; [exact H|].
  eapply Forall_impl; [exact F|]. cbn. auto.
Qed.

Lemma log_grows_new_events P w w' :
  log_grows P w w' -> Forall (fun ev => P (ev_op ev)) (new_events w w').
Proof.
  intros (evs & H & F). unfold new_events. rewrite H.
  rewrite skipn_app, skipn_all, Nat.sub_diag. exact F.
Qed.

Lemma new_events_app w w' evs :
  w_log w' = w_log w ++ evs -> new_events w w' = evs.
Proof.
  intros H. unfold new_events. rewrite H.
  rewrite skipn_app, skipn_all, Nat.sub_diag. reflexivity.
Qed.

Lemma emits_ret {A} P (a : A) : emits P (ret a).
Proof. intros w r w' H. invc H. apply log_grows_refl. Qed.

Lemma emits_raise {A} P e : emits P (@raise A e).
Proof. intros w r w' H. invc H. apply log_grows_refl. Qed.

Lemma emits_get_fs P : emits P get_fs.
Proof. intros w r w' H. invc H. apply log_grows_refl. Qed.

Lemma emits_fault_of P env o : emits P (fault_of env o).
Proof. intros w r w' H. invc H. apply log_grows_refl. Qed.

Lemma emits_time P env : emits P (time env).
Proof. intros w r w' H. invc H. exists []. split; [symmetry; apply app_nil_r|constructor]. Qed.

Lemma py_int_world x w r w' : py_int x w = (r, w') -> w' = w.
Proof. unfold py_int. destruct (Prim2SF x); intros H; invc H; reflexivity. Qed.

Lemma py_int_ok x w z w' : py_int x w = (Ok z, w') -> z = int_of_float x /\ w' = w.
Proof. unfold py_int. destruct (Prim2SF x); intros H; invc H; auto. Qed.

Lemma py_int_bind {B} x (k : Z -> M B) w :
  bind (py_int x) k w = k (int_of_float x) w
  \/ exists e, bind (py_int x) k w = (Raise e, w).
Proof.
  unfold bind, py_int. destruct (Prim2SF x); unfold ret, raise; eauto.
Qed.

Lemma emits_py_int P x : emits P (py_int x).
Proof. intros w r w' H. apply py_int_world in H as ->. apply log_grows_refl. Qed.

Lemma emits_perform (P : op -> Prop) o fs' : P o -> emits P (perform o fs').
Proof.
  intros HP w r w' H. invc H. eexists. split; [reflexivity|].
  constructor; [exact HP|constructor].
Qed.

Lemma emits_bind {A B} P (m : M A) (k : A -> M B) :
  emits P m -> (forall a, emits P (k a)) -> emits P (bind m k).
Proof.
  intros Hm Hk w r w' H. unfold bind in H.
  destruct (m w) as [[a|e] w1] eqn:E.
  - eapply log_grows_trans; [eapply Hm; exact E|eapply Hk; exact H].
  - invc H. eapply Hm; exact E.
Qed.

Lemma emits_try_except {A} P (m : M A) (h : exn -> M A) :
  emits P m -> (forall e, emits P (h e)) -> emits P (try_except m h).
Proof.
  intros Hm Hh w r w' H. unfold try_except in H.
  destruct (m w) as [[a|e] w1] eqn:E.
  - invc H. eapply Hm; exact E.
  - eapply log_grows_trans; [eapply Hm; exact E|eapply Hh; exact H].
Qed.

Lemma emits_weaken {A} (P Q : op -> Prop) (m : M A) :
  (forall o, P o -> Q o) -> emits P m -> emits Q m.
Proof. intros HPQ Hm w r w' H. eapply log_grows_weaken; [exact HPQ|eapply Hm; exact H]. Qed.

(** Walks through a computation built from the primitives. *)
Ltac emits_tac :=
  repeat first
    [ apply emits_ret | apply emits_raise | apply emits_get_fs
    | apply emits_fault_of | apply emits_time
    | apply emits_perform
    | apply emits_bind; [|intros ?]
    | apply emits_try_except; [|intros ?]
    | match goal with
      | |- emits _ (match ?x with _ => _ end) => destruct x
      | |- emits _ (if ?x then _ else _) => destruct x
      end ].

Lemma write_text_emits env p data :
  emits (fun o => o = OpWrite p data) (Os.write_text env p data).
Proof. unfold Os.write_text. emits_tac; reflexivity. Qed.

Lemma rename_emits env src dst :
  emits (fun o => o = OpRename src dst) (Os.rename env src dst).
Proof. unfold Os.rename. emits_tac; reflexivity. Qed.

Lemma unlink_emits env p : emits (fun o => o = OpUnlink p) (Os.unlink env p).
Proof. unfold Os.unlink. emits_tac; reflexivity. Qed.

Lemma symlink_to_emits env l t :
  emits (fun o => o = OpSymlink l t) (Os.symlink_to env l t).
Proof. unfold Os.symlink_to. emits_tac; reflexivity. Qed.

Lemma chmod_755_emits env p : emits (fun o => o = OpChmod p) (Os.chmod_755 env p).
Proof. unfold Os.chmod_755. emits_tac; reflexivity. Qed.

Lemma mkdir_emits env p : emits (fun o => o = OpMkdir p) (Os.mkdir env p).
Proof. unfold Os.mkdir. emits_tac; reflexivity. Qed.

Lemma mkdir_parents_emits env n p : emits is_mkdir (Os.mkdir_parents env n p).
Proof.
  revert p. induction n as [|n IH]; intros p; cbn [Os.mkdir_parents];
    emits_tac; try apply IH; try (eexists; reflexivity).
Qed.

Lemma makedirs_emits env p : emits is_mkdir (Os.makedirs env p).
Proof. apply mkdir_parents_emits. Qed.

(** ** Publishing a file: write to the temporary path, then rename *)

Lemma read_text_file (fs : FS) (p : Path) data x :
  Fs.lstat fs p = Some (File data x) -> Fs.read_text fs p = Some data.
Proof.
  intros H. unfold Fs.read_text, Fs.stat.
  rewrite resolve_not_symlink by (unfold Fs.is_symlink; rewrite H; reflexivity).
  rewrite H. reflexivity.
Qed.

Lemma publish_ok env p dst data w u w' :
  (Os.write_text env p data ;;; Os.rename env p dst) w = (Ok u, w') ->
  exists fs1 fs2,
    w' = mkWorld fs2 (w_log w ++ [mkEvent (OpWrite p data) fs1;
                                  mkEvent (OpRename p dst) fs2]) (w_clock w)
    /\ (Fs.is_symlink (w_fs w) p = false -> Fs.read_text fs2 dst = Some data).
Proof.
  intros H. bind_inv H.
  apply write_text_ok in Ha as (q & x & Hstat & ->).
  apply rename_ok in H as (fs2 & -> & Hmove). cbn [w_fs w_log w_clock] in *.
  exists (<[q := File data x]> (w_fs w)), fs2. split.
  - rewrite <- app_assoc. reflexivity.
  - intros Hsym. unfold Fs.stat in Hstat.
    rewrite resolve_not_symlink in Hstat by exact Hsym.
    assert (q = p /\ parts p <> []) as [-> Hparts].
    { destruct Hstat as [Hs|[d Hs]]; invc Hs; split; try reflexivity.
      - eapply lstat_none_parts; eauto.
      - eapply lstat_not_dir_parts. rewrite H1. discriminate. }
    eapply read_text_file, Hmove.
    rewrite lstat_lookup by exact Hparts. apply lookup_insert_eq.
Qed.

Lemma publish_emits env p dst data :
  emits (is_publish p dst) (Os.write_text env p data ;;; Os.rename env p dst).
Proof.
  apply emits_bind; [|intros _].
  - eapply emits_weaken; [|apply write_text_emits]. intros o ->. left. eauto.
  - eapply emits_weaken; [|apply rename_emits]. intros o ->. right. reflexivity.
Qed.

(** ** The status file *)

Lemma write_status_metrics_ok env self s total ok failed duration w u w' :
  _write_status_metrics env self s total ok failed duration w = (Ok u, w') ->
  let text := status_metrics (if s then 1 else 0)
                (int_of_float (time_time env (w_clock w))) duration total ok failed in
  exists fs1 fs2,
    w' = mkWorld fs2
           (w_log w ++ [mkEvent (OpWrite (status_temp_of self) text) fs1;
                        mkEvent (OpRename (status_temp_of self) (status_file_of self)) fs2])
           (S (w_clock w))
    /\ (Fs.is_symlink (w_fs w) (status_temp_of self) = false ->
        Fs.read_text fs2 (status_file_of self) = Some text).
Proof.
  intros H text. unfold _write_status_metrics in H. bind_inv H. invc Ha.
  bind_inv H. apply py_int_ok in Ha as [-> ->].
  apply publish_ok in H as (fs1 & fs2 & -> & Hread). cbn [w_fs w_log w_clock] in *.
  exists fs1, fs2. split; [reflexivity|exact Hread].
Qed.

Lemma write_status_metrics_emits env self s total ok failed duration :
  emits (is_status_publish self)
        (_write_status_metrics env self s total ok failed duration).
Proof.
  unfold _write_status_metrics. apply emits_bind; [apply emits_time|intros now].
  apply emits_bind; [apply emits_py_int|intros timestamp].
  apply publish_emits.
Qed.

Lemma is_status_publish_quiet self o :
  is_status_publish self o -> is_urlopen o = false /\ is_spawn o = false.
Proof. intros [[data ->]| ->]; split; reflexivity. Qed.

(** ** The text of the status file *)

Lemma one_line_app a b : one_line a -> one_line b -> one_line (a +:+ b).
Proof.
  unfold one_line. induction a as [|c a IH]; [auto|].
  change (String c a +:+ b) with (String c (a +:+ b)). cbn [PyStr.contains].
  intros H Hb. destruct (Ascii.eqb c (PyStr.chr 10)); [discriminate H|].
  cbn [orb] in *. auto.
Qed.

Lemma one_line_cons_inv c s : one_line (String c s) -> one_line s.
Proof.
  unfold one_line. cbn [PyStr.contains]. intros H.
  apply orb_false_iff in H as [_ H]. exact H.
Qed.

Lemma one_line_cons c s : c <> PyStr.chr 10 -> one_line s -> one_line (String c s).
Proof.
  unfold one_line. intros Hc Hs. apply Ascii.eqb_neq in Hc.
  cbn [PyStr.contains]. rewrite Hc, Hs. reflexivity.
Qed.

Lemma one_line_pretty_N_go x s : one_line s -> one_line (pretty_N_go x s).
Proof.
  revert s. induction (N.lt_wf_0 x) as [x _ IH]; intros s Hs.
  assert (x = 0 \/ 0 < x)%N as [->|Hx] by lia.
  - rewrite pretty_N_go_0. exact Hs.
  - rewrite pretty_N_go_step by exact Hx. apply IH.
    + apply N.div_lt; [exact Hx|reflexivity].
    + apply one_line_cons; [|exact Hs].
      unfold pretty_N_char. repeat case_match; discriminate.
Qed.

Lemma one_line_pretty (n : Z) : one_line (pretty n).
Proof.
  assert (HN : forall x : N, one_line (pretty x)).
  { intros x. unfold pretty, pretty_N. case_decide; [reflexivity|].
    apply one_line_pretty_N_go. reflexivity. }
  destruct n as [|p|p]; unfold pretty, pretty_Z.
  - reflexivity.
  - apply (HN (Npos p)).
  - apply one_line_app; [reflexivity|apply (HN (Npos p))].
Qed.

Lemma split_line s r :
  one_line s ->
  PyStr.split (PyStr.chr 10) (s +:+ nl +:+ r) = s :: PyStr.split (PyStr.chr 10) r.
Proof.
  induction s as [|a s IH]; intros Hs.
  - cbn. reflexivity.
  - unfold one_line in Hs. cbn [PyStr.contains] in Hs.
    apply orb_false_iff in Hs as [Ha Hs].
    change (String a s +:+ nl +:+ r) with (String a (s +:+ nl +:+ r)).
    cbn [PyStr.split]. rewrite Ha, (IH Hs). reflexivity.
Qed.

Lemma split_gauge pre (z : Z) r :
  one_line pre ->
  PyStr.split (PyStr.chr 10) (pre +:+ pretty z +:+ nl +:+ r)
  = (pre +:+ pretty z) :: PyStr.split (PyStr.chr 10) r.
Proof.
  intros Hpre. rewrite <- (split_line (pre +:+ pretty z) r)
    by (apply one_line_app; [exact Hpre|apply one_line_pretty]).
  f_equal. induction pre as [|a pre IH]; [reflexivity|].
  apply one_line_cons_inv in Hpre.
  change (String a pre +:+ pretty z +:+ nl +:+ r)
    with (String a (pre +:+ pretty z +:+ nl +:+ r)).
  rewrite (IH Hpre). reflexivity.
Qed.

Lemma split_gauge_end pre (z : Z) :
  one_line pre ->
  PyStr.split (PyStr.chr 10) (pre +:+ pretty z +:+ nl) = [pre +:+ pretty z; ""].
Proof. intros Hpre. apply (split_gauge pre z "" Hpre). Qed.

Lemma split_empty_line r :
  PyStr.split (PyStr.chr 10) (nl +:+ r) = "" :: PyStr.split (PyStr.chr 10) r.
Proof. reflexivity. Qed.

(** The six samples of the status file, in the order of the file. *)
Lemma samples_status_metrics (a b c d e f : Z) :
  samples (status_metrics a b c d e f)
  = [ "aami_check_fetch_status " +:+ pretty a;
      "aami_check_fetch_timestamp_seconds " +:+ pretty b;
      "aami_check_execution_duration_seconds " +:+ pretty c;
      "aami_checks_total " +:+ pretty d;
      "aami_checks_success " +:+ pretty e;
      "aami_checks_failed " +:+ pretty f ].
Proof.
  unfold samples, status_metrics.
  repeat first [ rewrite split_gauge_end by reflexivity
               | rewrite split_gauge by reflexivity
               | rewrite split_empty_line
               | rewrite split_line by reflexivity ].
  reflexivity.
Qed.

(** ** The run without a server URL *)

(** C10. With an empty server URL, [run] ends the process with status 1 and
    does nothing but publish the status file: no request is sent and no
    check is saved or executed.  When it returns, it returns 1 and the
    published summary is the status text whose samples are fetch status 0,
    the time of the call, duration 0 and all counts 0. *)
Theorem run_without_url (env : Env) (self : DynamicCheckRunner) (w : World) :
  config_server_url self = EmptyString ->
  let r := run env self w in
  let timestamp := int_of_float (time_time env (w_clock w)) in
  let text := status_metrics 0 timestamp 0 0 0 0 in
  exit_status (fst r) = 1
  /\ Forall (fun ev => is_status_publish self (ev_op ev)
                       /\ is_urlopen (ev_op ev) = false
                       /\ is_spawn (ev_op ev) = false) (new_events w (snd r))
  /\ forall status, fst r = Ok status ->
       status = 1
       /\ (exists fs1,
             new_events w (snd r) =
               [mkEvent (OpWrite (status_temp_of self) text) fs1;
                mkEvent (OpRename (status_temp_of self) (status_file_of self))
                        (w_fs (snd r))])
       /\ (Fs.is_symlink (w_fs w) (status_temp_of self) = false ->
           Fs.read_text (w_fs (snd r)) (status_file_of self) = Some text)
       /\ samples text
          = [ "aami_check_fetch_status 0";
              "aami_check_fetch_timestamp_seconds " +:+ pretty timestamp;
              "aami_check_execution_duration_seconds 0";
              "aami_checks_total 0";
              "aami_checks_success 0";
              "aami_checks_failed 0" ].
Proof.
  intros Hurl r timestamp text. subst r. unfold run. rewrite Hurl. cbn [String.eqb].
  destruct (_write_status_metrics env self false 0 0 0 0 w) as [[u|e] w1] eqn:E.
  - rewrite (bind_eq _ _ _ _ _ E). cbn [ret fst snd exit_status].
    pose proof (write_status_metrics_emits _ _ _ _ _ _ _ _ _ _ E) as Hlog.
    apply write_status_metrics_ok in E as (fs1 & fs2 & -> & Hread).
    split; [reflexivity|]. split.
    + apply log_grows_new_events in Hlog.
      eapply Forall_impl; [exact Hlog|]. cbn. intros ev Hev.
      split; [exact Hev|]. apply is_status_publish_quiet in Hev. exact Hev.
    + intros status Hst. invc Hst. split; [reflexivity|]. split; [|split].
      * exists fs1. apply new_events_app. reflexivity.
      * exact Hread.
      * apply samples_status_metrics.
  - rewrite (bind_eq_raise _ _ _ _ _ E). cbn [fst snd exit_status].
    split; [reflexivity|]. split.
    + pose proof (write_status_metrics_emits _ _ _ _ _ _ _ _ _ _ E) as Hlog.
      apply log_grows_new_events in Hlog.
      eapply Forall_impl; [exact Hlog|]. cbn. intros ev Hev.
      split; [exact Hev|]. apply is_status_publish_quiet in Hev. exact Hev.
    + intros status Hst. discriminate Hst.
Qed.

(** ** The run when the fetch fails *)

Lemma run_fetch_failed env self w :
  config_server_url self <> EmptyString ->
  checks_of_outcome (urlopen env (fetch_url self)) = None ->
  run env self w =
    (duration <- py_int (time_time env (S (w_clock w)) - time_time env (w_clock w))%float ;;
     _write_status_metrics env self false 0 0 0 duration ;;;
     ret 1)
      (mkWorld (w_fs w) (w_log w ++ [mkEvent (OpUrlopen (fetch_url self)) (w_fs w)])
               (S (S (w_clock w)))).
Proof.
  intros Hurl Hnone. unfold run.
  apply String.eqb_neq in Hurl. rewrite Hurl.
  unfold _fetch_effective_checks.
  unfold bind at 1. unfold time at 1. cbv beta iota.
  unfold bind at 1. unfold bind at 1. unfold bind at 1.
  unfold get_fs, perform, ret at 1. cbv beta iota. cbn [w_fs w_log w_clock].
  rewrite Hnone.
  unfold bind at 1. unfold time at 1. cbv beta iota. cbn [w_fs w_log w_clock].
  reflexivity.
Qed.

Lemma fetch_failure_status env self w :
  config_server_url self <> EmptyString ->
  checks_of_outcome (urlopen env (fetch_url self)) = None ->
  exit_status (fst (run env self w)) = 1.
Proof.
  intros Hurl Hnone. rewrite (run_fetch_failed env self w Hurl Hnone).
  destruct (py_int_bind (time_time env (S (w_clock w)) - time_time env (w_clock w))%float
              (fun duration => _write_status_metrics env self false 0 0 0 duration ;;; ret 1)
              (mkWorld (w_fs w)
                 (w_log w ++ [mkEvent (OpUrlopen (fetch_url self)) (w_fs w)])
                 (S (S (w_clock w))))) as [->|[e ->]]; [|reflexivity].
  unfold bind. destruct (_write_status_metrics _ _ _ _ _ _ _ _) as [[u|e] w1];
    reflexivity.
Qed.

(** C3. When the fetch fails, the process ends with status 1 and [run] only
    sends the request and publishes the status file: no check is saved or
    executed.  When it returns, it returns 1 and the published summary is
    the status text whose samples are fetch status 0, the time of
    publishing, the whole seconds between the two readings of the clock,
    and all counts 0. *)
Theorem fetch_failure (env : Env) (self : DynamicCheckRunner) (w : World) :
  config_server_url self <> EmptyString ->
  checks_of_outcome (urlopen env (fetch_url self)) = None ->
  let r := run env self w in
  let duration :=
    int_of_float (time_time env (S (w_clock w)) - time_time env (w_clock w))%float in
  let timestamp := int_of_float (time_time env (S (S (w_clock w)))) in
  let text := status_metrics 0 timestamp duration 0 0 0 in
  exit_status (fst r) = 1
  /\ (exists evs,
        new_events w (snd r) = mkEvent (OpUrlopen (fetch_url self)) (w_fs w) :: evs
        /\ Forall (fun ev => is_status_publish self (ev_op ev)) evs)
  /\ Forall (fun ev => is_spawn (ev_op ev) = false) (new_events w (snd r))
  /\ forall status, fst r = Ok status ->
       status = 1
       /\ (exists fs1,
             new_events w (snd r) =
               [mkEvent (OpUrlopen (fetch_url self)) (w_fs w);
                mkEvent (OpWrite (status_temp_of self) text) fs1;
                mkEvent (OpRename (status_temp_of self) (status_file_of self))
                        (w_fs (snd r))])
       /\ (Fs.is_symlink (w_fs w) (status_temp_of self) = false ->
           Fs.read_text (w_fs (snd r)) (status_file_of self) = Some text)
       /\ samples text
          = [ "aami_check_fetch_status 0";
              "aami_check_fetch_timestamp_seconds " +:+ pretty timestamp;
              "aami_check_execution_duration_seconds " +:+ pretty duration;
              "aami_checks_total 0";
              "aami_checks_success 0";
              "aami_checks_failed 0" ].
Proof.
  intros Hurl Hnone r duration timestamp text. subst r.
  rewrite (run_fetch_failed env self w Hurl Hnone).
  set (w3 := mkWorld _ _ _).
  destruct (py_int_bind (time_time env (S (w_clock w)) - time_time env (w_clock w))%float
              (fun duration => _write_status_metrics env self false 0 0 0 duration ;;; ret 1)
              w3) as [->|[e ->]].
  2:{ cbn [fst snd exit_status].
      assert (Hnew : new_events w w3 = [mkEvent (OpUrlopen (fetch_url self)) (w_fs w)])
        by (apply new_events_app; reflexivity).
      rewrite Hnew. split; [reflexivity|]. split; [|split].
      - exists []. split; [reflexivity|constructor].
      - repeat constructor.
      - intros status Hst. discriminate Hst. }
  fold duration.
  destruct (_write_status_metrics env self false 0 0 0 duration w3) as [[u|e] w4] eqn:E.
  - rewrite (bind_eq _ _ _ _ _ E). cbn [ret fst snd exit_status].
    apply write_status_metrics_ok in E as (fs1 & fs2 & -> & Hread).
    cbn [w_fs w_log w_clock w3] in *. fold timestamp in Hread |- *.
    fold text in Hread |- *.
    assert (Hnew : new_events w
              (mkWorld fs2
                 ((w_log w ++ [mkEvent (OpUrlopen (fetch_url self)) (w_fs w)]) ++
                  [mkEvent (OpWrite (status_temp_of self) text) fs1;
                   mkEvent (OpRename (status_temp_of self) (status_file_of self)) fs2])
                 (S (S (S (w_clock w))))) =
            [mkEvent (OpUrlopen (fetch_url self)) (w_fs w);
             mkEvent (OpWrite (status_temp_of self) text) fs1;
             mkEvent (OpRename (status_temp_of self) (status_file_of self)) fs2]).
    { apply new_events_app. cbn [w_log]. rewrite <- app_assoc. reflexivity. }
    split; [reflexivity|]. split; [|split].
    + rewrite Hnew. eexists. split; [reflexivity|].
      constructor; [left; eexists; reflexivity|].
      constructor; [right; reflexivity|constructor].
    + rewrite Hnew. repeat constructor.
    + intros status Hst. invc Hst. split; [reflexivity|]. split; [|split].
      * exists fs1. exact Hnew.
      * exact Hread.
      * apply samples_status_metrics.
  - rewrite (bind_eq_raise _ _ _ _ _ E). cbn [fst snd exit_status].
    pose proof (write_status_metrics_emits _ _ _ _ _ _ _ _ _ _ E) as (evs & Hlog & Hevs).
    assert (Hnew : new_events w w4 =
                   mkEvent (OpUrlopen (fetch_url self)) (w_fs w) :: evs).
    { apply new_events_app. rewrite Hlog. cbn [w3 w_log].
      rewrite <- app_assoc. reflexivity. }
    split; [reflexivity|]. split; [|split].
    + eexists. split; [exact Hnew|exact Hevs].
    + rewrite Hnew. constructor; [reflexivity|].
      eapply Forall_impl; [exact Hevs|]. cbn. intros ev Hev.
      apply is_status_publish_quiet in Hev. apply Hev.
    + intros status Hst. discriminate Hst.
Qed.

(** ** The temporary file stays a regular file *)

Lemma rename_file env src dst w r w' d x :
  Os.rename env src dst w = (r, w') ->
  Fs.lstat (w_fs w) src = Some (File d x) ->
  w_fs w' = w_fs w
  \/ (src <> dst /\ w_fs w' = <[dst := File d x]> (delete src (w_fs w))).
Proof.
  intros H Hsrc. unfold Os.rename in H.
  unfold bind at 1, get_fs at 1 in H. cbv beta iota in H. rewrite Hsrc in H.
  os_cases H; auto; right; (split; [|reflexivity]);
    match goal with
    | H : bool_decide _ = false |- _ => apply bool_decide_eq_false in H; exact H
    end.
Qed.

Lemma write_text_any env p data w r w' :
  Os.write_text env p data w = (r, w') ->
  Fs.is_symlink (w_fs w) p = false ->
  w_fs w' = w_fs w
  \/ (parts p <> [] /\ exists d x, w_fs w' = <[p := File d x]> (w_fs w)).
Proof.
  intros H Hsym. unfold Os.write_text, Fs.stat in H.
  unfold bind at 1, get_fs at 1 in H. cbv beta iota in H.
  rewrite resolve_not_symlink in H by exact Hsym.
  os_cases H; auto; right;
    (split; [first [ eapply lstat_none_parts; eassumption
                   | eapply lstat_not_dir_parts;
                     match goal with H : Fs.lstat _ _ = _ |- _ => rewrite H end;
                     discriminate ]
            | eauto ]).
Qed.

Lemma is_symlink_insert_file (fs : FS) (p : Path) d x :
  Fs.is_symlink (<[p := File d x]> fs) p = false.
Proof.
  unfold Fs.is_symlink, Fs.lstat. destruct (parts p); [reflexivity|].
  rewrite lookup_insert_eq. reflexivity.
Qed.

Lemma lstat_insert_file (fs : FS) (p : Path) d x :
  parts p <> [] -> Fs.lstat (<[p := File d x]> fs) p = Some (File d x).
Proof. intros Hp. rewrite lstat_lookup by exact Hp. apply lookup_insert_eq. Qed.

Lemma publish_not_symlink env p dst data w r w' :
  (Os.write_text env p data ;;; Os.rename env p dst) w = (r, w') ->
  Fs.is_symlink (w_fs w) p = false ->
  Fs.is_symlink (w_fs w') p = false.
Proof.
  intros H Hsym. unfold bind in H.
  destruct (Os.write_text env p data w) as [[u|e] w1] eqn:E.
  - pose proof (write_text_ok _ _ _ _ _ _ E) as (q & x & Hstat & Hw1).
    destruct (write_text_any _ _ _ _ _ _ E Hsym) as [Hfs|(Hparts & d & x' & Hfs)].
    + (* a successful write changes the file system *)
      subst w1. cbn [w_fs] in Hfs. unfold Fs.stat in Hstat.
      rewrite resolve_not_symlink in Hstat by exact Hsym.
      assert (q = p) as -> by (destruct Hstat as [Hs|[d Hs]]; congruence).
      assert (Hparts : parts p <> []).
      { destruct Hstat as [Hs|[d Hs]]; invc Hs.
        - eapply lstat_none_parts; eauto.
        - eapply lstat_not_dir_parts. rewrite H1. discriminate. }
      pose proof (lstat_insert_file (w_fs w) p data x Hparts) as Hl.
      destruct (rename_file _ _ _ _ _ _ _ _ H Hl) as [Hr|[Hne Hr]]; cbn [w_fs] in Hr.
      * rewrite Hr. apply is_symlink_insert_file.
      * rewrite Hr. unfold Fs.is_symlink. rewrite lstat_lookup by exact Hparts.
        rewrite lookup_insert_ne by congruence. rewrite lookup_delete_eq. reflexivity.
    + pose proof (lstat_insert_file (w_fs w) p d x' Hparts) as Hl. rewrite <- Hfs in Hl.
      destruct (rename_file _ _ _ _ _ _ _ _ H Hl) as [Hr|[Hne Hr]].
      * rewrite Hr, Hfs. apply is_symlink_insert_file.
      * rewrite Hr. unfold Fs.is_symlink. rewrite lstat_lookup by exact Hparts.
        rewrite lookup_insert_ne by congruence. rewrite lookup_delete_eq. reflexivity.
  - invc H. destruct (write_text_any _ _ _ _ _ _ E Hsym) as [Hfs|(Hparts & d & x' & Hfs)].
    + rewrite Hfs. exact Hsym.
    + rewrite Hfs. apply is_symlink_insert_file.
Qed.

(** ** [json.dumps] gives one line *)

Lemma json_ind' (P : json -> Prop) :
  P JNull -> (forall b, P (JBool b)) -> (forall n, P (JInt n)) ->
  (forall s, P (JStr s)) ->
  (forall l, Forall P l -> P (JList l)) ->
  (forall d, Forall (fun kv => P (snd kv)) d -> P (JDict d)) ->
  forall v, P v.
Proof.
  intros Hnull Hbool Hint Hstr Hlist Hdict.
  fix IH 1. intros [|b|n|s|l|d].
  - exact Hnull.
  - apply Hbool.
  - apply Hint.
  - apply Hstr.
  - apply Hlist. induction l as [|x l IHl]; constructor; [apply IH|exact IHl].
  - apply Hdict. induction d as [|[k x] d IHd]; constructor; [apply IH|exact IHd].
Qed.

Lemma one_line_escape_char c : one_line (Json.escape_char c).
Proof.
  destruct c as [[] [] [] [] [] [] [] []]; vm_compute; reflexivity.
Qed.

Lemma one_line_concat_map f s :
  (forall c, one_line (f c)) -> one_line (PyStr.concat_map f s).
Proof.
  intros Hf. unfold PyStr.concat_map. induction s as [|c s IH]; [reflexivity|].
  apply one_line_app; [apply Hf|exact IH].
Qed.

Lemma one_line_encode s : one_line (Json.encode_basestring_ascii s).
Proof.
  unfold Json.encode_basestring_ascii. apply one_line_app; [|reflexivity].
  apply one_line_cons; [discriminate|].
  apply one_line_concat_map, one_line_escape_char.
Qed.

Lemma one_line_join sep l :
  one_line sep -> Forall one_line l -> one_line (PyStr.join sep l).
Proof.
  intros Hsep Hl. induction Hl as [|x l Hx Hl IH]; [reflexivity|].
  cbn [PyStr.join]. destruct l as [|y l]; [exact Hx|].
  apply one_line_app; [exact Hx|]. apply one_line_app; [exact Hsep|exact IH].
Qed.

Lemma dumps_one_line v : one_line (Json.dumps v).
Proof.
  induction v as [|b|n|s|l IH|d IH] using json_ind'; cbn [Json.dumps].
  - reflexivity.
  - destruct b; reflexivity.
  - apply one_line_pretty.
  - apply one_line_encode.
  - apply one_line_app; [reflexivity|]. apply one_line_app; [|reflexivity].
    apply one_line_join; [reflexivity|].
    apply Forall_map. exact IH.
  - apply one_line_app; [reflexivity|]. apply one_line_app; [|reflexivity].
    apply one_line_join; [reflexivity|].
    apply Forall_map. eapply Forall_impl; [exact IH|].
    intros [k x] Hx. cbn in Hx. apply one_line_app; [apply one_line_encode|].
    apply one_line_app; [reflexivity|exact Hx].
Qed.

(** ** The executor *)

Lemma subprocess_run_eq env script_path config w :
  Os.subprocess_run env (PyPath.str script_path) (Json.dumps config) w =
  (Ok (child_outcome env script_path config w), child_world script_path config w).
Proof.
  unfold child_outcome, child_world, Os.subprocess_run. cbn [fst]. reflexivity.
Qed.

(** [_execute_check] by the cases of what the child gave back. *)
Lemma execute_check_unfold env self check_name script_path config w :
  _execute_check env self check_name script_path config w =
  let ws := child_world script_path config w in
  let on_error msg :=
    publish_check env self check_name (_generate_error_metric check_name) ;;;
    ret (mkCheckResult check_name false EmptyString (Some msg)) in
  match child_outcome env script_path config w with
  | Completed returncode stdout stderr =>
      if (returncode =? 0)%Z then
        match publish_check env self check_name stdout ws with
        | (Ok _, w2) => (Ok (mkCheckResult check_name true stdout None), w2)
        | (Raise e, w2) => on_error (exn_str env e) w2
        end
      else
        match publish_check env self check_name (_generate_error_metric check_name) ws with
        | (Ok _, w2) => (Ok (mkCheckResult check_name false stdout (Some stderr)), w2)
        | (Raise e, w2) => on_error (exn_str env e) w2
        end
  | TimeoutExpired => on_error "Timeout" ws
  | ProcRaised msg => on_error msg ws
  end.
Proof.
  unfold _execute_check. unfold bind at 1. unfold try_except.
  unfold bind at 1. rewrite subprocess_run_eq.
  destruct (child_outcome env script_path config w) as [rc so se| |msg]; cbv zeta.
  - destruct (rc =? 0)%Z.
    + unfold publish_check.
      change (Os.write_text env (output_file_of self check_name) so ;;;
              Os.rename env (output_file_of self check_name)
                (final_file_of self check_name) ;;;
              ret (inl (mkCheckResult check_name true so None)))
        with (bind (Os.write_text env (output_file_of self check_name) so)
                (fun _ => bind (Os.rename env (output_file_of self check_name)
                                  (final_file_of self check_name))
                            (fun _ => ret (inl (B := caught)
                                             (mkCheckResult check_name true so None))))).
      unfold bind.
      destruct (Os.write_text _ _ _ _) as [[u|e] w1]; [|reflexivity].
      destruct (Os.rename _ _ _ _) as [[u'|e] w2]; reflexivity.
    + unfold publish_check, bind.
      destruct (Os.write_text _ _ _ _) as [[u|e] w1]; [|reflexivity].
      destruct (Os.rename _ _ _ _) as [[u'|e] w2]; reflexivity.
  - reflexivity.
  - reflexivity.
Qed.

Lemma publish_check_ok env self check_name data w u w' :
  publish_check env self check_name data w = (Ok u, w') ->
  exists fs1,
    w_log w' = w_log w ++
      [mkEvent (OpWrite (output_file_of self check_name) data) fs1;
       mkEvent (OpRename (output_file_of self check_name)
                         (final_file_of self check_name)) (w_fs w')]
    /\ (Fs.is_symlink (w_fs w) (output_file_of self check_name) = false ->
        Fs.read_text (w_fs w') (final_file_of self check_name) = Some data).
Proof.
  intros H. apply publish_ok in H as (fs1 & fs2 & -> & Hread).
  exists fs1. split; [reflexivity|exact Hread].
Qed.

(** The error path of [_execute_check], entered after the calls [evs1]. *)
Lemma on_error_spec env self check_name (res : CheckResult) ws w2 (r : CheckResult) w' :
  log_grows (is_publish (output_file_of self check_name)
                        (final_file_of self check_name)) ws w2 ->
  (Fs.is_symlink (w_fs ws) (output_file_of self check_name) = false ->
   Fs.is_symlink (w_fs w2) (output_file_of self check_name) = false) ->
  (publish_check env self check_name (_generate_error_metric check_name) ;;;
   ret res) w2 = (Ok r, w') ->
  r = res
  /\ exists evs fs1,
       w_log w' = w_log ws ++ evs ++
         [mkEvent (OpWrite (output_file_of self check_name)
                           (_generate_error_metric check_name)) fs1;
          mkEvent (OpRename (output_file_of self check_name)
                            (final_file_of self check_name)) (w_fs w')]
       /\ Forall (fun ev => is_publish (output_file_of self check_name)
                              (final_file_of self check_name) (ev_op ev)) evs
       /\ (Fs.is_symlink (w_fs ws) (output_file_of self check_name) = false ->
           Fs.read_text (w_fs w') (final_file_of self check_name)
           = Some (_generate_error_metric check_name)).
Proof.
  intros (evs & Hlog & Hevs) Hsym H. bind_inv H. invc H.
  apply publish_check_ok in Ha as (fs1 & Hlog' & Hread).
  split; [reflexivity|]. exists evs, fs1. split; [|split].
  - rewrite Hlog', Hlog, <- app_assoc. reflexivity.
  - exact Hevs.
  - intros Hs. apply Hread, Hsym, Hs.
Qed.

(** What a returning [_execute_check] has done: the child was run once,
    with the script path as its whole command line and the serialized
    config as its input; the last two calls publish [data], which is the
    child's output when the result says success and the error metric
    otherwise. *)
Lemma execute_check_spec env self check_name script_path config w r w' :
  _execute_check env self check_name script_path config w = (Ok r, w') ->
  let out_file := output_file_of self check_name in
  let fin_file := final_file_of self check_name in
  exists evs fs1 data,
    new_events w w' =
      mkEvent (OpSpawn [PyPath.str script_path] (Json.dumps config)) (w_fs w)
      :: evs ++ [mkEvent (OpWrite out_file data) fs1;
                 mkEvent (OpRename out_file fin_file) (w_fs w')]
    /\ Forall (fun ev => is_publish out_file fin_file (ev_op ev)) evs
    /\ (Fs.is_symlink (w_fs w) out_file = false ->
        Fs.read_text (w_fs w') fin_file = Some data)
    /\ r_name r = check_name
    /\ ((success r = true
         /\ exists stdout stderr,
              child_outcome env script_path config w = Completed 0 stdout stderr
              /\ data = stdout /\ output r = stdout /\ evs = [])
        \/ (success r = false /\ data = _generate_error_metric check_name)).
Proof.
  intros H out_file fin_file. rewrite execute_check_unfold in H. cbv zeta in H.
  set (ws := child_world script_path config w) in *.
  assert (Hws : forall evs, w_log w' = w_log ws ++ evs ->
            new_events w w' =
              mkEvent (OpSpawn [PyPath.str script_path] (Json.dumps config)) (w_fs w)
              :: evs).
  { intros evs Hl. apply new_events_app. rewrite Hl. subst ws. cbn [child_world w_log].
    rewrite <- app_assoc. reflexivity. }
  assert (Herr : forall (res : CheckResult) w2,
            log_grows (is_publish out_file fin_file) ws w2 ->
            (Fs.is_symlink (w_fs ws) out_file = false ->
             Fs.is_symlink (w_fs w2) out_file = false) ->
            (publish_check env self check_name (_generate_error_metric check_name) ;;;
             ret res) w2 = (Ok r, w') ->
            success res = false -> r_name res = check_name ->
            exists evs fs1 data,
              new_events w w' =
                mkEvent (OpSpawn [PyPath.str script_path] (Json.dumps config)) (w_fs w)
                :: evs ++ [mkEvent (OpWrite out_file data) fs1;
                           mkEvent (OpRename out_file fin_file) (w_fs w')]
              /\ Forall (fun ev => is_publish out_file fin_file (ev_op ev)) evs
              /\ (Fs.is_symlink (w_fs w) out_file = false ->
                  Fs.read_text (w_fs w') fin_file = Some data)
              /\ r_name r = check_name
              /\ ((success r = true
                   /\ exists stdout stderr,
                        child_outcome env script_path config w = Completed 0 stdout stderr
                        /\ data = stdout /\ output r = stdout /\ evs = [])
                  \/ (success r = false /\ data = _generate_error_metric check_name))).
  { intros res w2 Hg Hs Hrun Hres Hname.
    destruct (on_error_spec _ _ _ _ _ _ _ _ Hg Hs Hrun) as (-> & evs & fs1 & Hl & Hevs & Hread).
    exists evs, fs1, (_generate_error_metric check_name).
    split; [apply Hws, Hl|]. split; [exact Hevs|]. split; [exact Hread|].
    split; [exact Hname|]. right. split; [exact Hres|reflexivity]. }
  destruct (child_outcome env script_path config w) as [rc so se| |msg] eqn:Hout.
  - destruct (rc =? 0)%Z eqn:Hrc.
    + apply Z.eqb_eq in Hrc. subst rc.
      destruct (publish_check env self check_name so ws) as [[u|e] w2] eqn:Hpub.
      * invc H. apply publish_check_ok in Hpub as (fs1 & Hl & Hread).
        exists [], fs1, so. split; [apply Hws, Hl|]. split; [constructor|].
        split; [exact Hread|]. split; [reflexivity|]. left. split; [reflexivity|].
        exists so, se. auto.
      * eapply Herr; [| |exact H|reflexivity|reflexivity].
        -- eapply publish_emits. exact Hpub.
        -- eapply publish_not_symlink. exact Hpub.
    + destruct (publish_check env self check_name (_generate_error_metric check_name) ws)
        as [[u|e] w2] eqn:Hpub.
      * invc H. apply publish_check_ok in Hpub as (fs1 & Hl & Hread).
        exists [], fs1, (_generate_error_metric check_name).
        split; [apply Hws, Hl|]. split; [constructor|].
        split; [exact Hread|]. split; [reflexivity|]. right. split; reflexivity.
      * eapply Herr; [| |exact H|reflexivity|reflexivity].
        -- eapply publish_emits. exact Hpub.
        -- eapply publish_not_symlink. exact Hpub.
  - eapply Herr; [apply log_grows_refl|auto|exact H|reflexivity|reflexivity].
  - eapply Herr; [apply log_grows_refl|auto|exact H|reflexivity|reflexivity].
Qed.

Lemma execute_check_emits env self check_name script_path config res w w' :
  _execute_check env self check_name script_path config w = (res, w') ->
  log_grows (is_publish (output_file_of self check_name) (final_file_of self check_name))
            (child_world script_path config w) w'.
Proof.
  intros H. rewrite execute_check_unfold in H. cbv zeta in H.
  set (ws := child_world script_path config w) in *.
  assert (Herr : forall (res0 : CheckResult) w2,
            log_grows (is_publish (output_file_of self check_name)
                                  (final_file_of self check_name)) ws w2 ->
            (publish_check env self check_name (_generate_error_metric check_name) ;;;
             ret res0) w2 = (res, w') ->
            log_grows (is_publish (output_file_of self check_name)
                                  (final_file_of self check_name)) ws w').
  { intros res0 w2 Hg Hrun. eapply log_grows_trans; [exact Hg|].
    eapply emits_bind; [apply publish_emits|intros; apply emits_ret|exact Hrun]. }
  destruct (child_outcome env script_path config w) as [rc so se| |msg].
  - destruct (rc =? 0)%Z.
    + destruct (publish_check env self check_name so ws) as [[u|e] w2] eqn:Hpub.
      * invc H. eapply publish_emits. exact Hpub.
      * eapply Herr; [|exact H]. eapply publish_emits. exact Hpub.
    + destruct (publish_check env self check_name (_generate_error_metric check_name) ws)
        as [[u|e] w2] eqn:Hpub.
      * invc H. eapply publish_emits. exact Hpub.
      * eapply Herr; [|exact H]. eapply publish_emits. exact Hpub.
  - eapply Herr; [apply log_grows_refl|exact H].
  - eapply Herr; [apply log_grows_refl|exact H].
Qed.

Lemma is_publish_not_spawn p dst o : is_publish p dst o -> is_spawn o = false.
Proof. intros [[data ->]| ->]; reflexivity. Qed.

(** ** A JSON text determines its value *)

Lemma all_numchars_app a b :
  all_numchars a = true -> all_numchars b = true -> all_numchars (a +:+ b) = true.
Proof.
  induction a as [|c a IH]; [auto|]. rewrite app_cons. cbn [all_numchars].
  intros H Hb. apply andb_true_iff in H as [-> H]. cbn. auto.
Qed.

Lemma all_numchars_pretty_N_go x s :
  all_numchars s = true -> all_numchars (pretty_N_go x s) = true.
Proof.
  revert s. induction (N.lt_wf_0 x) as [x _ IH]; intros s Hs.
  assert (x = 0 \/ 0 < x)%N as [->|Hx] by lia.
  - rewrite pretty_N_go_0. exact Hs.
  - rewrite pretty_N_go_step by exact Hx. apply IH.
    + apply N.div_lt; [exact Hx|reflexivity].
    + cbn [all_numchars]. rewrite Hs, andb_true_r.
      unfold pretty_N_char. repeat case_match; reflexivity.
Qed.

Lemma all_numchars_pretty (n : Z) : all_numchars (pretty n) = true.
Proof.
  assert (HN : forall x : N, all_numchars (pretty x) = true).
  { intros x. unfold pretty, pretty_N. case_decide; [reflexivity|].
    apply all_numchars_pretty_N_go. reflexivity. }
  destruct n as [|p|p]; unfold pretty, pretty_Z.
  - reflexivity.
  - apply (HN (Npos p)).
  - apply all_numchars_app; [reflexivity|apply (HN (Npos p))].
Qed.

Lemma is_delim_not_numchar c r : is_delim (String c r) = true -> numchar c = false.
Proof.
  cbn [is_delim]. intros H.
  apply orb_true_iff in H as [H|H]; [apply orb_true_iff in H as [H|H]|];
    apply Ascii.eqb_eq in H; subst c; reflexivity.
Qed.

(** Two numbers followed by delimiters. *)
Lemma numchars_span s1 s2 r1 r2 :
  all_numchars s1 = true -> all_numchars s2 = true ->
  is_delim r1 = true -> is_delim r2 = true ->
  s1 +:+ r1 = s2 +:+ r2 -> s1 = s2 /\ r1 = r2.
Proof.
  revert s2. induction s1 as [|a s1 IH]; intros [|b s2] H1 H2 Hr1 Hr2 H.
  - auto.
  - change (r1 = String b (s2 +:+ r2)) in H. subst r1.
    apply is_delim_not_numchar in Hr1.
    cbn [all_numchars] in H2. rewrite Hr1 in H2. discriminate H2.
  - change (String a (s1 +:+ r1) = r2) in H. subst r2.
    apply is_delim_not_numchar in Hr2.
    cbn [all_numchars] in H1. rewrite Hr2 in H1. discriminate H1.
  - rewrite !app_cons in H. injection H as -> H.
    cbn [all_numchars] in H1, H2.
    apply andb_true_iff in H1 as [_ H1]. apply andb_true_iff in H2 as [_ H2].
    destruct (IH s2 H1 H2 Hr1 Hr2 H) as [-> ->]. auto.
Qed.

Lemma pretty_N_go_nonempty x s :
  s <> "" \/ (0 < x)%N -> pretty_N_go x s <> "".
Proof.
  revert s. induction (N.lt_wf_0 x) as [x _ IH]; intros s Hs.
  assert (x = 0 \/ 0 < x)%N as [->|Hx] by lia.
  - rewrite pretty_N_go_0. destruct Hs as [Hs|Hs]; [exact Hs|lia].
  - rewrite pretty_N_go_step by exact Hx. apply IH.
    + apply N.div_lt; [exact Hx|reflexivity].
    + left. discriminate.
Qed.

Lemma pretty_head (n : Z) : exists h t, pretty n = String h t /\ numchar h = true.
Proof.
  pose proof (all_numchars_pretty n) as H.
  destruct (pretty n) as [|h t] eqn:E.
  - exfalso. revert E.
    assert (HN : forall x : N, pretty x <> "").
    { intros x. unfold pretty, pretty_N. case_decide; [discriminate|].
      apply pretty_N_go_nonempty. right. lia. }
    destruct n as [|p|p]; unfold pretty, pretty_Z.
    + discriminate.
    + apply (HN (Npos p)).
    + discriminate.
  - cbn [all_numchars] in H. apply andb_true_iff in H as [H _]. eauto.
Qed.

Lemma pretty_prefix (n m : Z) r1 r2 :
  is_delim r1 = true -> is_delim r2 = true ->
  pretty n +:+ r1 = pretty m +:+ r2 -> n = m /\ r1 = r2.
Proof.
  intros H1 H2 H.
  apply numchars_span in H as [Hn Hr]; auto using all_numchars_pretty.
  split; [|exact Hr]. apply (inj pretty). exact Hn.
Qed.

(** *** Strings *)

Lemma unescape_escape c x : unescape_head (Json.escape_char c +:+ x) = Some (c, x).
Proof.
  destruct c as [[] [] [] [] [] [] [] []]; vm_compute; reflexivity.
Qed.

Lemma escape_head c :
  exists h t, Json.escape_char c = String h t /\ h <> PyStr.chr 34.
Proof.
  destruct c as [[] [] [] [] [] [] [] []]; vm_compute; do 2 eexists;
    (split; [reflexivity|discriminate]).
Qed.

Lemma concat_map_cons f c s :
  PyStr.concat_map f (String c s) = f c +:+ PyStr.concat_map f s.
Proof. reflexivity. Qed.

(** The body of a string up to its closing quote. *)
Lemma escaped_prefix s s' r1 r2 :
  PyStr.concat_map Json.escape_char s +:+ String (PyStr.chr 34) r1
  = PyStr.concat_map Json.escape_char s' +:+ String (PyStr.chr 34) r2 ->
  s = s' /\ r1 = r2.
Proof.
  revert s'. induction s as [|c s IH]; intros [|c' s'] H.
  - injection H as H. auto.
  - rewrite concat_map_cons, append_assoc in H.
    destruct (escape_head c') as (h & t & E & Hh). rewrite E in H.
    injection H as H _. congruence.
  - rewrite concat_map_cons, append_assoc in H.
    destruct (escape_head c) as (h & t & E & Hh). rewrite E in H.
    injection H as H _. congruence.
  - rewrite !concat_map_cons, !append_assoc in H.
    apply (f_equal unescape_head) in H. rewrite !unescape_escape in H.
    injection H as -> H. destruct (IH _ H) as [-> ->]. auto.
Qed.

Lemma encode_prefix s s' r1 r2 :
  Json.encode_basestring_ascii s +:+ r1 = Json.encode_basestring_ascii s' +:+ r2 ->
  s = s' /\ r1 = r2.
Proof.
  unfold Json.encode_basestring_ascii. rewrite !app_cons, !append_assoc.
  intros H. injection H as H. apply escaped_prefix in H. exact H.
Qed.

(** *** Values *)

Lemma numchar_not_delim h : numchar h = true -> delimchar h = false.
Proof.
  intros H. destruct (delimchar h) eqn:E; [|reflexivity].
  rewrite (is_delim_not_numchar h "" E) in H. discriminate H.
Qed.

(** A JSON text begins with a character that is no delimiter. *)
Lemma dumps_head v : exists h t, Json.dumps v = String h t /\ delimchar h = false.
Proof.
  destruct v as [|[]|n|s|l|d]; cbn [Json.dumps];
    try (do 2 eexists; split; reflexivity).
  destruct (pretty_head n) as (h & t & -> & Hh).
  exists h, t. split; [reflexivity|]. apply numchar_not_delim, Hh.
Qed.

Lemma append_nil_r (s : string) : s +:+ "" = s.
Proof. induction s as [|a s IH]; [reflexivity|]. rewrite app_cons, IH. reflexivity. Qed.

Lemma join_cons sep x l : PyStr.join sep (x :: l) = x +:+ tail_of sep l.
Proof. destruct l; [symmetry; apply append_nil_r|reflexivity]. Qed.

Lemma tail_delim l c r : is_delim (tail_of ", " l +:+ String c r) = delimchar c || negb (match l with [] => true | _ => false end).
Proof. destruct l; cbn; [rewrite orb_false_r|rewrite orb_true_r]; reflexivity. Qed.

Lemma list_prefix (l : list json) :
  Forall dumps_prefix_at l ->
  forall l' r1 r2,
    PyStr.join ", " (List.map Json.dumps l) +:+ String "]" r1
    = PyStr.join ", " (List.map Json.dumps l') +:+ String "]" r2 ->
    l = l' /\ r1 = r2.
Proof.
  induction 1 as [|x l Hx Hl IH]; intros [|x' l'] r1 r2 H.
  - injection H as H. auto.
  - exfalso. cbn [List.map] in H. rewrite join_cons, append_assoc in H.
    destruct (dumps_head x') as (h & t & E & Hh). rewrite E in H.
    injection H as H _. subst h. discriminate Hh.
  - exfalso. cbn [List.map] in H. rewrite join_cons, append_assoc in H.
    destruct (dumps_head x) as (h & t & E & Hh). rewrite E in H.
    injection H as H _. subst h. discriminate Hh.
  - cbn [List.map] in H. rewrite !join_cons, !append_assoc in H.
    apply Hx in H as [-> H]; [| rewrite tail_delim; reflexivity ..].
    destruct l as [|y l], l' as [|y' l'].
    + injection H as H. subst. auto.
    + discriminate H.
    + discriminate H.
    + change (String "," (String " " (PyStr.join ", " (List.map Json.dumps (y :: l))
                                      +:+ String "]" r1))
              = String "," (String " " (PyStr.join ", " (List.map Json.dumps (y' :: l'))
                                        +:+ String "]" r2))) in H.
      injection H as H. destruct (IH (y' :: l') r1 r2 H) as [-> ->]. auto.
Qed.

Lemma dict_prefix (d : list (string * json)) :
  Forall (fun kv => dumps_prefix_at (snd kv)) d ->
  forall d' r1 r2,
    PyStr.join ", "
      (List.map (fun kv : string * json =>
                   match kv with
                   | (k, x) => Json.encode_basestring_ascii k +:+ ": " +:+ Json.dumps x
                   end) d) +:+ String "}" r1
    = PyStr.join ", "
        (List.map (fun kv : string * json =>
                     match kv with
                     | (k, x) => Json.encode_basestring_ascii k +:+ ": " +:+ Json.dumps x
                     end) d') +:+ String "}" r2 ->
    d = d' /\ r1 = r2.
Proof.
  induction 1 as [|[k x] d Hx Hd IH]; intros [|[k' x'] d'] r1 r2 H.
  - injection H as H. auto.
  - exfalso. cbn [List.map] in H. rewrite join_cons, !append_assoc in H.
    discriminate H.
  - exfalso. cbn [List.map] in H. rewrite join_cons, !append_assoc in H.
    discriminate H.
  - cbn [List.map] in H. rewrite !join_cons, !append_assoc in H.
    apply encode_prefix in H as [-> H].
    apply append_inj_l in H. cbn [snd] in Hx.
    apply Hx in H as [-> H]; [| rewrite tail_delim; reflexivity ..].
    destruct d as [|y d], d' as [|y' d'].
    + injection H as H. subst. auto.
    + discriminate H.
    + discriminate H.
    + cbn [tail_of List.map] in H. rewrite !append_assoc in H.
      apply append_inj_l in H.
      destruct (IH (y' :: d') r1 r2 H) as [Hd' ->]. rewrite Hd'. auto.
Qed.

(** Texts of values of different kinds begin differently. *)
Ltac head_mismatch H :=
  exfalso; cbn [Json.dumps] in H; unfold Json.encode_basestring_ascii in H;
  repeat match type of H with
  | context [pretty ?n] =>
      let h := fresh "h" in let t := fresh "t" in
      let E := fresh "E" in let Hh := fresh "Hh" in
      destruct (pretty_head n) as (h & t & E & Hh); rewrite E in H
  end;
  rewrite ?app_cons in H;
  first [ discriminate H
        | injection H as H _; subst; vm_compute in *; discriminate ].

Lemma dumps_prefix v : dumps_prefix_at v.
Proof.
  induction v as [|b|n|s|l IH|d IH] using json_ind'; intros v' r1 r2 Hr1 Hr2 H.
  - destruct v' as [|[]|n'|s'|l'|d']; try solve [head_mismatch H].
    apply (append_inj_l "null") in H. auto.
  - destruct b, v' as [|[]|n'|s'|l'|d']; try solve [head_mismatch H].
    + apply (append_inj_l "true") in H. auto.
    + apply (append_inj_l "false") in H. auto.
  - destruct v' as [|[]|n'|s'|l'|d']; try solve [head_mismatch H].
    cbn [Json.dumps] in H. apply pretty_prefix in H as [-> ->]; auto.
  - destruct v' as [|[]|n'|s'|l'|d']; try solve [head_mismatch H].
    cbn [Json.dumps] in H. apply encode_prefix in H as [-> ->]. auto.
  - destruct v' as [|[]|n'|s'|l'|d']; try solve [head_mismatch H].
    cbn [Json.dumps] in H. rewrite !append_assoc in H.
    apply (append_inj_l "[") in H.
    apply (list_prefix l IH) in H as [-> ->]. auto.
  - destruct v' as [|[]|n'|s'|l'|d']; try solve [head_mismatch H].
    cbn [Json.dumps] in H. rewrite !append_assoc in H.
    apply (append_inj_l "{") in H.
    apply (dict_prefix d IH) in H as [-> ->]. auto.
Qed.

(** [json.dumps] loses nothing: two values with the same text are equal. *)
Lemma dumps_inj (v v' : json) : Json.dumps v = Json.dumps v' -> v = v'.
Proof.
  intros H. apply (dumps_prefix v v' "" ""); [reflexivity|reflexivity|].
  rewrite !append_nil_r. exact H.
Qed.

(** C6. When the child of a check fails (nonzero exit, timeout or any other
    exception) and [_execute_check] returns, the result says failure and the
    text published last for the check is the error metric of its name: the
    [# HELP] and [# TYPE] lines of [aami_check_error] and the one sample
    [aami_check_error{check="<name>"} 1]; the metric file then reads as
    exactly that text.  So two failing executions of the same check name
    leave the same metric file content, whatever the two children
    printed. *)
Theorem error_metric_independent (env1 env2 : Env) (self : DynamicCheckRunner)
    (check_name : json) (path1 path2 : Path) (config1 config2 : json)
    (w1 w2 : World) (r1 r2 : CheckResult) (w1' w2' : World) :
  _execute_check env1 self check_name path1 config1 w1 = (Ok r1, w1') ->
  _execute_check env2 self check_name path2 config2 w2 = (Ok r2, w2') ->
  is_failure (child_outcome env1 path1 config1 w1) = true ->
  is_failure (child_outcome env2 path2 config2 w2) = true ->
  let out_file := output_file_of self check_name in
  let fin_file := final_file_of self check_name in
  let text :=
    "# HELP aami_check_error Check execution error (1=error)" +:+ nl +:+
    "# TYPE aami_check_error gauge" +:+ nl +:+
    "aami_check_error{check=" +:+ dq +:+ Json.str check_name +:+ dq +:+ "} 1" +:+ nl in
  success r1 = false /\ success r2 = false
  /\ published_last w1 w1' out_file fin_file text
  /\ published_last w2 w2' out_file fin_file text
  /\ (Fs.is_symlink (w_fs w1) out_file = false ->
      Fs.is_symlink (w_fs w2) out_file = false ->
      Fs.read_text (w_fs w1') fin_file = Some text
      /\ Fs.read_text (w_fs w2') fin_file = Fs.read_text (w_fs w1') fin_file).
Proof.
  intros H1 H2 F1 F2 out_file fin_file text. subst out_file fin_file.
  change text with (_generate_error_metric check_name). clear text.
  apply execute_check_spec in H1 as (evs1 & fa & d1 & Hn1 & _ & Hr1 & _ & C1).
  apply execute_check_spec in H2 as (evs2 & fb & d2 & Hn2 & _ & Hr2 & _ & C2).
  destruct C1 as [(_ & so & se & Ho & _)|(S1 & ->)];
    [rewrite Ho in F1; discriminate F1|].
  destruct C2 as [(_ & so & se & Ho & _)|(S2 & ->)];
    [rewrite Ho in F2; discriminate F2|].
  split; [exact S1|]. split; [exact S2|]. split; [|split].
  - eexists (_ :: evs1), fa. exact Hn1.
  - eexists (_ :: evs2), fb. exact Hn2.
  - intros Hs1 Hs2. rewrite (Hr2 Hs2), (Hr1 Hs1). split; reflexivity.
Qed.

(** C8. [_execute_check] runs the script once as a child whose command line
    is the script path alone and whose standard input is [json.dumps] of the
    config: a JSON text on one line that no other config has, so that the
    child can tell from it what the config is.  A result that says success
    comes from exit code 0 only, and then the child's output is what was
    published, unchanged, as the metric file of the check; exit code 0 gives
    success whenever that publishing does not raise. *)
Theorem execute_check_protocol (env : Env) (self : DynamicCheckRunner)
    (check_name : json) (script_path : Path) (config : json)
    (w : World) (res : result CheckResult) (w' : World) :
  _execute_check env self check_name script_path config w = (res, w') ->
  let out_file := output_file_of self check_name in
  let fin_file := final_file_of self check_name in
  (exists evs,
     new_events w w' =
       mkEvent (OpSpawn [PyPath.str script_path] (Json.dumps config)) (w_fs w) :: evs
     /\ Forall (fun ev => is_spawn (ev_op ev) = false) evs)
  /\ (forall r, res = Ok r -> success r = true ->
        exists stdout stderr fs1,
          child_outcome env script_path config w = Completed 0 stdout stderr
          /\ output r = stdout
          /\ new_events w w' =
               [mkEvent (OpSpawn [PyPath.str script_path] (Json.dumps config)) (w_fs w);
                mkEvent (OpWrite out_file stdout) fs1;
                mkEvent (OpRename out_file fin_file) (w_fs w')]
          /\ (Fs.is_symlink (w_fs w) out_file = false ->
              Fs.read_text (w_fs w') fin_file = Some stdout))
  /\ (forall r, res = Ok r ->
        is_failure (child_outcome env script_path config w) = true ->
        success r = false)
  /\ (forall stdout stderr u w2,
        child_outcome env script_path config w = Completed 0 stdout stderr ->
        publish_check env self check_name stdout (child_world script_path config w)
          = (Ok u, w2) ->
        res = Ok (mkCheckResult check_name true stdout None) /\ w' = w2)
  /\ one_line (Json.dumps config)
  /\ (forall config', Json.dumps config' = Json.dumps config -> config' = config).
Proof.
  intros H out_file fin_file. subst out_file fin_file.
  split; [|split; [|split; [|split; [|split; [apply dumps_one_line|]]]]].
  5:{ intros config' Hc. apply dumps_inj. exact Hc. }
  - destruct (execute_check_emits _ _ _ _ _ _ _ _ H) as (evs & Hl & Hevs).
    exists evs. split.
    + apply new_events_app. rewrite Hl. cbn [child_world w_log].
      rewrite <- app_assoc. reflexivity.
    + eapply Forall_impl; [exact Hevs|]. cbn. intros ev. apply is_publish_not_spawn.
  - intros r -> Hs.
    apply execute_check_spec in H as (evs & fs1 & d & Hn & _ & Hr & _ & C).
    destruct C as [(_ & so & se & Ho & -> & Hout & ->)|(Hf & _)]; [|congruence].
    exists so, se, fs1. auto.
  - intros r -> Hf.
    apply execute_check_spec in H as (evs & fs1 & d & Hn & _ & Hr & _ & C).
    destruct C as [(_ & so & se & Ho & _)|(Hs & _)]; [|exact Hs].
    rewrite Ho in Hf. discriminate Hf.
  - intros so se u w2 Ho Hpub. rewrite execute_check_unfold in H. cbv zeta in H.
    rewrite Ho in H. cbn [Z.eqb] in H. rewrite Hpub in H. invc H. auto.
Qed.

(** ** The loop of [run] *)

Lemma counts_sum (rs : list CheckResult) :
  count_succeeded rs + count_failed rs = Z.of_nat (length rs)
  /\ 0 <= count_succeeded rs /\ 0 <= count_failed rs.
Proof.
  unfold count_succeeded, count_failed. split; [|lia].
  induction rs as [|r rs IH]; cbn [List.filter length]; [reflexivity|].
  destruct (success r); cbn [negb length]; lia.
Qed.

Lemma count_succeeded_cons r rs :
  count_succeeded (r :: rs) = (if success r then 1 else 0) + count_succeeded rs.
Proof.
  unfold count_succeeded. cbn [List.filter]. destruct (success r); cbn [length]; lia.
Qed.

Lemma count_failed_cons r rs :
  count_failed (r :: rs) = (if success r then 0 else 1) + count_failed rs.
Proof.
  unfold count_failed. cbn [List.filter]. destruct (success r); cbn [negb length]; lia.
Qed.

Lemma check_results_length env self checks w rs w' :
  check_results env self checks w = (Ok rs, w') -> length rs = length checks.
Proof.
  revert w rs w'. induction checks as [|c checks IH]; intros w rs w' H;
    cbn [check_results] in H.
  - invc H. reflexivity.
  - bind_inv H. bind_inv H. bind_inv H. invc H. cbn [length]. f_equal. eauto.
Qed.

(** The counters of [run] are the numbers of succeeded and of failed
    results. *)
Lemma run_checks_counts env self checks w rs w' :
  check_results env self checks w = (Ok rs, w') ->
  forall s f,
    run_checks env self checks s f w
    = (Ok (s + count_succeeded rs, f + count_failed rs), w').
Proof.
  revert w rs w'. induction checks as [|c checks IH]; intros w rs w' H s f;
    cbn [check_results run_checks] in *.
  - invc H. unfold ret. do 2 f_equal. unfold count_succeeded, count_failed. cbn.
    f_equal; lia.
  - bind_inv H. bind_inv H. bind_inv H. invc H.
    rewrite (bind_eq _ _ _ _ _ Ha). rewrite (bind_eq _ _ _ _ _ Ha0).
    rewrite count_succeeded_cons, count_failed_cons.
    destruct (success a0).
    + rewrite (IH _ _ _ Ha1). do 2 f_equal. f_equal; lia.
    + rewrite (IH _ _ _ Ha1). do 2 f_equal. f_equal; lia.
Qed.

(** An exception in the loop leaves [run_checks] where it was raised. *)
Lemma run_checks_raise env self checks w e w' :
  check_results env self checks w = (Raise e, w') ->
  forall s f, run_checks env self checks s f w = (Raise e, w').
Proof.
  revert w. induction checks as [|c checks IH]; intros w H s f;
    cbn [check_results run_checks] in *.
  - discriminate H.
  - apply bind_raise in H as [H|(p & w1 & Hp & H)].
    { rewrite (bind_eq_raise _ _ _ _ _ H). reflexivity. }
    rewrite (bind_eq _ _ _ _ _ Hp).
    apply bind_raise in H as [H|(r & w2 & Hr & H)].
    { rewrite (bind_eq_raise _ _ _ _ _ H). reflexivity. }
    rewrite (bind_eq _ _ _ _ _ Hr).
    apply bind_raise in H as [H|(rs & w3 & Hrs & H)]; [|discriminate H].
    destruct (success r); apply IH; exact H.
Qed.

Lemma check_results_app_raise env self pre check post w rs w2 e w3 :
  check_results env self pre w = (Ok rs, w2) ->
  _save_check_script env self check w2 = (Raise e, w3) ->
  check_results env self (pre ++ check :: post) w = (Raise e, w3).
Proof.
  revert w rs. induction pre as [|c pre IH]; intros w rs Hpre Hsave;
    cbn [check_results app] in *.
  - invc Hpre. rewrite (bind_eq_raise _ _ _ _ _ Hsave). reflexivity.
  - bind_inv Hpre. bind_inv Hpre. bind_inv Hpre. invc Hpre.
    rewrite (bind_eq _ _ _ _ _ Hprea). rewrite (bind_eq _ _ _ _ _ Hprea0).
    rewrite (bind_eq_raise _ _ _ _ _ (IH _ _ Hprea1 Hsave)). reflexivity.
Qed.

Lemma run_fetch_ok env self w checks :
  config_server_url self <> EmptyString ->
  checks_of_outcome (urlopen env (fetch_url self)) = Some checks ->
  run env self w =
    (counts <- run_checks env self checks 0 0 ;;
     t <- time env ;;
     duration <- py_int (t - time_time env (w_clock w))%float ;;
     _write_status_metrics env self true (Z.of_nat (length checks))
       (fst counts) (snd counts) duration ;;;
     ret 0) (after_fetch self w).
Proof.
  intros Hurl Hsome. unfold run.
  apply String.eqb_neq in Hurl. rewrite Hurl.
  unfold _fetch_effective_checks.
  unfold bind at 1. unfold time at 1. cbv beta iota.
  unfold bind at 1. unfold bind at 1. unfold bind at 1.
  unfold get_fs, perform, ret at 1. cbv beta iota. cbn [w_fs w_log w_clock].
  rewrite Hsome. reflexivity.
Qed.

Lemma save_check_script_emits env self check :
  emits (fun o => is_cache_op o = true) (_save_check_script env self check).
Proof.
  unfold _save_check_script. destruct (name check); try apply emits_raise.
  apply emits_bind; [|intros _].
  { eapply emits_weaken; [|apply makedirs_emits]. intros o [p ->]. reflexivity. }
  apply emits_bind; [|intros _].
  { apply emits_bind; [apply emits_get_fs|intros fs].
    destruct (Fs.exists_ _ _); [apply emits_ret|].
    destruct (sliceable _); [|apply emits_raise].
    destruct (script_content check); try apply emits_raise.
    apply emits_bind; [|intros _].
    - eapply emits_weaken; [|apply write_text_emits]. intros o ->. reflexivity.
    - eapply emits_weaken; [|apply chmod_755_emits]. intros o ->. reflexivity. }
  apply emits_bind; [|intros _].
  { apply emits_bind; [apply emits_get_fs|intros fs].
    destruct (Fs.is_symlink _ _); [|destruct (Fs.exists_ _ _); [|apply emits_ret]].
    - eapply emits_weaken; [|apply unlink_emits]. intros o ->. reflexivity.
    - eapply emits_weaken; [|apply unlink_emits]. intros o ->. reflexivity. }
  apply emits_bind; [|intros _; apply emits_ret].
  eapply emits_weaken; [|apply symlink_to_emits]. intros o ->. reflexivity.
Qed.

(** ** The summary of a run *)

(** C4. In a run whose fetch gave [N] checks, all of which produced a
    result, [S] of them succeeded and [F] failed: [S + F = N], and the
    summary that a returning [run] has published last is the status text
    whose samples say fetch status 1, [aami_checks_total N],
    [aami_checks_success S] and [aami_checks_failed F]. *)
Theorem summary_counts (env : Env) (self : DynamicCheckRunner) (w : World)
    (checks : list CheckInfo) (rs : list CheckResult) (w2 : World) :
  config_server_url self <> EmptyString ->
  checks_of_outcome (urlopen env (fetch_url self)) = Some checks ->
  check_results env self checks (after_fetch self w) = (Ok rs, w2) ->
  let N := Z.of_nat (length checks) in
  let S := count_succeeded rs in
  let F := count_failed rs in
  let duration :=
    int_of_float (time_time env (w_clock w2) - time_time env (w_clock w))%float in
  let timestamp := int_of_float (time_time env (Datatypes.S (w_clock w2))) in
  let text := status_metrics 1 timestamp duration N S F in
  S + F = N /\ 0 <= S /\ 0 <= F
  /\ length rs = length checks
  /\ forall status w',
       run env self w = (Ok status, w') ->
       status = 0
       /\ (exists fs1,
             new_events w2 w' =
               [mkEvent (OpWrite (status_temp_of self) text) fs1;
                mkEvent (OpRename (status_temp_of self) (status_file_of self))
                        (w_fs w')])
       /\ (Fs.is_symlink (w_fs w2) (status_temp_of self) = false ->
           Fs.read_text (w_fs w') (status_file_of self) = Some text)
       /\ samples text
          = [ "aami_check_fetch_status 1";
              "aami_check_fetch_timestamp_seconds " +:+ pretty timestamp;
              "aami_check_execution_duration_seconds " +:+ pretty duration;
              "aami_checks_total " +:+ pretty N;
              "aami_checks_success " +:+ pretty S;
              "aami_checks_failed " +:+ pretty F ].
Proof.
  intros Hurl Hsome Hres N S F duration timestamp text.
  pose proof (check_results_length _ _ _ _ _ _ Hres) as Hlen.
  destruct (counts_sum rs) as (Hsum & HS & HF).
  split; [subst N S F; rewrite Hsum, Hlen; reflexivity|].
  split; [exact HS|]. split; [exact HF|]. split; [exact Hlen|].
  intros status w' Hrun.
  rewrite (run_fetch_ok env self w checks Hurl Hsome) in Hrun.
  rewrite (bind_eq _ _ _ _ _ (run_checks_counts _ _ _ _ _ _ Hres 0 0)) in Hrun.
  cbn [fst snd] in Hrun. rewrite !Z.add_0_l in Hrun.
  unfold bind at 1 in Hrun. unfold time at 1 in Hrun. cbv beta iota in Hrun.
  bind_inv Hrun. apply py_int_ok in Hruna as [-> ->].
  bind_inv Hrun. invc Hrun.
  apply write_status_metrics_ok in Hruna as (fs1 & fs2 & -> & Hread).
  cbn [w_fs w_log w_clock] in *.
  split; [reflexivity|]. split; [|split].
  - exists fs1. apply new_events_app. reflexivity.
  - exact Hread.
  - apply samples_status_metrics.
Qed.

(** C2 (as the code has it). When the fetch succeeded, the checks before
    [check] produced their results and saving the script of [check] raises,
    nothing catches the exception: [run] raises it in the world where the
    save stopped, so the process ends with status 1, [check] and the checks
    after it are not executed and no summary is published (the calls since
    the last result are calls of the script cache only). *)
Theorem persist_failure_aborts (env : Env) (self : DynamicCheckRunner) (w : World)
    (pre : list CheckInfo) (check : CheckInfo) (post : list CheckInfo)
    (rs : list CheckResult) (w2 : World) (e : exn) (w3 : World) :
  config_server_url self <> EmptyString ->
  checks_of_outcome (urlopen env (fetch_url self)) = Some (pre ++ check :: post) ->
  check_results env self pre (after_fetch self w) = (Ok rs, w2) ->
  _save_check_script env self check w2 = (Raise e, w3) ->
  run env self w = (Raise e, w3)
  /\ exit_status (fst (run env self w)) = 1
  /\ Forall (fun ev => is_cache_op (ev_op ev) = true
                       /\ is_spawn (ev_op ev) = false
                       /\ is_rename (ev_op ev) = false) (new_events w2 w3).
Proof.
  intros Hurl Hsome Hpre Hsave.
  assert (Hrun : run env self w = (Raise e, w3)).
  { rewrite (run_fetch_ok env self w _ Hurl Hsome).
    apply bind_eq_raise. apply run_checks_raise.
    eapply check_results_app_raise; eassumption. }
  split; [exact Hrun|]. split; [rewrite Hrun; reflexivity|].
  pose proof (save_check_script_emits _ _ _ _ _ _ Hsave) as Hlog.
  apply log_grows_new_events in Hlog.
  eapply Forall_impl; [exact Hlog|]. cbn. intros ev Hev.
  split; [exact Hev|]. destruct (ev_op ev); cbn in *; auto; discriminate.
Qed.

(** C5 (as the code has it). After a failed fetch the process ends with
    status 1.  After a successful fetch [run] returns nothing but 0,
    whatever the results of the checks are, and it does return 0 when every
    check produced a result and the summary could be published; an exception
    that escapes [run] ends the process with status 1. *)
Theorem exit_status_of_run (env : Env) (self : DynamicCheckRunner) (w : World) :
  config_server_url self <> EmptyString ->
  (checks_of_outcome (urlopen env (fetch_url self)) = None ->
   exit_status (fst (run env self w)) = 1)
  /\ (forall checks,
        checks_of_outcome (urlopen env (fetch_url self)) = Some checks ->
        exit_status (fst (run env self w))
        = match fst (run env self w) with Ok _ => 0 | Raise _ => 1 end
        /\ forall rs w2 u w',
             check_results env self checks (after_fetch self w) = (Ok rs, w2) ->
             (t <- time env ;;
              duration <- py_int (t - time_time env (w_clock w))%float ;;
              _write_status_metrics env self true (Z.of_nat (length checks))
                (count_succeeded rs) (count_failed rs) duration) w2 = (Ok u, w') ->
             run env self w = (Ok 0, w')).
Proof.
  intros Hurl. split.
  - intros Hnone. apply (fetch_failure_status env self w Hurl Hnone).
  - intros checks Hsome. split.
    + destruct (run env self w) as [[status|e] w'] eqn:Hrun; [|reflexivity].
      cbn [fst exit_status].
      rewrite (run_fetch_ok env self w checks Hurl Hsome) in Hrun.
      bind_inv Hrun. bind_inv Hrun. bind_inv Hrun. bind_inv Hrun. invc Hrun.
      reflexivity.
    + intros rs w2 u w' Hres Hpub.
      rewrite (run_fetch_ok env self w checks Hurl Hsome).
      rewrite (bind_eq _ _ _ _ _ (run_checks_counts _ _ _ _ _ _ Hres 0 0)).
      cbn [fst snd]. rewrite !Z.add_0_l.
      bind_inv Hpub. bind_inv Hpub.
      rewrite (bind_eq _ _ _ _ _ Hpuba). rewrite (bind_eq _ _ _ _ _ Hpuba0).
      rewrite (bind_eq _ _ _ _ _ Hpub). reflexivity.
Qed.

(** ** Following links *)

Lemma lstat_insert_ne (fs : FS) (k p : Path) v :
  p <> k -> Fs.lstat (<[k := v]> fs) p = Fs.lstat fs p.
Proof.
  intros Hne. unfold Fs.lstat. destruct (parts p); [reflexivity|].
  apply lookup_insert_ne. congruence.
Qed.

Lemma lstat_insert_eq (fs : FS) (k : Path) v :
  parts k <> [] -> Fs.lstat (<[k := v]> fs) k = Some v.
Proof. intros Hk. rewrite lstat_lookup by exact Hk. apply lookup_insert_eq. Qed.

Lemma resolve_end n (fs : FS) p q o :
  Fs.resolve n fs p = Some (q, o) ->
  Fs.lstat fs q = o /\ forall t, o <> Some (Symlink t).
Proof.
  revert p. induction n as [|n IH]; intros p H; cbn in H;
    destruct (Fs.lstat fs p) as [[d x|t|]|] eqn:E; try discriminate;
    try (invc H; split; [exact E|congruence]).
  eapply IH; exact H.
Qed.

Lemma resolve_mono n m (fs : FS) p r :
  Fs.resolve n fs p = Some r -> (n <= m)%nat -> Fs.resolve m fs p = Some r.
Proof.
  revert m p. induction n as [|n IH]; intros m p H Hle; cbn in H.
  - destruct m; cbn; destruct (Fs.lstat fs p) as [[d x|t|]|]; congruence.
  - destruct m as [|m]; [lia|]. cbn.
    destruct (Fs.lstat fs p) as [[d x|t|]|]; try congruence.
    apply IH; [exact H|lia].
Qed.

(** A new entry at an absent path does not disturb a walk that arrives. *)
Lemma resolve_insert_absent n (fs : FS) k v p q nd :
  Fs.lstat fs k = None ->
  Fs.resolve n fs p = Some (q, Some nd) ->
  Fs.resolve n (<[k := v]> fs) p = Some (q, Some nd).
Proof.
  intros Hk. revert p. induction n as [|n IH]; intros p H; cbn in *.
  - destruct (decide (p = k)) as [->|Hne].
    + rewrite Hk in H. congruence.
    + rewrite lstat_insert_ne by exact Hne.
      destruct (Fs.lstat fs p) as [[d x|t|]|]; congruence.
  - destruct (decide (p = k)) as [->|Hne].
    + rewrite Hk in H. congruence.
    + rewrite lstat_insert_ne by exact Hne.
      destruct (Fs.lstat fs p) as [[d x|t|]|]; try congruence.
      apply IH. exact H.
Qed.

(** Writing where a walk ends keeps the walk. *)
Lemma resolve_insert_end n (fs : FS) p q o v :
  Fs.resolve n fs p = Some (q, o) ->
  parts q <> [] ->
  (forall t, v <> Symlink t) ->
  Fs.resolve n (<[q := v]> fs) p = Some (q, Some v).
Proof.
  intros H Hq Hv. revert p H. induction n as [|n IH]; intros p H; cbn in *.
  - destruct (decide (p = q)) as [->|Hne].
    + rewrite lstat_insert_eq by exact Hq. destruct v; try reflexivity.
      exfalso. eapply Hv. reflexivity.
    + rewrite lstat_insert_ne by exact Hne.
      destruct (Fs.lstat fs p) as [[d x|t|]|]; congruence.
  - destruct (decide (p = q)) as [->|Hne].
    + rewrite lstat_insert_eq by exact Hq. destruct v; try reflexivity.
      exfalso. eapply Hv. reflexivity.
    + rewrite lstat_insert_ne by exact Hne.
      destruct (Fs.lstat fs p) as [[d x|t|]|]; try congruence.
      apply IH. exact H.
Qed.

(** After [k] is made a link to [file], a walk is as before, or fails, or
    goes on from [file] with less fuel. *)
Lemma resolve_redirect (fs : FS) k file :
  parts k <> [] ->
  forall n p,
    Fs.resolve n (<[k := Symlink file]> fs) p = Fs.resolve n fs p
    \/ Fs.resolve n (<[k := Symlink file]> fs) p = None
    \/ exists m, (m < n)%nat /\
         Fs.resolve n (<[k := Symlink file]> fs) p
         = Fs.resolve m (<[k := Symlink file]> fs) file.
Proof.
  intros Hk. induction n as [|n IH]; intros p; cbn.
  - destruct (decide (p = k)) as [->|Hne].
    + rewrite lstat_insert_eq by exact Hk. auto.
    + rewrite lstat_insert_ne by exact Hne. auto.
  - destruct (decide (p = k)) as [->|Hne].
    + rewrite lstat_insert_eq by exact Hk. right. right. exists n. split; [lia|reflexivity].
    + rewrite lstat_insert_ne by exact Hne.
      destruct (Fs.lstat fs p) as [[d x|t|]|]; auto.
      destruct (IH t) as [H|[H|(m & Hm & H)]]; auto.
      right. right. exists m. split; [lia|exact H].
Qed.

(** If [file] led somewhere before [k] was made a link to it, it leads to
    the same place afterwards or the walk does not end. *)
Lemma resolve_after_redirect (fs : FS) k file N r :
  parts k <> [] ->
  Fs.resolve N fs file = Some r ->
  forall n,
    Fs.resolve n (<[k := Symlink file]> fs) file = None
    \/ Fs.resolve n (<[k := Symlink file]> fs) file = Some r.
Proof.
  intros Hk HN n. induction n as [n IH] using lt_wf_ind.
  destruct (resolve_redirect fs k file Hk n file) as [H|[H|(m & Hm & H)]].
  - rewrite H. destruct (Fs.resolve n fs file) as [r'|] eqn:E; [|auto].
    right. f_equal.
    destruct (Nat.le_ge_cases n N) as [Hle|Hge].
    + pose proof (resolve_mono _ _ _ _ _ E Hle). congruence.
    + pose proof (resolve_mono _ _ _ _ _ HN Hge). congruence.
  - auto.
  - rewrite H. apply IH. exact Hm.
Qed.

(** ** The script cache *)

Lemma is_dir_lstat (fs : FS) p :
  Fs.is_dir fs p = true -> Fs.lstat fs p <> None.
Proof.
  unfold Fs.is_dir, Fs.stat. intros H E.
  rewrite resolve_not_symlink in H by (unfold Fs.is_symlink; rewrite E; reflexivity).
  rewrite E in H. discriminate H.
Qed.

(** [mkdir(parents=True, exist_ok=True)] on a directory does nothing. *)
Lemma makedirs_is_dir env p w :
  Fs.is_dir (w_fs w) p = true -> Os.makedirs env p w = (Ok tt, w).
Proof.
  intros Hdir. pose proof (is_dir_lstat _ _ Hdir) as Hl.
  unfold Os.makedirs.
  assert (Hmk : Os.mkdir env p w = (Raise FileExistsError, w)).
  { unfold Os.mkdir, bind, get_fs. cbv beta iota.
    destruct (Fs.lstat (w_fs w) p); [reflexivity|congruence]. }
  destruct (length (parts p)); cbn [Os.mkdir_parents]; unfold try_except;
    rewrite Hmk; unfold bind, get_fs; cbv beta iota; rewrite Hdir; reflexivity.
Qed.

Lemma current_link_parts self nm :
  current_link_of self nm
  = mkPath (root (script_dir_of self nm)) (parts (script_dir_of self nm) ++ ["current.sh"]).
Proof. reflexivity. Qed.

Lemma current_link_nonempty self nm : parts (current_link_of self nm) <> [].
Proof.
  rewrite current_link_parts. cbn [parts]. intros H.
  apply app_eq_nil in H as [_ H]. discriminate H.
Qed.

Lemma current_link_parent self nm :
  PyPath.parent (current_link_of self nm) = script_dir_of self nm.
Proof.
  rewrite current_link_parts. unfold PyPath.parent. cbn [root parts].
  rewrite removelast_last. destruct (script_dir_of self nm). reflexivity.
Qed.

Lemma save_check_script_steps env self check nm :
  name check = JStr nm ->
  _save_check_script env self check =
    (Os.makedirs env (script_dir_of self nm) ;;;
     save_body env self nm check ;;;
     remove_pointer env self nm ;;;
     Os.symlink_to env (current_link_of self nm)
                   (script_file_of self nm (script_hash check)) ;;;
     ret (current_link_of self nm)).
Proof. intros H. unfold _save_check_script. rewrite H. reflexivity. Qed.

Lemma save_check_script_name env self check w p w' :
  _save_check_script env self check w = (Ok p, w') ->
  exists nm, name check = JStr nm.
Proof.
  unfold _save_check_script. destruct (name check); try discriminate. eauto.
Qed.

Lemma preserves_bind {A B} I (m : M A) (k : A -> M B) :
  preserves I m -> (forall a, preserves I (k a)) -> preserves I (bind m k).
Proof.
  intros Hm Hk w r w' H HI. unfold bind in H.
  destruct (m w) as [[a|e] w1] eqn:E.
  - eapply Hk; [exact H|]. eapply Hm; eauto.
  - invc H. eapply Hm; eauto.
Qed.

Lemma preserves_try_except {A} I (m : M A) (h : exn -> M A) :
  preserves I m -> (forall e, preserves I (h e)) -> preserves I (try_except m h).
Proof.
  intros Hm Hh w r w' H HI. unfold try_except in H.
  destruct (m w) as [[a|e] w1] eqn:E.
  - invc H. eapply Hm; eauto.
  - eapply Hh; [exact H|]. eapply Hm; eauto.
Qed.

Lemma preserves_pure {A} I (m : M A) :
  (forall w, snd (m w) = w) -> preserves I m.
Proof. intros Hm w r w' H HI. specialize (Hm w). rewrite H in Hm. cbn in Hm. congruence. Qed.

Lemma lstat_insert_some (fs : FS) q v k :
  Fs.lstat fs k <> None -> Fs.lstat (<[q := v]> fs) k <> None.
Proof.
  unfold Fs.lstat. destruct (parts k); [congruence|].
  intros H. destruct (decide (q = k)) as [->|Hne].
  - rewrite lookup_insert_eq. congruence.
  - rewrite lookup_insert_ne by exact Hne. exact H.
Qed.

Lemma link_kept_refl k w : Fs.lstat (w_fs w) k <> None -> link_kept k w w.
Proof.
  intros H. split; [exact H|]. exists []. split; [symmetry; apply app_nil_r|constructor].
Qed.

Lemma link_kept_step k w0 w o fs' c :
  link_kept k w0 w -> Fs.lstat fs' k <> None ->
  link_kept k w0 (mkWorld fs' (w_log w ++ [mkEvent o fs']) c).
Proof.
  intros (H & evs & Hl & Hevs) H'. split; [exact H'|].
  exists (evs ++ [mkEvent o fs']). cbn [w_log]. split.
  - rewrite Hl, <- app_assoc. reflexivity.
  - apply Forall_app. split; [exact Hevs|]. constructor; [exact H'|constructor].
Qed.

Lemma write_text_keeps env p data k w0 :
  preserves (link_kept k w0) (Os.write_text env p data).
Proof.
  intros w r w' H HI. pose proof HI as (Hk & _).
  unfold Os.write_text in H. os_cases H; auto;
    apply link_kept_step; auto using lstat_insert_some.
Qed.

Lemma chmod_755_keeps env p k w0 :
  preserves (link_kept k w0) (Os.chmod_755 env p).
Proof.
  intros w r w' H HI. pose proof HI as (Hk & _).
  unfold Os.chmod_755 in H. os_cases H; auto;
    apply link_kept_step; auto using lstat_insert_some.
Qed.

Lemma mkdir_keeps env p k w0 :
  preserves (link_kept k w0) (Os.mkdir env p).
Proof.
  intros w r w' H HI. pose proof HI as (Hk & _).
  unfold Os.mkdir in H. os_cases H; auto;
    apply link_kept_step; auto using lstat_insert_some.
Qed.

Lemma is_dir_check_keeps (I : World -> Prop) p e :
  preserves I (fs <- get_fs ;; if Fs.is_dir fs p then ret tt else raise e).
Proof.
  apply preserves_pure. intros w. unfold bind, get_fs. cbv beta iota.
  destruct (Fs.is_dir _ _); reflexivity.
Qed.

Lemma mkdir_parents_keeps env n p k w0 :
  preserves (link_kept k w0) (Os.mkdir_parents env n p).
Proof.
  revert p. induction n as [|n IH]; intros p; cbn [Os.mkdir_parents];
    (apply preserves_try_except; [apply mkdir_keeps|intros e]).
  - destruct e; try apply is_dir_check_keeps.
    apply preserves_pure. reflexivity.
  - destruct e; try apply is_dir_check_keeps.
    apply preserves_bind; [apply IH|intros _].
    unfold Os.mkdir_exist_ok. apply preserves_try_except; [apply mkdir_keeps|intros e].
    apply is_dir_check_keeps.
Qed.

Lemma save_body_keeps env self nm check k w0 :
  preserves (link_kept k w0) (save_body env self nm check).
Proof.
  unfold save_body. apply preserves_bind; [apply preserves_pure; reflexivity|intros fs].
  destruct (Fs.exists_ _ _); [apply preserves_pure; reflexivity|].
  destruct (sliceable _); [|apply preserves_pure; reflexivity].
  destruct (script_content check); try (apply preserves_pure; reflexivity).
  apply preserves_bind; [apply write_text_keeps|intros _; apply chmod_755_keeps].
Qed.

Lemma exists_not_symlink (fs : FS) p :
  Fs.is_symlink fs p = false -> Fs.lstat fs p <> None -> Fs.exists_ fs p = true.
Proof.
  intros Hs Hl. unfold Fs.exists_, Fs.stat. rewrite resolve_not_symlink by exact Hs.
  destruct (Fs.lstat fs p); [reflexivity|congruence].
Qed.

Lemma lstat_delete (fs : FS) p : parts p <> [] -> Fs.lstat (delete p fs) p = None.
Proof. intros Hp. rewrite lstat_lookup by exact Hp. apply lookup_delete_eq. Qed.

(** The pointer is removed when there is one. *)
Lemma remove_pointer_present env self nm w u w' :
  remove_pointer env self nm w = (Ok u, w') ->
  Fs.lstat (w_fs w) (current_link_of self nm) <> None ->
  w' = mkWorld (delete (current_link_of self nm) (w_fs w))
         (w_log w ++ [mkEvent (OpUnlink (current_link_of self nm))
                              (delete (current_link_of self nm) (w_fs w))])
         (w_clock w).
Proof.
  intros H Hl. unfold remove_pointer in H.
  unfold bind at 1, get_fs at 1 in H. cbv beta iota in H.
  destruct (Fs.is_symlink _ _) eqn:Hs.
  - apply unlink_ok in H as [_ ->]. reflexivity.
  - rewrite (exists_not_symlink _ _ Hs Hl) in H.
    apply unlink_ok in H as [_ ->]. reflexivity.
Qed.

(** Whether removed or absent, the pointer is not there afterwards. *)
Lemma remove_pointer_ok env self nm w u w' :
  remove_pointer env self nm w = (Ok u, w') ->
  w_fs w' = delete (current_link_of self nm) (w_fs w)
  /\ w_clock w' = w_clock w
  /\ (w_log w' = w_log w ++ [mkEvent (OpUnlink (current_link_of self nm))
                                     (delete (current_link_of self nm) (w_fs w))]
      \/ (w_log w' = w_log w /\ Fs.lstat (w_fs w) (current_link_of self nm) = None)).
Proof.
  intros H.
  destruct (Fs.lstat (w_fs w) (current_link_of self nm)) as [n|] eqn:Hl.
  - apply remove_pointer_present in H; [|congruence]. subst w'. cbn. auto.
  - unfold remove_pointer in H.
    unfold bind at 1, get_fs at 1 in H. cbv beta iota in H.
    unfold Fs.is_symlink, Fs.exists_, Fs.stat in H.
    rewrite resolve_not_symlink in H
      by (unfold Fs.is_symlink; rewrite Hl; reflexivity).
    rewrite Hl in H. invc H.
    rewrite lstat_lookup in Hl by apply current_link_nonempty.
    rewrite delete_id by exact Hl. auto.
Qed.

(** C1 (as the code has it). When [_save_check_script] returns and there
    was a pointer before the call, the pointer is there until the update;
    the update is two calls, the last two of the operation: [unlink] of the
    pointer, after which there is no pointer, then [symlink_to], after which
    the pointer is a link to the script file of the check. *)
Theorem pointer_update_steps (env : Env) (self : DynamicCheckRunner)
    (check : CheckInfo) (w : World) (p : Path) (w' : World) :
  _save_check_script env self check w = (Ok p, w') ->
  Fs.lstat (w_fs w) p <> None ->
  exists nm evs fs_u,
    name check = JStr nm
    /\ p = current_link_of self nm
    /\ new_events w w' =
         evs ++ [mkEvent (OpUnlink p) fs_u;
                 mkEvent (OpSymlink p (script_file_of self nm (script_hash check)))
                         (w_fs w')]
    /\ Forall (fun ev => Fs.lstat (ev_fs ev) p <> None) evs
    /\ Fs.lstat fs_u p = None
    /\ Fs.lstat (w_fs w') p
       = Some (Symlink (script_file_of self nm (script_hash check))).
Proof.
  intros H Hl.
  destruct (save_check_script_name _ _ _ _ _ _ H) as [nm Hnm].
  rewrite (save_check_script_steps env self check nm Hnm) in H.
  apply bind_ok in H as (u1 & w1 & H1 & H).
  apply bind_ok in H as (u2 & w2 & H2 & H).
  apply bind_ok in H as (u3 & w3 & H3 & H).
  apply bind_ok in H as (u4 & w4 & H4 & H). invc H.
  set (link := current_link_of self nm) in *.
  assert (K2 : link_kept link w w2).
  { eapply save_body_keeps; [exact H2|].
    eapply mkdir_parents_keeps; [exact H1|]. apply link_kept_refl. exact Hl. }
  destruct K2 as (Hl2 & evs & Hlog2 & Hevs).
  apply remove_pointer_present in H3; [|exact Hl2]. subst w3.
  apply symlink_to_ok in H4 as (_ & _ & ->). cbn [w_fs w_log w_clock].
  exists nm, evs, (delete link (w_fs w2)).
  split; [exact Hnm|]. split; [reflexivity|]. split; [|split; [|split]].
  - apply new_events_app. cbn [w_log]. rewrite Hlog2, <- !app_assoc. reflexivity.
  - exact Hevs.
  - apply lstat_delete, current_link_nonempty.
  - apply lstat_insert_eq, current_link_nonempty.
Qed.

(** After the second step the script file exists. *)
Lemma save_body_exists env self nm check w u w' :
  save_body env self nm check w = (Ok u, w') ->
  Fs.exists_ (w_fs w') (script_file_of self nm (script_hash check)) = true.
Proof.
  intros H. unfold save_body in H.
  unfold bind at 1, get_fs at 1 in H. cbv beta iota in H.
  set (file := script_file_of self nm (script_hash check)) in *.
  destruct (Fs.exists_ (w_fs w) file) eqn:Hex; [invc H; exact Hex|].
  destruct (sliceable _); [|discriminate H].
  destruct (script_content check) as [| | |body| |]; try discriminate H.
  apply bind_ok in H as (u1 & w1 & Hw & Hc).
  apply write_text_ok in Hw as (q & x & Hstat & ->).
  assert (Hq : exists o, Fs.stat (w_fs w) file = Some (q, o) /\ parts q <> []).
  { destruct Hstat as [Hs|[d Hs]]; eexists; (split; [exact Hs|]);
      apply resolve_end in Hs as [Hs _].
    - eapply lstat_none_parts; exact Hs.
    - eapply lstat_not_dir_parts. rewrite Hs. discriminate. }
  destruct Hq as (o & Hs & Hq).
  assert (Hs1 : Fs.stat (<[q := File body x]> (w_fs w)) file
                = Some (q, Some (File body x))).
  { eapply resolve_insert_end; [exact Hs|exact Hq|discriminate]. }
  apply chmod_755_ok in Hc as (q' & n & fs' & Hs' & -> & ->). cbn [w_fs] in *.
  rewrite Hs1 in Hs'. invc Hs'.
  unfold Fs.exists_.
  erewrite (resolve_insert_end Fs.max_links _ file q' _ (File body true));
    [reflexivity|exact Hs1|exact Hq|discriminate].
Qed.

(** The second step of a call that follows a returned call with the same
    check: the script file is found and nothing is written. *)
Lemma save_body_again env self nm check (fs2 : FS) w u w' :
  Fs.exists_ fs2 (script_file_of self nm (script_hash check)) = true ->
  w_fs w = <[current_link_of self nm :=
               Symlink (script_file_of self nm (script_hash check))]> fs2 ->
  save_body env self nm check w = (Ok u, w') ->
  w' = w /\ Fs.exists_ (w_fs w) (script_file_of self nm (script_hash check)) = true.
Proof.
  intros Hex Hfs H. unfold save_body in H.
  unfold bind at 1, get_fs at 1 in H. cbv beta iota in H.
  set (file := script_file_of self nm (script_hash check)) in *.
  destruct (Fs.exists_ (w_fs w) file) eqn:Hex'; [invc H; auto|].
  exfalso.
  unfold Fs.exists_, Fs.stat in Hex.
  destruct (Fs.resolve Fs.max_links fs2 file) as [[q [nd|]]|] eqn:Hres;
    try discriminate Hex.
  destruct (resolve_after_redirect fs2 (current_link_of self nm) file _ _
              (current_link_nonempty self nm) Hres Fs.max_links) as [Hn|Hs].
  - (* the links at the script file do not end *)
    rewrite <- Hfs in Hn.
    destruct (sliceable _); [|discriminate H].
    destruct (script_content check) as [| | |body| |]; try discriminate H.
    apply bind_ok in H as (u1 & w1 & Hw & _).
    apply write_text_ok in Hw as (q' & x & Hstat & _).
    unfold Fs.stat in Hstat. rewrite Hn in Hstat.
    destruct Hstat as [Hs|[d Hs]]; discriminate Hs.
  - rewrite <- Hfs in Hs. unfold Fs.exists_, Fs.stat in Hex'.
    rewrite Hs in Hex'. discriminate Hex'.
Qed.

Lemma parent_error_is_dir (fs : FS) p :
  Os.parent_error fs p = None -> Fs.is_dir fs (PyPath.parent p) = true
  /\ exists q, Fs.stat fs (PyPath.parent p) = Some (q, Some Dir).
Proof.
  unfold Os.parent_error, Fs.is_dir. destruct (parts p); [discriminate|].
  destruct (Fs.stat fs (PyPath.parent p)) as [[q [[d x|t|]|]]|]; try discriminate.
  eauto.
Qed.

(** C7. A second call of [_save_check_script] with the same check, after
    one that returned, returns the same pointer path and leaves the file
    system as the first call left it: the script file is found, so nothing
    is written, and the pointer is removed and made again as the same link
    (these are the only two calls of the second call). *)
Theorem save_twice (env : Env) (self : DynamicCheckRunner) (check : CheckInfo)
    (w : World) (p : Path) (w1 : World) (p' : Path) (w2 : World) :
  _save_check_script env self check w = (Ok p, w1) ->
  _save_check_script env self check w1 = (Ok p', w2) ->
  exists nm,
    name check = JStr nm
    /\ p = current_link_of self nm
    /\ p' = p
    /\ w_fs w2 = w_fs w1
    /\ new_events w1 w2 =
         [mkEvent (OpUnlink p) (delete p (w_fs w1));
          mkEvent (OpSymlink p (script_file_of self nm (script_hash check))) (w_fs w1)]
    /\ Forall (fun ev => is_write (ev_op ev) = false) (new_events w1 w2)
    /\ Fs.exists_ (w_fs w2) (script_file_of self nm (script_hash check)) = true
    /\ Fs.lstat (w_fs w1) p
       = Some (Symlink (script_file_of self nm (script_hash check)))
    /\ Fs.lstat (w_fs w2) p
       = Some (Symlink (script_file_of self nm (script_hash check))).
Proof.
  intros Hfirst Hsecond.
  destruct (save_check_script_name _ _ _ _ _ _ Hfirst) as [nm Hnm].
  rewrite (save_check_script_steps env self check nm Hnm) in Hfirst, Hsecond.
  set (link := current_link_of self nm) in *.
  set (file := script_file_of self nm (script_hash check)) in *.
  pose proof (current_link_nonempty self nm) as Hparts. fold link in Hparts.
  (* the first call *)
  apply bind_ok in Hfirst as (u1 & wa & H1 & Hfirst).
  apply bind_ok in Hfirst as (u2 & wb & H2 & Hfirst).
  apply bind_ok in Hfirst as (u3 & wc & H3 & Hfirst).
  apply bind_ok in Hfirst as (u4 & wd & H4 & Hfirst). invc Hfirst.
  pose proof (save_body_exists _ _ _ _ _ _ _ H2) as Hexb. fold file in Hexb.
  apply remove_pointer_ok in H3 as (Hfc & _ & _). fold link in Hfc.
  apply symlink_to_ok in H4 as (Hlc & Hpar & ->).
  assert (Hfs1 : <[link := Symlink file]> (w_fs wc) = <[link := Symlink file]> (w_fs wb)).
  { rewrite Hfc. apply insert_delete_eq. }
  assert (Hdir : Fs.is_dir (<[link := Symlink file]> (w_fs wc)) (script_dir_of self nm) = true).
  { apply parent_error_is_dir in Hpar as (_ & q & Hq).
    unfold link in Hq. rewrite current_link_parent in Hq.
    unfold Fs.is_dir, Fs.stat.
    rewrite (resolve_insert_absent _ _ _ _ _ _ _ Hlc Hq). reflexivity. }
  set (w1 := mkWorld _ _ _) in *.
  assert (Hl1 : Fs.lstat (w_fs w1) link = Some (Symlink file)).
  { apply lstat_insert_eq. exact Hparts. }
  (* the second call *)
  apply bind_ok in Hsecond as (v1 & wa' & G1 & Hsecond).
  rewrite (makedirs_is_dir env _ w1 Hdir) in G1. invc G1.
  apply bind_ok in Hsecond as (v2 & wb' & G2 & Hsecond).
  apply (save_body_again env self nm check (w_fs wb)) in G2 as (-> & Hex1);
    [|exact Hexb|exact Hfs1].
  apply bind_ok in Hsecond as (v3 & wc' & G3 & Hsecond).
  apply remove_pointer_present in G3; [|fold link; rewrite Hl1; discriminate].
  fold link in G3. subst wc'.
  apply bind_ok in Hsecond as (v4 & wd' & G4 & Hsecond). invc Hsecond.
  apply symlink_to_ok in G4 as (_ & _ & ->). cbn [w_fs w_log w_clock].
  assert (Hsame : <[link := Symlink file]> (delete link (w_fs w1)) = w_fs w1).
  { rewrite insert_delete_eq. apply insert_id.
    rewrite lstat_lookup in Hl1 by exact Hparts. exact Hl1. }
  assert (Hnew : new_events w1
            (mkWorld (<[link := Symlink file]> (delete link (w_fs w1)))
               ((w_log w1 ++ [mkEvent (OpUnlink link) (delete link (w_fs w1))]) ++
                [mkEvent (OpSymlink link file)
                   (<[link := Symlink file]> (delete link (w_fs w1)))])
               (w_clock w1))
          = [mkEvent (OpUnlink link) (delete link (w_fs w1));
             mkEvent (OpSymlink link file) (w_fs w1)]).
  { apply new_events_app. cbn [w_log]. rewrite Hsame, <- app_assoc. reflexivity. }
  exists nm. split; [exact Hnm|]. split; [reflexivity|]. split; [reflexivity|].
  split; [exact Hsame|]. split; [exact Hnew|].
  split; [rewrite Hnew; repeat constructor|].
  split; [rewrite Hsame; exact Hex1|].
  split; [exact Hl1|]. rewrite Hsame. exact Hl1.
Qed.

(** * The properties on the concrete host *)

(** The fetch of the three records: the first has no [config] and gets the
    empty mapping. *)
Lemma fetch_defaults_witness :
  exists checks check,
    fst (_fetch_effective_checks Ex.env Ex.self Ex.w0) = Ok (Some checks)
    /\ length checks = 3%nat
    /\ checks !! 0%nat = Some check
    /\ config check = JDict [].
Proof.
  destruct (fetch_defaults Ex.env Ex.self Ex.w0 Ex.records eq_refl)
    as (checks & Hfetch & Hlen & Hdef).
  destruct checks as [|check checks]; [discriminate Hlen|].
  exists (check :: checks), check.
  split; [exact Hfetch|]. split; [exact Hlen|]. split; [reflexivity|].
  destruct (Hdef 0%nat _ check eq_refl eq_refl) as (_ & _ & _ & Hconfig & _).
  apply Hconfig. reflexivity.
Defined.

(** Without a URL the status file says: fetch status 0, no checks. *)
Lemma run_without_url_witness :
  exit_status (fst (run Ex.env Ex.self_no_url Ex.w0)) = 1
  /\ exists text,
       Fs.read_text (w_fs (snd (run Ex.env Ex.self_no_url Ex.w0)))
                    (status_file_of Ex.self_no_url) = Some text
       /\ samples text
          = [ "aami_check_fetch_status 0";
              "aami_check_fetch_timestamp_seconds 1000";
              "aami_check_execution_duration_seconds 0";
              "aami_checks_total 0";
              "aami_checks_success 0";
              "aami_checks_failed 0" ].
Proof.
  destruct (run_without_url Ex.env Ex.self_no_url Ex.w0 eq_refl) as (Hexit & _ & Hret).
  split; [exact Hexit|].
  destruct (Hret 1) as (_ & _ & Hread & Hsamples); [vm_compute; reflexivity|].
  eexists. split; [apply Hread; vm_compute; reflexivity|].
  rewrite Hsamples. vm_compute. reflexivity.
Defined.

(** The server is down: status 1, and the status file says so. *)
Lemma fetch_failure_witness :
  exit_status (fst (run Ex.env_down Ex.self Ex.w0)) = 1
  /\ Forall (fun ev => is_spawn (ev_op ev) = false)
            (new_events Ex.w0 (snd (run Ex.env_down Ex.self Ex.w0)))
  /\ exists text,
       Fs.read_text (w_fs (snd (run Ex.env_down Ex.self Ex.w0))) (status_file_of Ex.self)
       = Some text
       /\ samples text
          = [ "aami_check_fetch_status 0";
              "aami_check_fetch_timestamp_seconds 1004";
              "aami_check_execution_duration_seconds 2";
              "aami_checks_total 0";
              "aami_checks_success 0";
              "aami_checks_failed 0" ].
Proof.
  destruct (fetch_failure Ex.env_down Ex.self Ex.w0) as (Hexit & _ & Hquiet & Hret);
    [discriminate|reflexivity|].
  split; [exact Hexit|]. split; [exact Hquiet|].
  destruct (Hret 1) as (_ & _ & Hread & Hsamples); [vm_compute; reflexivity|].
  eexists. split; [apply Hread; vm_compute; reflexivity|].
  rewrite Hsamples. vm_compute. reflexivity.
Defined.

(** [B] fails on both hosts, with different output and exit codes: the
    metric file of [B] is the same error metric on both. *)
Lemma error_metric_independent_witness :
  let x := _execute_check Ex.env Ex.self (JStr "B") (current_link_of Ex.self "B")
             (config Ex.checkB) Ex.w_saved_B in
  let x' := _execute_check Ex.env' Ex.self (JStr "B") (current_link_of Ex.self "B")
              (config Ex.checkB) Ex.w_saved_B in
  fst x = Ok (mkCheckResult (JStr "B") false "partial output" (Some "boom"))
  /\ fst x' = Ok (mkCheckResult (JStr "B") false "other text" (Some EmptyString))
  /\ Fs.read_text (w_fs (snd x)) (final_file_of Ex.self (JStr "B"))
     = Some ("# HELP aami_check_error Check execution error (1=error)" +:+ nl +:+
             "# TYPE aami_check_error gauge" +:+ nl +:+
             "aami_check_error{check=" +:+ dq +:+ "B" +:+ dq +:+ "} 1" +:+ nl)
  /\ Fs.read_text (w_fs (snd x')) (final_file_of Ex.self (JStr "B"))
     = Fs.read_text (w_fs (snd x)) (final_file_of Ex.self (JStr "B")).
Proof.
  intros x x'.
  assert (E1 : fst x = Ok (mkCheckResult (JStr "B") false "partial output" (Some "boom")))
    by (vm_compute; reflexivity).
  assert (E2 : fst x' = Ok (mkCheckResult (JStr "B") false "other text" (Some EmptyString)))
    by (vm_compute; reflexivity).
  split; [exact E1|]. split; [exact E2|].
  destruct (error_metric_independent _ _ _ _ _ _ _ _ _ _ _ _ _ _
              (pair_fst_snd x _ E1) (pair_fst_snd x' _ E2))
    as (_ & _ & _ & _ & Hread); [vm_compute; reflexivity|vm_compute; reflexivity|].
  apply Hread; vm_compute; reflexivity.
Defined.

(** The script of [A] run with the config [{"limit": 3, "mode": "fast"}]:
    it exits with 0, its output is the metric file, and the child was run
    with the pointer path alone and that JSON text as input. *)
Lemma execute_check_protocol_witness :
  let config := JDict [("limit", JInt 3); ("mode", JStr "fast")] in
  let x := _execute_check Ex.env Ex.self (JStr "A") (current_link_of Ex.self "A")
             config Ex.w_saved in
  fst x = Ok (mkCheckResult (JStr "A") true ("up 1" +:+ nl) None)
  /\ (exists evs,
        new_events Ex.w_saved (snd x)
        = mkEvent (OpSpawn ["/cache/A/current.sh"]
                     ("{" +:+ dq +:+ "limit" +:+ dq +:+ ": 3, " +:+
                      dq +:+ "mode" +:+ dq +:+ ": " +:+ dq +:+ "fast" +:+ dq +:+ "}"))
                  (w_fs Ex.w_saved) :: evs)
  /\ Fs.read_text (w_fs (snd x)) (final_file_of Ex.self (JStr "A")) = Some ("up 1" +:+ nl).
Proof.
  intros config x.
  assert (E : fst x = Ok (mkCheckResult (JStr "A") true ("up 1" +:+ nl) None))
    by (vm_compute; reflexivity).
  split; [exact E|].
  destruct (execute_check_protocol Ex.env Ex.self (JStr "A") (current_link_of Ex.self "A")
              config Ex.w_saved _ _ (pair_fst_snd x _ E))
    as ((evs & Hev & _) & Hok & _ & _ & _).
  split; [exists evs; exact Hev|].
  destruct (Hok _ eq_refl eq_refl) as (so & se & fs1 & Hout & Hso & _ & Hread).
  cbn [output] in Hso. rewrite Hso. apply Hread. vm_compute. reflexivity.
Defined.

(** The three checks: one succeeds, two fail, and the summary says so. *)
Lemma summary_counts_witness :
  fst (run Ex.env Ex.self Ex.w0) = Ok 0
  /\ exists text,
       Fs.read_text (w_fs (snd (run Ex.env Ex.self Ex.w0))) (status_file_of Ex.self)
       = Some text
       /\ samples text
          = [ "aami_check_fetch_status 1";
              "aami_check_fetch_timestamp_seconds 1004";
              "aami_check_execution_duration_seconds 2";
              "aami_checks_total 3";
              "aami_checks_success 1";
              "aami_checks_failed 2" ].
Proof.
  assert (R : fst (run Ex.env Ex.self Ex.w0) = Ok 0) by (vm_compute; reflexivity).
  split; [exact R|].
  set (c := check_results Ex.env Ex.self [Ex.checkA; Ex.checkB; Ex.checkC]
              (after_fetch Ex.self Ex.w0)).
  assert (E : fst c = Ok [mkCheckResult (JStr "A") true ("up 1" +:+ nl) None;
                          mkCheckResult (JStr "B") false "partial output" (Some "boom");
                          mkCheckResult (JStr "C") false EmptyString (Some "Timeout")])
    by (vm_compute; reflexivity).
  destruct (summary_counts Ex.env Ex.self Ex.w0 _ _ _
              ltac:(discriminate) eq_refl (pair_fst_snd c _ E))
    as (_ & _ & _ & _ & Hrun).
  destruct (Hrun _ _ (pair_fst_snd _ _ R)) as (_ & _ & Hread & Hsamples).
  eexists. split; [apply Hread; vm_compute; reflexivity|].
  rewrite Hsamples. vm_compute. reflexivity.
Defined.

(** The script of [A] cannot be written: [run] raises and ends there. *)
Lemma persist_failure_aborts_witness :
  fst (run Ex.env_denied Ex.self Ex.w0) = Raise PermissionError
  /\ exit_status (fst (run Ex.env_denied Ex.self Ex.w0)) = 1
  /\ snd (run Ex.env_denied Ex.self Ex.w0)
     = snd (_save_check_script Ex.env_denied Ex.self Ex.checkA
              (after_fetch Ex.self Ex.w0)).
Proof.
  set (c := _save_check_script Ex.env_denied Ex.self Ex.checkA
              (after_fetch Ex.self Ex.w0)).
  assert (E : fst c = Raise PermissionError) by (vm_compute; reflexivity).
  destruct (persist_failure_aborts Ex.env_denied Ex.self Ex.w0
              [] Ex.checkA [Ex.checkB; Ex.checkC] [] (after_fetch Ex.self Ex.w0)
              PermissionError (snd c)
              ltac:(discriminate) eq_refl eq_refl (pair_fst_snd c _ E))
    as (Hrun & Hexit & _).
  rewrite Hrun. cbn [fst snd exit_status]. auto.
Defined.

(** Two of the three checks fail and the run still returns 0. *)
Lemma exit_status_of_run_witness :
  fst (run Ex.env Ex.self Ex.w0) = Ok 0
  /\ exit_status (fst (run Ex.env_down Ex.self Ex.w0)) = 1.
Proof.
  destruct (exit_status_of_run Ex.env Ex.self Ex.w0 ltac:(discriminate)) as (_ & Hok).
  destruct (exit_status_of_run Ex.env_down Ex.self Ex.w0 ltac:(discriminate))
    as (Hdown & _).
  split; [|exact (Hdown eq_refl)].
  destruct (Hok [Ex.checkA; Ex.checkB; Ex.checkC] eq_refl) as (_ & Hret).
  set (c := check_results Ex.env Ex.self [Ex.checkA; Ex.checkB; Ex.checkC]
              (after_fetch Ex.self Ex.w0)).
  assert (E : fst c = Ok [mkCheckResult (JStr "A") true ("up 1" +:+ nl) None;
                          mkCheckResult (JStr "B") false "partial output" (Some "boom");
                          mkCheckResult (JStr "C") false EmptyString (Some "Timeout")])
    by (vm_compute; reflexivity).
  erewrite (Hret _ _ tt _ (pair_fst_snd c _ E)); [reflexivity|].
  apply pair_fst_snd. vm_compute. reflexivity.
Defined.

(** Saving [A] again: the pointer that was there is unlinked, then made
    again. *)
Lemma pointer_update_steps_witness :
  let x := _save_check_script Ex.env Ex.self Ex.checkA Ex.w_saved in
  fst x = Ok (current_link_of Ex.self "A")
  /\ exists evs fs_u,
       new_events Ex.w_saved (snd x) =
         evs ++ [mkEvent (OpUnlink (current_link_of Ex.self "A")) fs_u;
                 mkEvent (OpSymlink (current_link_of Ex.self "A")
                            (script_file_of Ex.self "A" (JStr "h1"))) (w_fs (snd x))]
       /\ Fs.lstat fs_u (current_link_of Ex.self "A") = None.
Proof.
  intros x.
  assert (E : fst x = Ok (current_link_of Ex.self "A")) by (vm_compute; reflexivity).
  split; [exact E|].
  destruct (pointer_update_steps Ex.env Ex.self Ex.checkA Ex.w_saved _ _
              (pair_fst_snd x _ E))
    as (nm & evs & fs_u & Hnm & _ & Hnew & _ & Hgone & _).
  { vm_compute. discriminate. }
  injection Hnm as <-.
  exists evs, fs_u. split; [exact Hnew|exact Hgone].
Defined.

(** Saving [A] twice: the second call leaves the disk as it was. *)
Lemma save_twice_witness :
  let x := _save_check_script Ex.env Ex.self Ex.checkA Ex.w0 in
  let y := _save_check_script Ex.env Ex.self Ex.checkA (snd x) in
  fst x = Ok (current_link_of Ex.self "A")
  /\ fst y = Ok (current_link_of Ex.self "A")
  /\ w_fs (snd y) = w_fs (snd x)
  /\ Fs.read_text (w_fs (snd y)) (script_file_of Ex.self "A" (JStr "h1"))
     = Some Ex.script_A
  /\ Forall (fun ev => is_write (ev_op ev) = false) (new_events (snd x) (snd y)).
Proof.
  intros x y.
  assert (E1 : fst x = Ok (current_link_of Ex.self "A")) by (vm_compute; reflexivity).
  assert (E2 : fst y = Ok (current_link_of Ex.self "A")) by (vm_compute; reflexivity).
  split; [exact E1|]. split; [exact E2|].
  destruct (save_twice Ex.env Ex.self Ex.checkA Ex.w0 _ _ _ _
              (pair_fst_snd x _ E1) (pair_fst_snd y _ E2))
    as (nm & _ & _ & _ & Hfs & _ & Hquiet & _).
  split; [exact Hfs|]. split; [|exact Hquiet].
  vm_compute. reflexivity.
Defined.

(** * Where the code departs from its description *)

(** C1, refuted. The pointer of [A] is there before the second save, the
    save returns, and its calls are [unlink] of the pointer, which leaves a
    world without pointer, and then [symlink_to]: the update is not a
    replacement in one step. *)
Lemma pointer_missing_between_steps :
  let link := current_link_of Ex.self "A" in
  let file := script_file_of Ex.self "A" (JStr "h1") in
  let x := _save_check_script Ex.env Ex.self Ex.checkA Ex.w_saved in
  Fs.lstat (w_fs Ex.w_saved) link = Some (Symlink file)
  /\ fst x = Ok link
  /\ List.map (fun ev => (ev_op ev, Fs.lstat (ev_fs ev) link))
              (new_events Ex.w_saved (snd x))
     = [(OpUnlink link, None); (OpSymlink link file, Some (Symlink file))].
Proof.
  intros link file x.
  split; [vm_compute; reflexivity|]. split; vm_compute; reflexivity.
Qed.

(** C2, refuted. The fetch gave the three checks and the script of [A]
    cannot be written: [run] raises the error, no child was run (not for
    [B] and [C] either), [A] has no metric file and there is no summary. *)
Lemma persist_failure_not_isolated :
  checks_of_outcome (urlopen Ex.env_denied (fetch_url Ex.self))
    = Some [Ex.checkA; Ex.checkB; Ex.checkC]
  /\ fst (_save_check_script Ex.env_denied Ex.self Ex.checkA
            (after_fetch Ex.self Ex.w0)) = Raise PermissionError
  /\ fst (run Ex.env_denied Ex.self Ex.w0) = Raise PermissionError
  /\ Forall (fun ev => is_spawn (ev_op ev) = false)
            (new_events Ex.w0 (snd (run Ex.env_denied Ex.self Ex.w0)))
  /\ Fs.read_text (w_fs (snd (run Ex.env_denied Ex.self Ex.w0)))
                  (final_file_of Ex.self (JStr "A")) = None
  /\ Fs.read_text (w_fs (snd (run Ex.env_denied Ex.self Ex.w0)))
                  (status_file_of Ex.self) = None.
Proof.
  split; [reflexivity|]. split; [vm_compute; reflexivity|].
  split; [vm_compute; reflexivity|]. split; [|split; vm_compute; reflexivity].
  assert (H : List.map ev_op (new_events Ex.w0 (snd (run Ex.env_denied Ex.self Ex.w0)))
              = [OpUrlopen (fetch_url Ex.self);
                 OpMkdir (script_dir_of Ex.self "A")]) by (vm_compute; reflexivity).
  destruct (new_events Ex.w0 (snd (run Ex.env_denied Ex.self Ex.w0)))
    as [|e1 [|e2 [|e3 l]]]; try discriminate H.
  injection H as H1 H2. repeat constructor; [rewrite H1|rewrite H2]; reflexivity.
Qed.

(** C5, refuted. The fetch succeeded, and the process ends with status 1,
    not 0: the error of saving the script of [A] escapes [run].  The same
    happens on a sound disk when a record has a name that is not a string
    (the [TypeError] of joining it to the cache directory escapes). *)
Lemma exit_status_one_after_fetch :
  checks_of_outcome (urlopen Ex.env_denied (fetch_url Ex.self))
    = Some [Ex.checkA; Ex.checkB; Ex.checkC]
  /\ fst (main Ex.env_denied Ex.environ (CmdOptions Ex.flags) Ex.w_empty) = 1
  /\ fst (main Ex.env_denied Ex.environ (CmdOptions Ex.flags) Ex.w_empty) <> 0
  /\ checks_of_outcome (urlopen Ex.env_null (fetch_url Ex.self))
     = Some [mkCheckInfo JNull (JStr Ex.script_A) (JStr "h1") (JDict [])]
  /\ fst (run Ex.env_null Ex.self Ex.w0) = Raise TypeError
  /\ fst (main Ex.env_null Ex.environ (CmdOptions Ex.flags) Ex.w_empty) = 1.
Proof.
  split; [reflexivity|]. split; [vm_compute; reflexivity|].
  split; [vm_compute; discriminate|]. split; [reflexivity|].
  split; vm_compute; reflexivity.
Qed.

(** * Further properties *)

(** ** The config file *)

Lemma read_file_world p w : snd (Os.read_file p w) = w.
Proof.
  unfold Os.read_file, bind, get_fs. cbv beta iota.
  destruct (Fs.stat (w_fs w) p) as [[q [[d x|t|]|]]|]; reflexivity.
Qed.

Lemma read_file_text p w :
  fst (Os.read_file p w) =
  match Fs.read_text (w_fs w) p with
  | Some text => Ok text
  | None => fst (Os.read_file p w)
  end.
Proof.
  unfold Os.read_file, Fs.read_text, bind, get_fs. cbv beta iota.
  destruct (Fs.stat (w_fs w) p) as [[q [[d x|t|]|]]|]; reflexivity.
Qed.

Lemma read_file_none p w :
  Fs.read_text (w_fs w) p = None ->
  exists e, Os.read_file p w = (Raise e, w) /\ is_os_error e = true.
Proof.
  unfold Os.read_file, Fs.read_text, bind, get_fs. cbv beta iota.
  destruct (Fs.stat (w_fs w) p) as [[q [[d x|t|]|]]|]; intros H;
    try discriminate H; eexists; split; reflexivity.
Qed.

Lemma read_file_some p w text :
  Fs.read_text (w_fs w) p = Some text -> Os.read_file p w = (Ok text, w).
Proof.
  unfold Os.read_file, Fs.read_text, bind, get_fs. cbv beta iota.
  destruct (Fs.stat (w_fs w) p) as [[q [[d x|t|]|]]|]; intros H;
    try discriminate H. injection H as ->. reflexivity.
Qed.

Lemma read_text_exists (fs : FS) p text :
  Fs.read_text fs p = Some text -> Fs.exists_ fs p = true.
Proof.
  unfold Fs.read_text, Fs.exists_.
  destruct (Fs.stat fs p) as [[q [[d x|t|]|]]|]; intros H; try discriminate H.
  reflexivity.
Qed.

(** What [_load_config] gives for a file that can be read. *)
Lemma load_config_read self w text :
  config_server_url self = EmptyString ->
  Fs.read_text (w_fs w) (config_file self) = Some text ->
  _load_config self w =
    (Ok (match find_url (PyStr.lines text) with
         | Some value => set_config_server_url self value
         | None => self
         end), w).
Proof.
  intros Hurl Hread. unfold _load_config. rewrite Hurl. cbn [String.eqb negb].
  unfold bind at 1, get_fs at 1. cbv beta iota.
  rewrite (read_text_exists _ _ _ Hread).
  unfold try_except_when. rewrite (bind_eq _ _ _ _ _ (read_file_some _ _ _ Hread)).
  destruct (find_url (PyStr.lines text)); reflexivity.
Qed.

(** What [_load_config] gives back and what it leaves alone, the disk being
    one that can be looked at. *)
Lemma load_config_facts (self : DynamicCheckRunner) (w : World) :
  exists self',
    _load_config self w = (Ok self', w)
    /\ hostname self' = hostname self
    /\ debug self' = debug self
    /\ textfile_dir self' = textfile_dir self
    /\ check_scripts_dir self' = check_scripts_dir self
    /\ config_file self' = config_file self
    /\ log_file self' = log_file self
    /\ (config_server_url self <> EmptyString -> self' = self)
    /\ (Fs.read_text (w_fs w) (config_file self) = None -> self' = self).
Proof.
  unfold _load_config.
  destruct (String.eqb (config_server_url self) "") eqn:Hurl; cbn [negb].
  2:{ exists self. unfold ret. repeat split; reflexivity. }
  apply String.eqb_eq in Hurl.
  unfold bind at 1, get_fs at 1. cbv beta iota.
  destruct (Fs.read_text (w_fs w) (config_file self)) as [text|] eqn:Hread.
  - rewrite (read_text_exists _ _ _ Hread). unfold try_except_when.
    rewrite (bind_eq _ _ _ _ _ (read_file_some _ _ _ Hread)).
    destruct (find_url (PyStr.lines text)) as [value|]; eexists;
      (split; [reflexivity|]); repeat split; try reflexivity;
      try (intros H; congruence).
  - destruct (Fs.exists_ (w_fs w) (config_file self)).
    + destruct (read_file_none _ _ Hread) as (e & He & Hos). unfold try_except_when.
      rewrite (bind_eq_raise _ _ _ _ _ He), Hos. exists self. unfold ret.
      repeat split; reflexivity.
    + exists self. unfold ret. repeat split; reflexivity.
Qed.

(** X1. [_load_config] changes nothing on the disk (the lines it logs
    apart), whether it returns or raises.  With a server URL already set it
    returns the runner as it is.  When it returns, nothing but the server
    URL has changed, and the URL has not changed either when the config
    file cannot be read as a regular file (it is missing, a directory, or
    behind a loop of links: the [OSError] of [open] is caught). *)
Theorem load_config_frame (self : DynamicCheckRunner) (w : World)
    (r : result DynamicCheckRunner) (w' : World) :
  _load_config self w = (r, w') ->
  w' = w
  /\ (config_server_url self <> EmptyString -> r = Ok self)
  /\ forall self', r = Ok self' ->
       hostname self' = hostname self
       /\ debug self' = debug self
       /\ textfile_dir self' = textfile_dir self
       /\ check_scripts_dir self' = check_scripts_dir self
       /\ config_file self' = config_file self
       /\ log_file self' = log_file self
       /\ (Fs.read_text (w_fs w) (config_file self) = None -> self' = self).
Proof.
  intros H.
  destruct (load_config_facts self w)
    as (s' & Hl & H1 & H2 & H3 & H4 & H5 & H6 & Hkeep & Hnone).
  rewrite Hl in H. injection H as <- <-.
  split; [reflexivity|]. split.
  - intros Hurl. rewrite (Hkeep Hurl). reflexivity.
  - intros self' Hs. injection Hs as <-. auto 10.
Qed.

Lemma find_url_skip pre rest :
  Forall (fun l => is_url_line l = false) pre ->
  find_url (pre ++ rest) = find_url rest.
Proof.
  induction 1 as [|l pre Hl _ IH]; [reflexivity|].
  cbn [app find_url]. unfold is_url_line, url_key in Hl. rewrite Hl. exact IH.
Qed.

Lemma startswith_app pre v : PyStr.startswith (pre +:+ v) pre = true.
Proof.
  unfold PyStr.startswith. induction pre as [|a pre IH]; [destruct v; reflexivity|].
  change (String a pre +:+ v) with (String a (pre +:+ v)). cbn [String.prefix].
  destruct (ascii_dec a a); [exact IH|congruence].
Qed.

Lemma url_key_prefix v : PyStr.startswith (url_key +:+ v) url_key = true.
Proof. apply startswith_app. Qed.

Lemma url_key_split v : snd (PyStr.split1 "="%char (url_key +:+ v)) = Some v.
Proof. vm_compute. reflexivity. Qed.

Lemma find_url_here l v rest :
  PyStr.strip l = url_key +:+ v -> find_url (l :: rest) = Some (unquote v).
Proof.
  intros Hl. cbn [find_url]. rewrite Hl.
  change "AAMI_CONFIG_SERVER_URL=" with url_key.
  rewrite url_key_prefix, url_key_split. reflexivity.
Qed.

(** X2. With no URL given, the first line of the config file that, stripped
    of white space, starts with [AAMI_CONFIG_SERVER_URL=] sets the URL:
    it is all the text after that first [=] (further [=] included), without
    the quotes around it; the lines after it are not looked at. *)
Theorem load_config_first_line (self : DynamicCheckRunner) (w : World)
    (text : string) (pre : list string) (l v : string) (post : list string) :
  config_server_url self = EmptyString ->
  Fs.read_text (w_fs w) (config_file self) = Some text ->
  PyStr.lines text = pre ++ l :: post ->
  Forall (fun l' => is_url_line l' = false) pre ->
  PyStr.strip l = url_key +:+ v ->
  _load_config self w = (Ok (set_config_server_url self (unquote v)), w).
Proof.
  intros Hurl Hread Hlines Hpre Hl.
  rewrite (load_config_read self w text Hurl Hread), Hlines.
  rewrite (find_url_skip pre _ Hpre), (find_url_here l v post Hl). reflexivity.
Qed.

(** ** The directories of the runner *)

Lemma is_dir_insert_absent (fs : FS) k v p :
  Fs.lstat fs k = None -> Fs.is_dir fs p = true -> Fs.is_dir (<[k := v]> fs) p = true.
Proof.
  unfold Fs.is_dir, Fs.stat. intros Hk H.
  destruct (Fs.resolve Fs.max_links fs p) as [[q [[d x|t|]|]]|] eqn:E;
    try discriminate H.
  rewrite (resolve_insert_absent _ _ _ _ _ _ _ Hk E). reflexivity.
Qed.

Lemma is_dir_insert_dir (fs : FS) p :
  parts p <> [] -> Fs.is_dir (<[p := Dir]> fs) p = true.
Proof.
  intros Hp. unfold Fs.is_dir, Fs.stat.
  rewrite resolve_not_symlink
    by (unfold Fs.is_symlink; rewrite lstat_insert_eq by exact Hp; reflexivity).
  rewrite lstat_insert_eq by exact Hp. reflexivity.
Qed.

(** What [os.mkdir] does to the file system, whatever it returns. *)
Lemma mkdir_fs env p w r w' :
  Os.mkdir env p w = (r, w') ->
  (w_fs w' = w_fs w /\ r <> Ok tt)
  \/ (Fs.lstat (w_fs w) p = None /\ w_fs w' = <[p := Dir]> (w_fs w) /\ r = Ok tt).
Proof.
  intros H. unfold Os.mkdir in H. os_cases H; auto; left; split; auto; discriminate.
Qed.

(** [os.mkdir] keeps the directories there are, also when it raises. *)
Lemma mkdir_keeps_dir env p d :
  preserves (fun w => Fs.is_dir (w_fs w) d = true) (Os.mkdir env p).
Proof.
  intros w r w' H. apply mkdir_fs in H as [[-> _]|(Hl & -> & _)]; [auto|].
  apply is_dir_insert_absent. exact Hl.
Qed.

Lemma mkdir_ok_dir env p w u w' :
  Os.mkdir env p w = (Ok u, w') -> Fs.is_dir (w_fs w') p = true.
Proof.
  intros H. apply mkdir_fs in H as [[_ H]|(Hl & -> & _)].
  - destruct u. congruence.
  - apply is_dir_insert_dir. eapply lstat_none_parts; exact Hl.
Qed.

Lemma is_dir_check_ok p e w u w' :
  (fs <- get_fs ;; if Fs.is_dir fs p then ret tt else raise e) w = (Ok u, w') ->
  Fs.is_dir (w_fs w') p = true.
Proof.
  unfold bind, get_fs. cbv beta iota.
  destruct (Fs.is_dir (w_fs w) p) eqn:Hd; unfold ret, raise; intros H;
    [|discriminate H].
  injection H as _ <-. exact Hd.
Qed.

Lemma mkdir_exist_ok_dir env p w u w' :
  Os.mkdir_exist_ok env p w = (Ok u, w') -> Fs.is_dir (w_fs w') p = true.
Proof.
  unfold Os.mkdir_exist_ok, try_except. intros H.
  destruct (Os.mkdir env p w) as [[u0|e] w1] eqn:E.
  - injection H as _ <-. eapply mkdir_ok_dir; exact E.
  - eapply is_dir_check_ok; exact H.
Qed.

Lemma mkdir_parents_ok_dir env n p w u w' :
  Os.mkdir_parents env n p w = (Ok u, w') -> Fs.is_dir (w_fs w') p = true.
Proof.
  intros H. destruct n as [|n]; cbn [Os.mkdir_parents] in H; unfold try_except in H;
    destruct (Os.mkdir env p w) as [[u0|e] w1] eqn:E.
  - injection H as _ <-. eapply mkdir_ok_dir; exact E.
  - destruct e; first [discriminate H | eapply is_dir_check_ok; exact H].
  - injection H as _ <-. eapply mkdir_ok_dir; exact E.
  - destruct e; try (eapply is_dir_check_ok; exact H).
    apply bind_ok in H as (u1 & w2 & _ & H). eapply mkdir_exist_ok_dir; exact H.
Qed.

Lemma mkdir_parents_keeps_dir env n p d :
  preserves (fun w => Fs.is_dir (w_fs w) d = true) (Os.mkdir_parents env n p).
Proof.
  revert p. induction n as [|n IH]; intros p; cbn [Os.mkdir_parents];
    (apply preserves_try_except; [apply mkdir_keeps_dir|intros e]).
  - destruct e; try apply is_dir_check_keeps.
    apply preserves_pure. reflexivity.
  - destruct e; try apply is_dir_check_keeps.
    apply preserves_bind; [apply IH|intros _].
    unfold Os.mkdir_exist_ok.
    apply preserves_try_except; [apply mkdir_keeps_dir|intros e].
    apply is_dir_check_keeps.
Qed.

(** The calls and the outcome of [_ensure_directories]. *)
Lemma ensure_directories_facts (env : Env) (self : DynamicCheckRunner)
    (w : World) (r : result unit) (w' : World) :
  _ensure_directories env self w = (r, w') ->
  Forall (fun ev => is_mkdir (ev_op ev)) (new_events w w')
  /\ (r = Ok tt ->
      Fs.is_dir (w_fs w') (textfile_dir self) = true
      /\ Fs.is_dir (w_fs w') (check_scripts_dir self) = true)
  /\ (Fs.is_dir (w_fs w) (textfile_dir self) = true ->
      Fs.is_dir (w_fs w) (check_scripts_dir self) = true ->
      r = Ok tt /\ w' = w).
Proof.
  intros H. split; [|split].
  - apply log_grows_new_events.
    eapply emits_bind; [apply makedirs_emits|intros; apply makedirs_emits|exact H].
  - intros ->. unfold _ensure_directories in H.
    apply bind_ok in H as (u1 & w1 & H1 & H2). split.
    + eapply mkdir_parents_keeps_dir; [exact H2|].
      eapply mkdir_parents_ok_dir; exact H1.
    + eapply mkdir_parents_ok_dir; exact H2.
  - intros Ht Hc. unfold _ensure_directories in H.
    rewrite (bind_eq _ _ _ _ _ (makedirs_is_dir env _ w Ht)) in H.
    rewrite (makedirs_is_dir env _ w Hc) in H. invc H. auto.
Qed.

(** X3. When [_ensure_directories] returns, the textfile directory and the
    check scripts directory both are directories, and all it did was
    [mkdir]; when both are directories already it does nothing. *)
Theorem ensure_directories_spec (env : Env) (self : DynamicCheckRunner)
    (w : World) (r : result unit) (w' : World) :
  _ensure_directories env self w = (r, w') ->
  Forall (fun ev => is_mkdir (ev_op ev)) (new_events w w')
  /\ (r = Ok tt ->
      Fs.is_dir (w_fs w') (textfile_dir self) = true
      /\ Fs.is_dir (w_fs w') (check_scripts_dir self) = true)
  /\ (Fs.is_dir (w_fs w) (textfile_dir self) = true ->
      Fs.is_dir (w_fs w) (check_scripts_dir self) = true ->
      r = Ok tt /\ w' = w).
Proof. exact (ensure_directories_facts env self w r w'). Qed.

(** ** The request *)

Lemma rstrip_by_app_strip f s c :
  f c = true -> PyStr.rstrip_by f (s +:+ String c EmptyString) = PyStr.rstrip_by f s.
Proof.
  intros Hc. induction s as [|a s IH].
  - change ("" +:+ String c "") with (String c "").
    cbn [PyStr.rstrip_by]. rewrite Hc. reflexivity.
  - change (String a s +:+ String c "") with (String a (s +:+ String c "")).
    cbn [PyStr.rstrip_by]. rewrite IH. reflexivity.
Qed.

(** The last character of a text, if any. *)
Lemma rstrip_by_last f s s' c :
  PyStr.rstrip_by f s = s' +:+ String c EmptyString -> f c = false.
Proof.
  revert s'. induction s as [|a s IH]; intros s' H; cbn [PyStr.rstrip_by] in H.
  - destruct s'; discriminate H.
  - destruct (PyStr.rstrip_by f s) as [|b r] eqn:E.
    + destruct (f a) eqn:Ha; [destruct s'; discriminate H|].
      destruct s' as [|a' s']; [injection H as <-; exact Ha|].
      injection H as _ H. destruct s'; discriminate H.
    + destruct s' as [|a' s']; [discriminate H|].
      injection H as _ H. eapply IH. exact H.
Qed.

(** X4. The request URL does not depend on slashes at the end of the
    configured server URL, and the part before [/api/v1/...] never ends
    with a slash. *)
Theorem fetch_url_trailing_slash (self : DynamicCheckRunner) :
  fetch_url (set_config_server_url self (config_server_url self +:+ "/"))
    = fetch_url self
  /\ exists base,
       fetch_url self = base +:+ "/api/v1/checks/target/hostname/" +:+ hostname self
       /\ forall s, base <> s +:+ "/".
Proof.
  split.
  - unfold fetch_url, set_config_server_url, PyStr.rstrip_char.
    cbn [config_server_url hostname].
    rewrite rstrip_by_app_strip by reflexivity. reflexivity.
  - exists (PyStr.rstrip_char PyStr.slash (config_server_url self)).
    split; [reflexivity|]. intros s Hs.
    apply rstrip_by_last in Hs. discriminate Hs.
Qed.

(** ** The payload *)

Lemma check_of_item_object item :
  is_object item = true <-> exists check, check_of_item item = Some check.
Proof.
  destruct item; cbn; split; intros H; try discriminate H;
    try (destruct H; discriminate); eauto.
Qed.

Lemma checks_of_items_some items :
  forallb is_object items = true ->
  exists checks, checks_of_items items = Some checks
                 /\ length checks = length items.
Proof.
  induction items as [|item items IH]; cbn [forallb checks_of_items].
  - intros _. exists []. auto.
  - intros H. apply andb_true_iff in H as [Hi Hr].
    apply check_of_item_object in Hi as [c Hc]. rewrite Hc.
    destruct (IH Hr) as (cs & -> & Hlen). exists (c :: cs). cbn. auto.
Qed.

Lemma checks_of_items_none items :
  forallb is_object items = false -> checks_of_items items = None.
Proof.
  induction items as [|item items IH]; cbn [forallb checks_of_items];
    [discriminate|].
  intros H. destruct (check_of_item item) as [c|] eqn:Hc; [|reflexivity].
  assert (Hi : is_object item = true) by (apply check_of_item_object; eauto).
  rewrite Hi in H. cbn in H. rewrite (IH H). reflexivity.
Qed.

(** X5. The fetch is all or nothing.  For a payload that is a list,
    [_fetch_effective_checks] returns having sent exactly one request and
    changed nothing on the disk, and it gives the checks, one per record,
    exactly when every record is an object; one record of another kind makes
    the whole fetch fail. *)
Theorem fetch_all_or_nothing (env : Env) (self : DynamicCheckRunner) (w : World)
    (items : list json) :
  urlopen env (fetch_url self) = Payload (JList items) ->
  exists checks,
    _fetch_effective_checks env self w
      = (Ok checks,
         mkWorld (w_fs w) (w_log w ++ [mkEvent (OpUrlopen (fetch_url self)) (w_fs w)])
                 (w_clock w))
    /\ (forallb is_object items = true ->
        exists cs, checks = Some cs /\ length cs = length items)
    /\ (forallb is_object items = false -> checks = None).
Proof.
  intros Hpay. eexists. split.
  - unfold _fetch_effective_checks, bind, get_fs, perform, ret. cbv beta iota.
    rewrite Hpay. reflexivity.
  - cbn [checks_of_outcome py_iter]. split.
    + intros H. destruct (checks_of_items_some items H) as (cs & -> & Hlen). eauto.
    + apply checks_of_items_none.
Qed.

(** ** What publishing a file changes *)

Lemma lstat_delete_ne (fs : FS) (k p : Path) :
  p <> k -> Fs.lstat (delete k fs) p = Fs.lstat fs p.
Proof.
  intros Hne. unfold Fs.lstat. destruct (parts p); [reflexivity|].
  apply lookup_delete_ne. congruence.
Qed.

Lemma write_target_not_symlink (fs : FS) p q x :
  (Some (p, Fs.lstat fs p) = Some (q, None)
   \/ exists d, Some (p, Fs.lstat fs p) = Some (q, Some (File d x))) ->
  q = p /\ parts p <> [].
Proof.
  intros [Hs|[d Hs]]; injection Hs as <- Hl; (split; [reflexivity|]).
  - eapply lstat_none_parts; exact Hl.
  - eapply lstat_not_dir_parts. rewrite Hl. discriminate.
Qed.

(** Writing to a temporary path that is no link and renaming it onto
    [dst] changes nothing but these two entries, whatever the outcome. *)
Lemma publish_frame env p dst data w r w' :
  (Os.write_text env p data ;;; Os.rename env p dst) w = (r, w') ->
  Fs.is_symlink (w_fs w) p = false ->
  forall k, k <> p -> k <> dst -> Fs.lstat (w_fs w') k = Fs.lstat (w_fs w) k.
Proof.
  intros H Hsym k Hp Hd. unfold bind in H.
  destruct (Os.write_text env p data w) as [[u|e] w1] eqn:E.
  - assert (Hfile : exists d x, Fs.lstat (w_fs w1) p = Some (File d x)
                               /\ Fs.lstat (w_fs w1) k = Fs.lstat (w_fs w) k).
    { pose proof (write_text_ok _ _ _ _ _ _ E) as (q & x & Hstat & Hw1).
      unfold Fs.stat in Hstat. rewrite resolve_not_symlink in Hstat by exact Hsym.
      destruct (write_target_not_symlink _ _ _ _ Hstat) as [-> Hparts].
      subst w1. cbn [w_fs]. exists data, x. split.
      - apply lstat_insert_eq. exact Hparts.
      - apply lstat_insert_ne. exact Hp. }
    destruct Hfile as (d & x & Hl & Hk).
    destruct (rename_file _ _ _ _ _ _ _ _ H Hl) as [Hr|[Hne Hr]]; rewrite Hr.
    + exact Hk.
    + rewrite lstat_insert_ne by exact Hd. rewrite lstat_delete_ne by exact Hp.
      exact Hk.
  - invc H. destruct (write_text_any _ _ _ _ _ _ E Hsym) as [->|(_ & d & x & ->)].
    + reflexivity.
    + apply lstat_insert_ne. exact Hp.
Qed.

Lemma rename_file_ok env src dst w u w' d x :
  Os.rename env src dst w = (Ok u, w') ->
  Fs.lstat (w_fs w) src = Some (File d x) ->
  src <> dst ->
  w_fs w' = <[dst := File d x]> (delete src (w_fs w)).
Proof.
  intros H Hsrc Hne. unfold Os.rename in H.
  unfold bind at 1, get_fs at 1 in H. cbv beta iota in H. rewrite Hsrc in H.
  rewrite bool_decide_eq_false_2 in H by exact Hne.
  os_cases H; reflexivity.
Qed.

(** When it returns, the temporary path is gone and [dst] is a regular file
    with the data. *)
Lemma publish_exact env p dst data w u w' :
  (Os.write_text env p data ;;; Os.rename env p dst) w = (Ok u, w') ->
  Fs.is_symlink (w_fs w) p = false ->
  p <> dst ->
  Fs.lstat (w_fs w') p = None
  /\ exists x, Fs.lstat (w_fs w') dst = Some (File data x).
Proof.
  intros H Hsym Hne. apply bind_ok in H as (u1 & w1 & E & H).
  pose proof (write_text_ok _ _ _ _ _ _ E) as (q & x & Hstat & Hw1).
  unfold Fs.stat in Hstat. rewrite resolve_not_symlink in Hstat by exact Hsym.
  destruct (write_target_not_symlink _ _ _ _ Hstat) as [-> Hparts].
  assert (Hl : Fs.lstat (w_fs w1) p = Some (File data x)).
  { subst w1. apply lstat_insert_eq. exact Hparts. }
  rewrite (rename_file_ok _ _ _ _ _ _ _ _ H Hl Hne). split.
  - rewrite lstat_insert_ne by exact Hne. apply lstat_delete, Hparts.
  - exists x. apply lstat_insert_eq.
    apply rename_ok in H as (fs' & _ & Hmove).
    eapply lstat_not_dir_parts. rewrite (Hmove _ _ Hl). discriminate.
Qed.

(** ** The two files of a check are different paths *)

Lemma split_no_sep c t : PyStr.contains c t = false -> PyStr.split c t = [t].
Proof.
  induction t as [|a t IH]; [reflexivity|].
  cbn [PyStr.contains PyStr.split]. intros H.
  apply orb_false_iff in H as [Ha Ht]. rewrite Ha, (IH Ht). reflexivity.
Qed.

Lemma split_last c u : exists init x, PyStr.split c u = init ++ [x].
Proof.
  induction u as [|a u (init & x & IH)].
  - exists [], EmptyString. reflexivity.
  - cbn [PyStr.split]. rewrite IH. destruct (Ascii.eqb a c).
    + exists (EmptyString :: init), x. reflexivity.
    + destruct init as [|y init]; cbn [app].
      * exists [], (String a x). reflexivity.
      * exists (String a y :: init), x. reflexivity.
Qed.

(** Text without separator added at the end goes to the last piece. *)
Lemma split_app c u t init x :
  PyStr.contains c t = false ->
  PyStr.split c u = init ++ [x] ->
  PyStr.split c (u +:+ t) = init ++ [x +:+ t].
Proof.
  intros Ht. revert init x. induction u as [|a u IH]; intros init x Hu.
  - cbn in Hu. destruct init as [|y [|z init]]; try discriminate Hu.
    injection Hu as <-. change ("" +:+ t) with t. apply split_no_sep, Ht.
  - rewrite app_cons. cbn [PyStr.split] in *.
    destruct (split_last c u) as (init' & x' & Hu').
    rewrite Hu' in Hu. rewrite (IH _ _ Hu').
    destruct (Ascii.eqb a c).
    + destruct init as [|y init]; [destruct init'; discriminate Hu|].
      injection Hu as <- Hu. apply app_inj_tail in Hu as [-> ->]. reflexivity.
    + destruct init' as [|y' init']; cbn [app] in *.
      * destruct init as [|y [|z init]]; try discriminate Hu.
        injection Hu as <-. reflexivity.
      * destruct init as [|y init]; [destruct init'; discriminate Hu|].
        injection Hu as <- Hu. apply app_inj_tail in Hu as [-> ->]. reflexivity.
Qed.

Lemma filter_snoc {A} (f : A -> bool) l y :
  f y = true -> List.filter f (l ++ [y]) = List.filter f l ++ [y].
Proof.
  intros Hy. rewrite List.filter_app. cbn. rewrite Hy. reflexivity.
Qed.

Lemma keep_part_suffix x t :
  (2 <= String.length t)%nat -> PyPath.keep_part (x +:+ t) = true.
Proof.
  intros Ht. unfold PyPath.keep_part.
  assert (H : forall s, (2 <= String.length s)%nat ->
            String.eqb s "" = false /\ String.eqb s "." = false).
  { intros [|a [|b s]] Hs; cbn in Hs; try lia. split; [reflexivity|].
    cbn. destruct (Ascii.eqb a "."); reflexivity. }
  destruct (H (x +:+ t)) as [-> ->]; [|reflexivity].
  clear H. induction x as [|a x IH]; [exact Ht|]. rewrite app_cons. cbn. lia.
Qed.

Lemma root_of_suffix s t1 t2 :
  (3 <= String.length t1)%nat ->
  PyPath.root_of ((s +:+ t1) +:+ t2) = PyPath.root_of (s +:+ t1).
Proof.
  intros Ht.
  assert (H : forall u, (3 <= String.length u)%nat ->
            PyPath.root_of (u +:+ t2) = PyPath.root_of u).
  { intros [|a [|b [|c u]]] Hu; cbn in Hu; try lia. reflexivity. }
  apply H. clear H. induction s as [|a s IH]; [exact Ht|]. rewrite app_cons. cbn. lia.
Qed.

(** The components of [s.prom] and of [s.prom.tmp] differ in the last
    one. *)
Lemma parts_of_prom s :
  exists init x,
    PyPath.parts_of (s +:+ ".prom") = init ++ [x +:+ ".prom"]
    /\ PyPath.parts_of (s +:+ ".prom.tmp") = init ++ [x +:+ ".prom.tmp"].
Proof.
  destruct (split_last PyStr.slash s) as (init & x & Hs).
  exists (List.filter PyPath.keep_part init), x. unfold PyPath.parts_of.
  rewrite (split_app PyStr.slash s ".prom" init x eq_refl Hs).
  rewrite (split_app PyStr.slash s ".prom.tmp" init x eq_refl Hs).
  rewrite !filter_snoc by (apply keep_part_suffix; cbn; lia). auto.
Qed.

Lemma output_final_distinct self check_name :
  output_file_of self check_name <> final_file_of self check_name.
Proof.
  unfold output_file_of, final_file_of, PyPath.join, PyPath.of_str.
  set (s := Json.str check_name).
  change (s +:+ ".prom.tmp") with (s +:+ (".prom" +:+ ".tmp")).
  rewrite <- append_assoc. rewrite root_of_suffix by (cbn; lia).
  rewrite append_assoc. change (".prom" +:+ ".tmp") with ".prom.tmp".
  destruct (parts_of_prom s) as (init & x & -> & ->).
  intros H. destruct (String.eqb _ _); injection H as H.
  - rewrite !app_assoc in H. apply app_inj_tail in H as [_ H].
    apply append_inj_l in H. discriminate H.
  - apply app_inj_tail in H as [_ H]. apply append_inj_l in H. discriminate H.
Qed.

Lemma status_temp_distinct self : status_temp_of self <> status_file_of self.
Proof.
  unfold status_temp_of, status_file_of, PyPath.join.
  change (PyPath.root_of "aami_status.prom.tmp") with "".
  change (PyPath.root_of "aami_status.prom") with "".
  cbn [String.eqb]. intros H. injection H as H.
  apply app_inv_head in H. discriminate H.
Qed.

(** ** What executing a check changes *)

Lemma publish_check_frame env self check_name data w r w' :
  publish_check env self check_name data w = (r, w') ->
  Fs.is_symlink (w_fs w) (output_file_of self check_name) = false ->
  Fs.is_symlink (w_fs w') (output_file_of self check_name) = false
  /\ forall k, k <> output_file_of self check_name ->
               k <> final_file_of self check_name ->
               Fs.lstat (w_fs w') k = Fs.lstat (w_fs w) k.
Proof.
  intros H Hsym. split.
  - eapply publish_not_symlink; [exact H|exact Hsym].
  - eapply publish_frame; [exact H|exact Hsym].
Qed.

(** Whatever the child gives back and whatever [_execute_check] returns or
    raises, no entry of the map changes but the temporary path and the metric
    path of the check (the temporary path being no symbolic link). *)
Lemma execute_check_keeps (env : Env) (self : DynamicCheckRunner)
    (check_name : json) (script_path : Path) (config : json)
    (w : World) (res : result CheckResult) (w' : World) :
  _execute_check env self check_name script_path config w = (res, w') ->
  Fs.is_symlink (w_fs w) (output_file_of self check_name) = false ->
  forall k, k <> output_file_of self check_name ->
            k <> final_file_of self check_name ->
            Fs.lstat (w_fs w') k = Fs.lstat (w_fs w) k.
Proof.
  intros H Hsym k Hk1 Hk2. rewrite execute_check_unfold in H. cbv zeta in H.
  set (ws := child_world script_path config w) in *.
  assert (Hws : w_fs ws = w_fs w) by reflexivity.
  assert (Herr : forall (res0 : CheckResult) w2,
            Fs.is_symlink (w_fs w2) (output_file_of self check_name) = false ->
            Fs.lstat (w_fs w2) k = Fs.lstat (w_fs w) k ->
            (publish_check env self check_name (_generate_error_metric check_name) ;;;
             ret res0) w2 = (res, w') ->
            Fs.lstat (w_fs w') k = Fs.lstat (w_fs w) k).
  { intros res0 w2 Hs2 Hk Hrun. unfold bind in Hrun.
    destruct (publish_check env self check_name _ w2) as [[u|e] w3] eqn:Hp;
      invc Hrun;
      destruct (publish_check_frame _ _ _ _ _ _ _ Hp Hs2) as [_ Hf];
      rewrite (Hf k Hk1 Hk2); exact Hk. }
  assert (Hone : forall data r1 w2,
            publish_check env self check_name data ws = (r1, w2) ->
            Fs.is_symlink (w_fs w2) (output_file_of self check_name) = false
            /\ Fs.lstat (w_fs w2) k = Fs.lstat (w_fs w) k).
  { intros data r1 w2 Hp.
    destruct (publish_check_frame _ _ _ _ _ _ _ Hp Hsym) as [Hs2 Hf].
    split; [exact Hs2|]. rewrite (Hf k Hk1 Hk2). reflexivity. }
  destruct (child_outcome env script_path config w) as [rc so se| |msg].
  - destruct (rc =? 0)%Z.
    + destruct (publish_check env self check_name so ws) as [[u|e] w2] eqn:Hp;
        destruct (Hone _ _ _ Hp) as [Hs2 Hk].
      * invc H. exact Hk.
      * eapply Herr; [| |exact H]; [exact Hs2|exact Hk].
    + destruct (publish_check env self check_name _ ws) as [[u|e] w2] eqn:Hp;
        destruct (Hone _ _ _ Hp) as [Hs2 Hk].
      * invc H. exact Hk.
      * eapply Herr; [| |exact H]; [exact Hs2|exact Hk].
  - eapply Herr; [| |exact H]; [exact Hsym|reflexivity].
  - eapply Herr; [| |exact H]; [exact Hsym|reflexivity].
Qed.


(** X8. When [_execute_check] returns (the temporary path being no symbolic
    link), no temporary file is left behind, and the metric file of the
    check is a regular file that holds the output of the child if the
    result says success and the error metric if not. *)
Theorem execute_check_files (env : Env) (self : DynamicCheckRunner)
    (check_name : json) (script_path : Path) (config : json)
    (w : World) (r : CheckResult) (w' : World) :
  _execute_check env self check_name script_path config w = (Ok r, w') ->
  Fs.is_symlink (w_fs w) (output_file_of self check_name) = false ->
  Fs.lstat (w_fs w') (output_file_of self check_name) = None
  /\ exists x,
       Fs.lstat (w_fs w') (final_file_of self check_name)
       = Some (File (if success r then output r
                     else _generate_error_metric check_name) x).
Proof.
  intros H Hsym. rewrite execute_check_unfold in H. cbv zeta in H.
  set (ws := child_world script_path config w) in *.
  pose proof (output_final_distinct self check_name) as Hne.
  assert (Herr : forall (res0 : CheckResult) w2,
            success res0 = false ->
            Fs.is_symlink (w_fs w2) (output_file_of self check_name) = false ->
            (publish_check env self check_name (_generate_error_metric check_name) ;;;
             ret res0) w2 = (Ok r, w') ->
            Fs.lstat (w_fs w') (output_file_of self check_name) = None
            /\ exists x,
                 Fs.lstat (w_fs w') (final_file_of self check_name)
                 = Some (File (if success r then output r
                               else _generate_error_metric check_name) x)).
  { intros res0 w2 Hres Hs2 Hrun. apply bind_ok in Hrun as (u & w3 & Hp & Hrun).
    invc Hrun. rewrite Hres. eapply publish_exact; [exact Hp|exact Hs2|exact Hne]. }
  destruct (child_outcome env script_path config w) as [rc so se| |msg].
  - destruct (rc =? 0)%Z.
    + destruct (publish_check env self check_name so ws) as [[u|e] w2] eqn:Hp.
      * invc H. cbn [success output].
        eapply publish_exact; [exact Hp|exact Hsym|exact Hne].
      * eapply Herr; [| |exact H];
          [reflexivity|eapply publish_not_symlink; [exact Hp|exact Hsym]].
    + destruct (publish_check env self check_name _ ws) as [[u|e] w2] eqn:Hp.
      * invc H. cbn [success output].
        eapply publish_exact; [exact Hp|exact Hsym|exact Hne].
      * eapply Herr; [| |exact H];
          [reflexivity|eapply publish_not_symlink; [exact Hp|exact Hsym]].
  - eapply Herr; [| |exact H]; [reflexivity|exact Hsym].
  - eapply Herr; [| |exact H]; [reflexivity|exact Hsym].
Qed.

(** X9. [_write_status_metrics] changes no entry of the file system but the
    status file and its temporary file (the temporary path being no
    symbolic link), whatever it returns or raises; when it returns, no
    temporary file is left and the status file is a regular file. *)
Theorem write_status_metrics_files (env : Env) (self : DynamicCheckRunner)
    (s : bool) (total ok failed duration : Z)
    (w : World) (r : result unit) (w' : World) :
  _write_status_metrics env self s total ok failed duration w = (r, w') ->
  Fs.is_symlink (w_fs w) (status_temp_of self) = false ->
  (forall k, k <> status_temp_of self -> k <> status_file_of self ->
             Fs.lstat (w_fs w') k = Fs.lstat (w_fs w) k)
  /\ (r = Ok tt ->
      Fs.lstat (w_fs w') (status_temp_of self) = None
      /\ exists x,
           Fs.lstat (w_fs w') (status_file_of self)
           = Some (File (status_metrics (if s then 1 else 0)
                           (int_of_float (time_time env (w_clock w)))
                           duration total ok failed) x)).
Proof.
  intros H Hsym. unfold _write_status_metrics in H.
  unfold bind at 1, time at 1 in H. cbv beta iota in H.
  destruct (py_int_bind (time_time env (w_clock w))
              (fun timestamp =>
                 Os.write_text env (status_temp_of self)
                   (status_metrics (if s then 1 else 0) timestamp duration total ok failed) ;;;
                 Os.rename env (status_temp_of self) (status_file_of self))
              (mkWorld (w_fs w) (w_log w) (S (w_clock w)))) as [E|[e E]];
    rewrite E in H; clear E.
  - split.
    + exact (publish_frame _ _ _ _ _ _ _ H Hsym).
    + intros ->. exact (publish_exact _ _ _ _ _ _ _ H Hsym (status_temp_distinct self)).
  - injection H as <- <-. split; [reflexivity|discriminate].
Qed.

(** ** What saving a script changes *)

Lemma mkdir_parents_preserves env (I : World -> Prop) :
  (forall p, preserves I (Os.mkdir env p)) ->
  forall n p, preserves I (Os.mkdir_parents env n p).
Proof.
  intros Hmk. induction n as [|n IH]; intros p; cbn [Os.mkdir_parents];
    (apply preserves_try_except; [apply Hmk|intros e]).
  - destruct e; try apply is_dir_check_keeps.
    apply preserves_pure. reflexivity.
  - destruct e; try apply is_dir_check_keeps.
    apply preserves_bind; [apply IH|intros _].
    unfold Os.mkdir_exist_ok.
    apply preserves_try_except; [apply Hmk|intros e].
    apply is_dir_check_keeps.
Qed.

(** [os.mkdir] only adds an entry where there was none. *)
Lemma mkdir_keeps_entry env p k n :
  preserves (fun w => Fs.lstat (w_fs w) k = Some n) (Os.mkdir env p).
Proof.
  intros w r w' H Hk. apply mkdir_fs in H as [[-> _]|(Hl & -> & _)]; [exact Hk|].
  rewrite lstat_insert_ne; [exact Hk|]. intros ->. congruence.
Qed.

Lemma write_text_fs env p data w r w' :
  Os.write_text env p data w = (r, w') ->
  w_fs w' = w_fs w
  \/ exists q o v, Fs.stat (w_fs w) p = Some (q, o)
                   /\ (o = None \/ exists d x, o = Some (File d x))
                   /\ w_fs w' = <[q := v]> (w_fs w).
Proof.
  intros H. unfold Os.write_text in H. os_cases H; auto; right;
    eexists _, _, _; (split; [reflexivity|]); eauto.
Qed.

Lemma chmod_755_fs env p w r w' :
  Os.chmod_755 env p w = (r, w') ->
  w_fs w' = w_fs w
  \/ exists q d x, Fs.stat (w_fs w) p = Some (q, Some (File d x))
                   /\ w_fs w' = <[q := File d true]> (w_fs w).
Proof.
  intros H. unfold Os.chmod_755 in H. os_cases H; eauto 10.
Qed.

Lemma unlink_fs env p w r w' :
  Os.unlink env p w = (r, w') ->
  w_fs w' = w_fs w \/ w_fs w' = delete p (w_fs w).
Proof.
  intros H. unfold Os.unlink in H. os_cases H; auto.
Qed.

Lemma symlink_to_fs env l t w r w' :
  Os.symlink_to env l t w = (r, w') ->
  w_fs w' = w_fs w \/ w_fs w' = <[l := Symlink t]> (w_fs w).
Proof.
  intros H. unfold Os.symlink_to in H. os_cases H; auto.
Qed.

Lemma exists_false_stat (fs : FS) p q o :
  Fs.exists_ fs p = false -> Fs.stat fs p = Some (q, o) -> o = None.
Proof.
  unfold Fs.exists_. intros H Hs. rewrite Hs in H. destruct o; [discriminate H|reflexivity].
Qed.

(** The second step writes only where there was nothing. *)
Lemma save_body_keeps_entry env self nm check k n :
  preserves (fun w => Fs.lstat (w_fs w) k = Some n) (save_body env self nm check).
Proof.
  intros w r w' H Hk. unfold save_body in H.
  unfold bind at 1, get_fs at 1 in H. cbv beta iota in H.
  set (file := script_file_of self nm (script_hash check)) in *.
  destruct (Fs.exists_ (w_fs w) file) eqn:Hex; [invc H; exact Hk|].
  destruct (sliceable _); [|invc H; exact Hk].
  destruct (script_content check) as [| | |body| |]; try (invc H; exact Hk).
  unfold bind in H.
  destruct (Os.write_text env file body w) as [[u|e] w1] eqn:Hw.
  - pose proof (write_text_ok _ _ _ _ _ _ Hw) as (q & x & Hstat & ->).
    assert (Hs : Fs.stat (w_fs w) file = Some (q, None)).
    { destruct Hstat as [Hs|[d Hs]]; [exact Hs|].
      rewrite (exists_false_stat _ _ _ _ Hex Hs) in Hs. exact Hs. }
    pose proof (resolve_end _ _ _ _ _ Hs) as [Hq _].
    assert (Hqk : k <> q) by (intros ->; congruence).
    assert (Hparts : parts q <> []) by (eapply lstat_none_parts; exact Hq).
    assert (Hs1 : Fs.stat (<[q := File body x]> (w_fs w)) file
                  = Some (q, Some (File body x))).
    { eapply resolve_insert_end; [exact Hs|exact Hparts|discriminate]. }
    apply chmod_755_fs in H as [->|(q' & d & x' & Hs' & ->)]; cbn [w_fs] in *.
    + rewrite lstat_insert_ne by exact Hqk. exact Hk.
    + rewrite Hs1 in Hs'. injection Hs' as <- <- <-.
      rewrite !lstat_insert_ne by exact Hqk. exact Hk.
  - invc H. apply write_text_fs in Hw as [->|(q & o & v & Hs & _ & ->)]; [exact Hk|].
    pose proof (exists_false_stat _ _ _ _ Hex Hs). subst o.
    pose proof (resolve_end _ _ _ _ _ Hs) as [Hq _].
    rewrite lstat_insert_ne; [exact Hk|]. intros ->. congruence.
Qed.

Lemma remove_pointer_keeps_entry env self nm k n :
  k <> current_link_of self nm ->
  preserves (fun w => Fs.lstat (w_fs w) k = Some n) (remove_pointer env self nm).
Proof.
  intros Hne w r w' H Hk. unfold remove_pointer in H.
  unfold bind at 1, get_fs at 1 in H. cbv beta iota in H.
  assert (Hu : forall r w', Os.unlink env (current_link_of self nm) w = (r, w') ->
               Fs.lstat (w_fs w') k = Some n).
  { intros r0 w0 Hun. apply unlink_fs in Hun as [->| ->]; [exact Hk|].
    rewrite lstat_delete_ne by exact Hne. exact Hk. }
  destruct (Fs.is_symlink _ _); [eapply Hu; exact H|].
  destruct (Fs.exists_ _ _); [eapply Hu; exact H|]. invc H. exact Hk.
Qed.

Lemma symlink_to_keeps_entry env l t k n :
  k <> l -> preserves (fun w => Fs.lstat (w_fs w) k = Some n) (Os.symlink_to env l t).
Proof.
  intros Hne w r w' H Hk. apply symlink_to_fs in H as [->| ->]; [exact Hk|].
  rewrite lstat_insert_ne by exact Hne. exact Hk.
Qed.

(** Saving a script keeps every entry but the pointer of the check. *)
Lemma save_keeps_entry (env : Env) (self : DynamicCheckRunner) (check : CheckInfo)
    (w : World) (r : result Path) (w' : World) (k : Path) (n : node) :
  _save_check_script env self check w = (r, w') ->
  (forall nm, name check = JStr nm -> k <> current_link_of self nm) ->
  Fs.lstat (w_fs w) k = Some n ->
  Fs.lstat (w_fs w') k = Some n.
Proof.
  intros H Hne Hk.
  destruct (name check) as [| | |nm| |] eqn:Hnm;
    try (unfold _save_check_script in H; rewrite Hnm in H; invc H; exact Hk).
  rewrite (save_check_script_steps env self check nm Hnm) in H.
  specialize (Hne nm eq_refl).
  revert H Hk. generalize w r w'.
  change (preserves (fun w => Fs.lstat (w_fs w) k = Some n)
            (Os.makedirs env (script_dir_of self nm) ;;;
             save_body env self nm check ;;;
             remove_pointer env self nm ;;;
             Os.symlink_to env (current_link_of self nm)
               (script_file_of self nm (script_hash check)) ;;;
             ret (current_link_of self nm))).
  apply preserves_bind; [|intros _].
  { apply mkdir_parents_preserves. intros p. apply mkdir_keeps_entry. }
  apply preserves_bind; [apply save_body_keeps_entry|intros _].
  apply preserves_bind; [apply remove_pointer_keeps_entry; exact Hne|intros _].
  apply preserves_bind; [apply symlink_to_keeps_entry; exact Hne|intros _].
  apply preserves_pure. reflexivity.
Qed.

(** The pointer after a save that returned. *)
Lemma save_pointer_link (env : Env) (self : DynamicCheckRunner) (check : CheckInfo)
    (w : World) (p : Path) (w' : World) :
  _save_check_script env self check w = (Ok p, w') ->
  exists nm,
    name check = JStr nm
    /\ p = current_link_of self nm
    /\ Fs.lstat (w_fs w') p
       = Some (Symlink (script_file_of self nm (script_hash check)))
    /\ Fs.is_dir (w_fs w') (script_dir_of self nm) = true.
Proof.
  intros H. destruct (save_check_script_name _ _ _ _ _ _ H) as [nm Hnm].
  rewrite (save_check_script_steps env self check nm Hnm) in H.
  apply bind_ok in H as (u1 & w1 & _ & H).
  apply bind_ok in H as (u2 & w2 & _ & H).
  apply bind_ok in H as (u3 & w3 & _ & H).
  apply bind_ok in H as (u4 & w4 & H4 & H). invc H.
  apply symlink_to_ok in H4 as (Hl & Hpar & ->). cbn [w_fs].
  exists nm. split; [exact Hnm|]. split; [reflexivity|]. split.
  - apply lstat_insert_eq, current_link_nonempty.
  - apply parent_error_is_dir in Hpar as [Hd _].
    rewrite current_link_parent in Hd.
    apply is_dir_insert_absent; assumption.
Qed.

(** X11. When [_save_check_script] returns, it returns the pointer path of
    the check, the pointer is a link to the script file of the name and hash
    just saved, whatever it was before, and the directory of the check is a
    directory. *)
Theorem save_pointer_target (env : Env) (self : DynamicCheckRunner) (check : CheckInfo)
    (w : World) (p : Path) (w' : World) :
  _save_check_script env self check w = (Ok p, w') ->
  exists nm,
    name check = JStr nm
    /\ p = current_link_of self nm
    /\ Fs.lstat (w_fs w') p
       = Some (Symlink (script_file_of self nm (script_hash check)))
    /\ Fs.is_dir (w_fs w') (script_dir_of self nm) = true.
Proof. exact (save_pointer_link env self check w p w'). Qed.

(** X12. Saving another version of a check moves the pointer and keeps the
    old body: after two returning calls for the same name, the pointer is a
    link to the script file of the second hash, and the script file of the
    first hash, if it is a regular file, is the same regular file as after
    the first call. *)
Theorem save_switch_version (env : Env) (self : DynamicCheckRunner)
    (check1 check2 : CheckInfo) (nm : string)
    (w : World) (p1 : Path) (w1 : World) (p2 : Path) (w2 : World) :
  name check1 = JStr nm -> name check2 = JStr nm ->
  _save_check_script env self check1 w = (Ok p1, w1) ->
  _save_check_script env self check2 w1 = (Ok p2, w2) ->
  p2 = p1
  /\ Fs.lstat (w_fs w2) p2
     = Some (Symlink (script_file_of self nm (script_hash check2)))
  /\ forall d x,
       Fs.lstat (w_fs w1) (script_file_of self nm (script_hash check1))
         = Some (File d x) ->
       Fs.lstat (w_fs w2) (script_file_of self nm (script_hash check1))
         = Some (File d x).
Proof.
  intros Hn1 Hn2 H1 H2.
  destruct (save_pointer_link _ _ _ _ _ _ H1) as (nm1 & Hnm1 & -> & Hp1 & _).
  destruct (save_pointer_link _ _ _ _ _ _ H2) as (nm2 & Hnm2 & -> & Hp2 & _).
  rewrite Hn1 in Hnm1. injection Hnm1 as <-.
  rewrite Hn2 in Hnm2. injection Hnm2 as <-.
  split; [reflexivity|]. split; [exact Hp2|].
  intros d x Hfile.
  eapply save_keeps_entry; [exact H2| |exact Hfile].
  intros nm' Hnm'. rewrite Hn2 in Hnm'. injection Hnm' as <-.
  intros Heq. rewrite Heq in Hfile. congruence.
Qed.

Lemma save_body_no_write env self nm check :
  (forall body, script_content check <> JStr body) \/ sliceable (script_hash check) = false ->
  emits (fun o => is_write o = false) (save_body env self nm check).
Proof.
  intros Hbad. unfold save_body.
  apply emits_bind; [apply emits_get_fs|intros fs].
  destruct (Fs.exists_ _ _); [apply emits_ret|].
  destruct (sliceable _); [|apply emits_raise].
  destruct (script_content check) as [| | |body| |]; try apply emits_raise.
  exfalso. destruct Hbad as [Hbad|Hbad]; [eapply Hbad; reflexivity|discriminate Hbad].
Qed.

(** X13. A record the cache cannot take writes nothing.  When the name is
    not a string, [_save_check_script] raises [TypeError] and does nothing
    at all; when the script content is not a string, or the hash is neither
    a string nor a list, no file is written, whatever the call returns or
    raises. *)
Theorem save_bad_record (env : Env) (self : DynamicCheckRunner) (check : CheckInfo)
    (w : World) :
  ((forall nm, name check <> JStr nm) ->
   _save_check_script env self check w = (Raise TypeError, w))
  /\ ((forall body, script_content check <> JStr body)
      \/ sliceable (script_hash check) = false ->
      Forall (fun ev => is_write (ev_op ev) = false)
             (new_events w (snd (_save_check_script env self check w)))).
Proof.
  split.
  - intros Hname. unfold _save_check_script.
    destruct (name check) as [| | |nm| |]; try reflexivity.
    exfalso. eapply Hname. reflexivity.
  - intros Hbad. apply (log_grows_new_events (fun o => is_write o = false)).
    destruct (_save_check_script env self check w) as [r w'] eqn:H. cbn [snd].
    revert H. generalize w r w'.
    change (emits (fun o => is_write o = false) (_save_check_script env self check)).
    destruct (name check) as [| | |nm| |] eqn:Hnm;
      try (unfold _save_check_script; rewrite Hnm; apply emits_raise).
    rewrite (save_check_script_steps env self check nm Hnm).
    apply emits_bind; [|intros _].
    { eapply emits_weaken; [|apply makedirs_emits]. intros o [p ->]. reflexivity. }
    apply emits_bind; [apply save_body_no_write; exact Hbad|intros _].
    apply emits_bind; [|intros _].
    { unfold remove_pointer. apply emits_bind; [apply emits_get_fs|intros fs].
      destruct (Fs.is_symlink _ _); [|destruct (Fs.exists_ _ _); [|apply emits_ret]];
        (eapply emits_weaken; [|apply unlink_emits]); intros o ->; reflexivity. }
    apply emits_bind; [|intros _; apply emits_ret].
    eapply emits_weaken; [|apply symlink_to_emits]. intros o ->. reflexivity.
Qed.

(** ** The order of the checks *)

Lemma filter_spawn_none (P : op -> Prop) evs :
  (forall o, P o -> is_spawn o = false) ->
  Forall (fun ev => P (ev_op ev)) evs ->
  List.filter is_spawn (List.map ev_op evs) = [].
Proof.
  intros HP. induction 1 as [|ev evs Hev _ IH]; [reflexivity|].
  cbn [List.map List.filter]. rewrite (HP _ Hev). exact IH.
Qed.

Lemma cache_op_not_spawn o : is_cache_op o = true -> is_spawn o = false.
Proof. destruct o; cbn; intros H; (discriminate H || reflexivity). Qed.

Lemma check_results_spawns env self checks w rs w' :
  check_results env self checks w = (Ok rs, w') ->
  exists evs,
    w_log w' = w_log w ++ evs
    /\ List.filter is_spawn (List.map ev_op evs) = List.map (spawn_of self) checks
    /\ List.map r_name rs = List.map name checks.
Proof.
  revert w rs w'. induction checks as [|c checks IH]; intros w rs w' H;
    cbn [check_results] in H.
  - invc H. exists []. rewrite app_nil_r. auto.
  - apply bind_ok in H as (p & w1 & Hsave & H).
    apply bind_ok in H as (r & w2 & Hexec & H).
    apply bind_ok in H as (rs' & w3 & Hrest & H). invc H.
    destruct (save_pointer_link _ _ _ _ _ _ Hsave) as (nm & Hnm & -> & _).
    destruct (save_check_script_emits _ _ _ _ _ _ Hsave) as (e1 & Hl1 & He1).
    destruct (execute_check_emits _ _ _ _ _ _ _ _ Hexec) as (e2 & Hl2 & He2).
    destruct (execute_check_spec _ _ _ _ _ _ _ _ Hexec) as (_ & _ & _ & _ & _ & _ & Hname & _).
    destruct (IH _ _ _ Hrest) as (e3 & Hl3 & Hf3 & Hn3).
    exists (e1 ++ (mkEvent (spawn_of self c) (w_fs w1) :: e2) ++ e3). split; [|split].
    + rewrite Hl3, Hl2. cbn [child_world w_log]. rewrite Hl1.
      unfold spawn_of. rewrite Hnm. cbn [Json.str].
      rewrite <- !app_assoc. reflexivity.
    + rewrite !List.map_app, !List.filter_app. cbn [List.map List.filter ev_op].
      rewrite (filter_spawn_none _ e1 cache_op_not_spawn He1).
      rewrite (filter_spawn_none _ e2 (is_publish_not_spawn _ _) He2).
      cbn [spawn_of is_spawn app]. rewrite Hf3. reflexivity.
    + cbn [List.map]. rewrite Hname, Hn3. reflexivity.
Qed.

(** X14. The checks are executed one after the other in the order of the
    payload: when all of them produced a result, the children that were run
    are, in this order, one per check, each started with the pointer of its
    check as the only word of the command line and the serialized config of
    its check as input; the results come in the same order. *)
Theorem checks_run_in_order (env : Env) (self : DynamicCheckRunner)
    (checks : list CheckInfo) (w : World) (rs : list CheckResult) (w' : World) :
  check_results env self checks w = (Ok rs, w') ->
  List.filter is_spawn (List.map ev_op (new_events w w'))
    = List.map (spawn_of self) checks
  /\ List.map r_name rs = List.map name checks.
Proof.
  intros H. destruct (check_results_spawns _ _ _ _ _ _ H) as (evs & Hl & Hf & Hn).
  rewrite (new_events_app _ _ _ Hl). auto.
Qed.

(** ** The exit status of the process *)

Lemma run_returns env self w status w' :
  run env self w = (Ok status, w') ->
  (status = 0 /\ config_server_url self <> EmptyString
   /\ checks_of_outcome (urlopen env (fetch_url self)) <> None)
  \/ (status = 1
      /\ (config_server_url self = EmptyString
          \/ checks_of_outcome (urlopen env (fetch_url self)) = None)).
Proof.
  intros H. destruct (String.eqb (config_server_url self) "") eqn:Hurl.
  - apply String.eqb_eq in Hurl. right. unfold run in H. rewrite Hurl in H.
    cbn [String.eqb] in H. apply bind_ok in H as (u & w1 & _ & H). invc H. auto.
  - apply String.eqb_neq in Hurl.
    destruct (checks_of_outcome (urlopen env (fetch_url self))) as [checks|] eqn:Hf.
    + left. rewrite (run_fetch_ok env self w checks Hurl Hf) in H.
      apply bind_ok in H as (c & w1 & _ & H).
      apply bind_ok in H as (t & w2 & _ & H).
      apply bind_ok in H as (d & w3 & _ & H).
      apply bind_ok in H as (u & w4 & _ & H). invc H.
      split; [reflexivity|]. split; [exact Hurl|discriminate].
    + right. rewrite (run_fetch_failed env self w Hurl Hf) in H.
      apply bind_ok in H as (d & w1 & _ & H).
      apply bind_ok in H as (u & w2 & _ & H). invc H. auto.
Qed.

(** X15. The process ends with status 0, 1 or 2.  It ends with 2 exactly
    when argparse does not accept the command line.  It ends with 0 only
    after [-h], [--help], [-V] or [--version], or when, with the options
    given, the runner could be constructed, has a server URL after the
    config file was read, and the fetch gave a list of checks. *)
Theorem main_exit_status (env : Env) (environ : gmap string string) (cmd : cmdline)
    (w : World) :
  let status := fst (main env environ cmd w) in
  (status = 0 \/ status = 1 \/ status = 2)
  /\ (status = 2 <-> cmd = CmdUsageError)
  /\ (status = 0 ->
      cmd = CmdHelp \/ cmd = CmdVersion
      \/ exists flags self w0,
           cmd = CmdOptions flags
           /\ (let args := parse_args environ flags in
               __init__ env (arg_config_server args) (arg_hostname args)
                        (arg_debug args) (arg_textfile_dir args)
                        (arg_check_scripts_dir args)
                        DEFAULT_CONFIG_FILE DEFAULT_LOG_FILE w = (Ok self, w0))
           /\ config_server_url self <> EmptyString
           /\ checks_of_outcome (urlopen env (fetch_url self)) <> None).
Proof.
  intros status. subst status.
  destruct cmd as [| | |flags]; cbn [main fst].
  - split; [auto|]. split; [split; discriminate|auto].
  - split; [auto|]. split; [split; discriminate|auto].
  - split; [auto|]. split; [split; reflexivity|discriminate].
  - cbv zeta. unfold bind.
    destruct (__init__ env _ _ _ _ _ _ _ w) as [[self|e] w0] eqn:Hinit; cbn [fst].
    + destruct (run env self w0) as [[status|e] w'] eqn:Hrun; cbn [fst exit_status].
      * destruct (run_returns _ _ _ _ _ Hrun) as [(-> & Hu & Hf)|(-> & _)].
        -- split; [auto|]. split; [split; discriminate|].
           intros _. right. right. exists flags, self, w0. auto.
        -- split; [auto|]. split; [split; discriminate|discriminate].
      * split; [auto|]. split; [split; discriminate|discriminate].
    + split; [auto|]. split; [split; discriminate|discriminate].
Qed.

(** ** Reading the status file back *)

Lemma one_line_inv a s : one_line (String a s) -> a <> PyStr.chr 10 /\ one_line s.
Proof.
  unfold one_line. cbn [PyStr.contains]. intros H.
  apply orb_false_iff in H as [Ha Hs]. split; [|exact Hs].
  apply Ascii.eqb_neq. exact Ha.
Qed.

(** Two texts that agree up to and after their first line feed. *)
Lemma split_at_nl s s' r r' :
  one_line s -> one_line s' ->
  s +:+ nl +:+ r = s' +:+ nl +:+ r' -> s = s' /\ r = r'.
Proof.
  revert s'. induction s as [|a s IH]; intros [|a' s'] Hs Hs' H.
  - injection H as H. auto.
  - apply one_line_inv in Hs' as [Ha _]. injection H as H _. congruence.
  - apply one_line_inv in Hs as [Ha _]. injection H as H _. congruence.
  - apply one_line_inv in Hs as [_ Hs]. apply one_line_inv in Hs' as [_ Hs'].
    rewrite !app_cons in H. injection H as -> H.
    destruct (IH _ Hs Hs' H) as [-> ->]. auto.
Qed.

Lemma gauge_inj (a a' : Z) r r' :
  pretty a +:+ nl +:+ r = pretty a' +:+ nl +:+ r' -> a = a' /\ r = r'.
Proof.
  intros H. apply split_at_nl in H as [Ha Hr]; try apply one_line_pretty.
  split; [|exact Hr]. apply (inj pretty). exact Ha.
Qed.

(** X16. The status file can be read back: two status texts are equal only
    if the fetch status, the time stamp, the duration and the three counts
    they were written from are equal. *)
Theorem status_metrics_inj (a b c d e f a' b' c' d' e' f' : Z) :
  status_metrics a b c d e f = status_metrics a' b' c' d' e' f' ->
  a = a' /\ b = b' /\ c = c' /\ d = d' /\ e = e' /\ f = f'.
Proof.
  unfold status_metrics. intros H.
  repeat apply append_inj_l in H. apply gauge_inj in H as [-> H].
  repeat apply append_inj_l in H. apply gauge_inj in H as [-> H].
  repeat apply append_inj_l in H. apply gauge_inj in H as [-> H].
  repeat apply append_inj_l in H. apply gauge_inj in H as [-> H].
  repeat apply append_inj_l in H. apply gauge_inj in H as [-> H].
  repeat apply append_inj_l in H.
  assert (Hf : pretty f +:+ nl +:+ "" = pretty f' +:+ nl +:+ "") by exact H.
  apply gauge_inj in Hf as [-> _]. auto 10.
Qed.

(** ** Where the settings come from *)

Lemma fs_grows_refl (fs : FS) : fs_grows fs fs.
Proof. intros p. destruct (Fs.lstat fs p); auto. Qed.

Lemma fs_grows_trans (fs1 fs2 fs3 : FS) :
  fs_grows fs1 fs2 -> fs_grows fs2 fs3 -> fs_grows fs1 fs3.
Proof.
  intros H12 H23 p. specialize (H12 p). specialize (H23 p).
  destruct (Fs.lstat fs1 p) as [n|].
  - rewrite H12 in H23. exact H23.
  - destruct H12 as [H|[H|H]]; rewrite H in H23; auto.
Qed.

Lemma fs_grows_insert (fs : FS) k v :
  Fs.lstat fs k = None -> v = Dir \/ v = File "" false ->
  fs_grows fs (<[k := v]> fs).
Proof.
  intros Hk Hv p. destruct (decide (p = k)) as [->|Hne].
  - rewrite Hk. rewrite lstat_insert_eq by (eapply lstat_none_parts; exact Hk).
    destruct Hv as [->| ->]; auto.
  - rewrite lstat_insert_ne by exact Hne. destruct (Fs.lstat fs p); auto.
Qed.

Lemma mkdir_grows env fs0 p :
  preserves (fun w => fs_grows fs0 (w_fs w)) (Os.mkdir env p).
Proof.
  intros w r w' H Hg. apply mkdir_fs in H as [[-> _]|(Hl & -> & _)]; [exact Hg|].
  eapply fs_grows_trans; [exact Hg|]. apply fs_grows_insert; auto.
Qed.

Lemma open_append_grows env fs0 p :
  preserves (fun w => fs_grows fs0 (w_fs w)) (Os.open_append env p).
Proof.
  intros w r w' H Hg. unfold Os.open_append in H.
  unfold bind at 1, get_fs at 1 in H. cbv beta iota in H.
  destruct (Fs.stat (w_fs w) p) as [[q o]|] eqn:Hstat.
  2:{ invc H. exact Hg. }
  destruct (resolve_end _ _ _ _ _ Hstat) as [Hq _].
  destruct o as [[d x|t|]|].
  - unfold bind, fault_of in H.
    destruct (disk_fault env _ _); invc H; exact Hg.
  - invc H. exact Hg.
  - invc H. exact Hg.
  - destruct (Os.parent_error (w_fs w) q); [invc H; exact Hg|].
    unfold bind, fault_of in H.
    destruct (disk_fault env _ _); invc H; try exact Hg.
    eapply fs_grows_trans; [exact Hg|]. apply fs_grows_insert; auto.
Qed.

Lemma setup_logging_grows env self fs0 :
  preserves (fun w => fs_grows fs0 (w_fs w)) (_setup_logging env self).
Proof.
  intros w r w' H Hg. unfold _setup_logging, try_except_when in H.
  destruct ((Os.makedirs env (PyPath.parent (log_file self)) ;;;
             Os.open_append env (log_file self)) w) as [[u|e] w1] eqn:E.
  - invc H. revert E Hg.
    apply (preserves_bind (fun w => fs_grows fs0 (w_fs w))).
    + apply mkdir_parents_preserves. intros q. apply mkdir_grows.
    + intros _. apply open_append_grows.
  - assert (Hg1 : fs_grows fs0 (w_fs w1)).
    { revert E Hg. apply (preserves_bind (fun w => fs_grows fs0 (w_fs w))).
      - apply mkdir_parents_preserves. intros q. apply mkdir_grows.
      - intros _. apply open_append_grows. }
    destruct (is_permission_error e); invc H; exact Hg1.
Qed.

(** Following links on a disk that has grown. *)
Lemma resolve_grows (fs fs' : FS) n p :
  fs_grows fs fs' ->
  match Fs.resolve n fs p with
  | None => Fs.resolve n fs' p = None
  | Some (q, Some nd) => Fs.resolve n fs' p = Some (q, Some nd)
  | Some (q, None) =>
      Fs.resolve n fs' p = Some (q, None) \/ Fs.resolve n fs' p = Some (q, Some Dir)
      \/ Fs.resolve n fs' p = Some (q, Some (File "" false))
  end.
Proof.
  intros Hg. revert p. induction n as [|n IH]; intros p; cbn [Fs.resolve];
    pose proof (Hg p) as Hp; destruct (Fs.lstat fs p) as [[d x|t|]|].
  all: try (rewrite Hp; reflexivity).
  all: try (destruct Hp as [Hp|[Hp|Hp]]; rewrite Hp; auto).
  rewrite Hp. apply IH.
Qed.

Lemma read_text_grows (fs fs' : FS) p :
  fs_grows fs fs' ->
  match Fs.read_text fs p with
  | Some text => Fs.read_text fs' p = Some text
  | None => Fs.read_text fs' p = None \/ Fs.read_text fs' p = Some EmptyString
  end.
Proof.
  intros Hg. unfold Fs.read_text, Fs.stat.
  pose proof (resolve_grows fs fs' Fs.max_links p Hg) as H.
  destruct (Fs.resolve Fs.max_links fs p) as [[q [[d x|t|]|]]|].
  - rewrite H. reflexivity.
  - rewrite H. auto.
  - rewrite H. auto.
  - destruct H as [H|[H|H]]; rewrite H; auto.
  - rewrite H. auto.
Qed.

(** The three steps of the constructor. *)
Lemma init_ok env url host dbg tf cs cf lf w self w' :
  __init__ env url host dbg tf cs cf lf w = (Ok self, w') ->
  let self0 := mkRunner url (if String.eqb host "" then gethostname env else host)
                 dbg (PyPath.of_str tf) (PyPath.of_str cs)
                 (PyPath.of_str cf) (PyPath.of_str lf) in
  exists w1,
    fs_grows (w_fs w) (w_fs w1)
    /\ _load_config self0 w1 = (Ok self, w1)
    /\ _ensure_directories env self w1 = (Ok tt, w').
Proof.
  intros H self0. unfold __init__ in H. fold self0 in H.
  apply bind_ok in H as (u0 & w1 & Hlog & H).
  apply bind_ok in H as (s1 & w2 & Hload & H).
  apply bind_ok in H as (u & w3 & Hdirs & H). invc H.
  destruct (load_config_facts self0 w1) as (s' & Hl & _).
  rewrite Hl in Hload. invc Hload. destruct u.
  exists w2. split; [|auto].
  exact (setup_logging_grows env self0 (w_fs w) w _ _ Hlog (fs_grows_refl _)).
Qed.

(** X17. The settings of a runner that [main] could construct.  The server
    URL is the one given with [-c] if that is not empty, else, when [-c]
    was not given, the one of [AAMI_CONFIG_SERVER_URL] if that is not
    empty; in every other case (also with [-c] given as the empty text) it
    is what the config file gives: the value of its first URL line, and
    the empty URL when there is none or when the file cannot be read.  The
    host name is the one given with [--hostname] if that is not empty,
    else, when [--hostname] was not given, the one of [AAMI_HOSTNAME] if
    that is not empty, and in every other case the name of the machine.
    Both directories are directories afterwards. *)
Theorem init_settings (env : Env) (environ : gmap string string) (flags : Flags)
    (w : World) (self : DynamicCheckRunner) (w' : World) :
  let args := parse_args environ flags in
  __init__ env (arg_config_server args) (arg_hostname args) (arg_debug args)
           (arg_textfile_dir args) (arg_check_scripts_dir args)
           DEFAULT_CONFIG_FILE DEFAULT_LOG_FILE w = (Ok self, w') ->
  let from_file :=
    match Fs.read_text (w_fs w) (PyPath.of_str DEFAULT_CONFIG_FILE) with
    | Some text => default EmptyString (find_url (PyStr.lines text))
    | None => EmptyString
    end in
  config_server_url self
  = match flag_config_server flags with
    | Some u => if String.eqb u "" then from_file else u
    | None =>
        match environ !! "AAMI_CONFIG_SERVER_URL" with
        | Some u => if String.eqb u "" then from_file else u
        | None => from_file
        end
    end
  /\ hostname self
     = match flag_hostname flags with
       | Some h => if String.eqb h "" then gethostname env else h
       | None =>
           match environ !! "AAMI_HOSTNAME" with
           | Some h => if String.eqb h "" then gethostname env else h
           | None => gethostname env
           end
       end
  /\ Fs.is_dir (w_fs w') (textfile_dir self) = true
  /\ Fs.is_dir (w_fs w') (check_scripts_dir self) = true.
Proof.
  intros args H from_file. apply init_ok in H as (w1 & Hg & Hload & Hdirs).
  cbv zeta in Hload. set (self0 := mkRunner _ _ _ _ _ _ _) in Hload.
  destruct (load_config_facts self0 w1)
    as (s' & Hl & Hhost & _ & _ & _ & _ & _ & Hkeep & Hnone).
  rewrite Hl in Hload. invc Hload.
  destruct (ensure_directories_facts _ _ _ _ _ Hdirs) as (_ & Hd & _).
  destruct (Hd eq_refl) as [Ht Hc].
  assert (Hurl : config_server_url self
                 = if String.eqb (arg_config_server args) ""
                   then from_file else arg_config_server args).
  { destruct (String.eqb (arg_config_server args) "") eqn:Hempty.
    - apply String.eqb_eq in Hempty.
      pose proof (read_text_grows _ _ (PyPath.of_str DEFAULT_CONFIG_FILE) Hg) as Hr.
      subst from_file.
      destruct (Fs.read_text (w_fs w) (PyPath.of_str DEFAULT_CONFIG_FILE))
        as [text|] eqn:Hread.
      + rewrite (load_config_read self0 w1 text Hempty Hr) in Hl. invc Hl.
        destruct (find_url (PyStr.lines text)); [reflexivity|exact Hempty].
      + destruct Hr as [Hr|Hr].
        * rewrite Hnone by exact Hr. exact Hempty.
        * rewrite (load_config_read self0 w1 "" Hempty Hr) in Hl. invc Hl.
          exact Hempty.
    - apply String.eqb_neq in Hempty. rewrite Hkeep by exact Hempty. reflexivity. }
  split; [|split; [|split]]; [| |exact Ht|exact Hc].
  - rewrite Hurl. subst args. unfold parse_args, environ_get. cbn [arg_config_server].
    destruct (flag_config_server flags) as [u|]; cbn [default]; [reflexivity|].
    destruct (environ !! "AAMI_CONFIG_SERVER_URL") as [u|]; reflexivity.
  - rewrite Hhost. subst self0 args. unfold parse_args, environ_get.
    cbn [hostname arg_hostname].
    destruct (flag_hostname flags) as [h|]; cbn [from_option id].
    + destruct (String.eqb h ""); reflexivity.
    + destruct (environ !! "AAMI_HOSTNAME") as [h|]; cbn [from_option id];
        [destruct (String.eqb h "")|]; reflexivity.
Qed.

(** ** Paths and their text *)

Lemma split_pieces c s :
  Forall (fun x => PyStr.contains c x = false) (PyStr.split c s).
Proof.
  induction s as [|a s IH]; [repeat constructor|].
  cbn [PyStr.split]. destruct (Ascii.eqb a c) eqn:Ha.
  - constructor; [reflexivity|exact IH].
  - destruct (PyStr.split c s) as [|x l]; [repeat constructor; cbn; rewrite Ha; reflexivity|].
    inversion IH; subst. constructor; [|assumption].
    cbn [PyStr.contains]. rewrite Ha. assumption.
Qed.

Lemma parts_of_ok s : forallb part_ok (PyPath.parts_of s) = true.
Proof.
  unfold PyPath.parts_of. pose proof (split_pieces PyStr.slash s) as H.
  induction H as [|x l Hx _ IH]; [reflexivity|].
  cbn [List.filter]. destruct (PyPath.keep_part x) eqn:Hk; [|exact IH].
  cbn [forallb]. unfold part_ok at 1. rewrite Hk, Hx, IH. reflexivity.
Qed.

Lemma root_of_cases s :
  PyPath.root_of s = "" \/ PyPath.root_of s = "/" \/ PyPath.root_of s = "//".
Proof.
  unfold PyPath.root_of. destruct s as [|a [|b [|c s]]]; auto;
    repeat match goal with |- context [if ?x then _ else _] => destruct x end; auto.
Qed.

Lemma path_wf_of_str s : path_wf (PyPath.of_str s) = true.
Proof.
  unfold path_wf, PyPath.of_str. cbn [root parts]. rewrite parts_of_ok.
  destruct (root_of_cases s) as [-> |[-> | ->]]; reflexivity.
Qed.

Lemma path_wf_join p s : path_wf p = true -> path_wf (PyPath.join p s) = true.
Proof.
  intros Hp. unfold PyPath.join. destruct (String.eqb _ _); [|apply path_wf_of_str].
  unfold path_wf in *. cbn [root parts]. apply andb_true_iff in Hp as [Hr Hps].
  rewrite Hr, forallb_app, Hps, parts_of_ok. reflexivity.
Qed.

Lemma split_piece_sep c x r :
  PyStr.contains c x = false ->
  PyStr.split c (x +:+ String c r) = x :: PyStr.split c r.
Proof.
  induction x as [|a x IH]; intros Hx.
  - change ("" +:+ String c r) with (String c r). cbn [PyStr.split].
    rewrite Ascii.eqb_refl. reflexivity.
  - cbn [PyStr.contains] in Hx. apply orb_false_iff in Hx as [Ha Hx].
    rewrite app_cons. cbn [PyStr.split]. rewrite Ha, (IH Hx). reflexivity.
Qed.

Lemma part_ok_inv x :
  part_ok x = true ->
  PyPath.keep_part x = true /\ PyStr.contains PyStr.slash x = false.
Proof.
  unfold part_ok. intros H. apply andb_true_iff in H as [Hk Hs].
  split; [exact Hk|]. destruct (PyStr.contains _ _); [discriminate Hs|reflexivity].
Qed.

(** Splitting the joined components gives them back. *)
Lemma split_join l :
  l <> [] -> forallb part_ok l = true ->
  PyStr.split PyStr.slash (PyStr.join "/" l) = l.
Proof.
  induction l as [|x l IH]; [congruence|]. intros _ H.
  cbn [forallb] in H. apply andb_true_iff in H as [Hx Hl].
  apply part_ok_inv in Hx as [_ Hx].
  destruct l as [|y l]; [apply split_no_sep, Hx|].
  change (PyStr.join "/" (x :: y :: l)) with (x +:+ String PyStr.slash (PyStr.join "/" (y :: l))).
  rewrite (split_piece_sep _ _ _ Hx). rewrite IH; [reflexivity|discriminate|exact Hl].
Qed.

Lemma filter_keep_all l :
  forallb part_ok l = true -> List.filter PyPath.keep_part l = l.
Proof.
  induction l as [|x l IH]; [reflexivity|]. cbn [forallb List.filter]. intros H.
  apply andb_true_iff in H as [Hx Hl]. apply part_ok_inv in Hx as [-> _].
  rewrite (IH Hl). reflexivity.
Qed.

Lemma parts_of_join l :
  l <> [] -> forallb part_ok l = true -> PyPath.parts_of (PyStr.join "/" l) = l.
Proof.
  intros Hne Hl. unfold PyPath.parts_of. rewrite (split_join l Hne Hl).
  apply filter_keep_all, Hl.
Qed.

(** The joined components do not start with a slash. *)
Lemma join_head l :
  l <> [] -> forallb part_ok l = true ->
  exists a r, PyStr.join "/" l = String a r /\ Ascii.eqb a PyStr.slash = false.
Proof.
  destruct l as [|x l]; [congruence|]. intros _ H.
  cbn [forallb] in H. apply andb_true_iff in H as [Hx _].
  apply part_ok_inv in Hx as [Hk Hs].
  destruct x as [|a x]; [discriminate Hk|].
  cbn [PyStr.contains] in Hs. apply orb_false_iff in Hs as [Ha _].
  exists a. destruct l as [|y l]; cbn [PyStr.join]; [eauto|].
  rewrite app_cons. eauto.
Qed.

(** [Path(str(p))] is [p] for every path that [Path] and
    [/] build. *)
Lemma path_str_round_trip p :
  path_wf p = true -> PyPath.of_str (PyPath.str p) = p.
Proof.
  intros H. unfold path_wf in H. apply andb_true_iff in H as [Hr Hps].
  destruct p as [rt ps]. cbn [root parts] in *.
  unfold PyPath.str, PyPath.of_str. cbn [root parts].
  assert (Hrt : rt = "" \/ rt = "/" \/ rt = "//").
  { destruct (String.eqb_spec rt ""); [auto|].
    destruct (String.eqb_spec rt "/"); [auto|].
    destruct (String.eqb_spec rt "//"); [auto|discriminate Hr]. }
  destruct ps as [|x ps].
  - destruct Hrt as [-> |[-> | ->]]; reflexivity.
  - destruct (join_head (x :: ps) ltac:(discriminate) Hps) as (a & r & Hj & Ha).
    pose proof (parts_of_join (x :: ps) ltac:(discriminate) Hps) as Hparts.
    unfold PyPath.parts_of in *.
    destruct Hrt as [-> |[-> | ->]].
    + change ("" +:+ PyStr.join "/" (x :: ps)) with (PyStr.join "/" (x :: ps)).
      rewrite Hparts. f_equal. rewrite Hj. unfold PyPath.root_of.
      destruct r as [|b r]; rewrite Ha; reflexivity.
    + change ("/" +:+ PyStr.join "/" (x :: ps))
        with (String PyStr.slash (PyStr.join "/" (x :: ps))).
      cbn [PyStr.split]. rewrite Ascii.eqb_refl. cbn [List.filter PyPath.keep_part].
      change (PyPath.keep_part "") with false. cbv iota. rewrite Hparts. f_equal.
      rewrite Hj. unfold PyPath.root_of. rewrite Ascii.eqb_refl, Ha. reflexivity.
    + change ("//" +:+ PyStr.join "/" (x :: ps))
        with (String PyStr.slash (String PyStr.slash (PyStr.join "/" (x :: ps)))).
      cbn [PyStr.split]. rewrite Ascii.eqb_refl. cbn [List.filter].
      change (PyPath.keep_part "") with false. cbv iota. rewrite Hparts. f_equal.
      rewrite Hj. unfold PyPath.root_of. rewrite Ascii.eqb_refl, Ha. reflexivity.
Qed.

(** ** Plain names *)

Lemma contains_app ch a b :
  PyStr.contains ch (a +:+ b) = PyStr.contains ch a || PyStr.contains ch b.
Proof.
  induction a as [|x a IH]; [reflexivity|]. rewrite app_cons.
  cbn [PyStr.contains]. rewrite IH, orb_assoc. reflexivity.
Qed.

Lemma plain_part_ok c : plain c = true -> part_ok c = true.
Proof. unfold plain. intros H. apply andb_true_iff in H as [H _]. exact H. Qed.

Lemma part_ok_root c : part_ok c = true -> PyPath.root_of c = "".
Proof.
  intros H. apply part_ok_inv in H as [_ Hs].
  destruct c as [|a [|b r]]; [reflexivity| |]; unfold PyPath.root_of;
    cbn [PyStr.contains] in Hs; apply orb_false_iff in Hs as [Ha _];
    rewrite Ha; reflexivity.
Qed.

Lemma part_ok_parts c : part_ok c = true -> PyPath.parts_of c = [c].
Proof.
  intros H. apply (parts_of_join [c]); [discriminate|].
  cbn [forallb]. rewrite H. reflexivity.
Qed.

(** Joining a name that is one component. *)
Lemma join_part p c :
  part_ok c = true -> PyPath.join p c = mkPath (root p) (parts p ++ [c]).
Proof.
  intros H. unfold PyPath.join.
  rewrite (part_ok_root c H), (part_ok_parts c H). reflexivity.
Qed.

Lemma join_part_inj p c c' :
  part_ok c = true -> part_ok c' = true -> PyPath.join p c = PyPath.join p c' -> c = c'.
Proof.
  intros H H' E. rewrite (join_part p c H), (join_part p c' H') in E.
  injection E as E. apply app_inv_head in E. injection E as E. exact E.
Qed.

(** A name that ends with a suffix such as [.prom] is one component when it
    has no slash. *)
Lemma part_ok_suffix s t :
  PyStr.contains PyStr.slash s = false -> PyStr.contains PyStr.slash t = false ->
  (2 <= String.length t)%nat -> part_ok (s +:+ t) = true.
Proof.
  intros Hs Ht Hlen. unfold part_ok.
  rewrite (keep_part_suffix s t Hlen), contains_app, Hs, Ht. reflexivity.
Qed.

Lemma script_name_ok nm h :
  PyStr.contains PyStr.slash nm = false -> PyStr.contains PyStr.slash h = false ->
  part_ok (nm +:+ "_" +:+ h +:+ ".sh") = true.
Proof.
  intros Hn Hh.
  replace (nm +:+ "_" +:+ h +:+ ".sh") with ((nm +:+ "_" +:+ h) +:+ ".sh")
    by (rewrite !append_assoc; reflexivity).
  apply part_ok_suffix; [|reflexivity|cbn; lia].
  rewrite !contains_app, Hn, Hh. reflexivity.
Qed.

Lemma plain_path_wf p : plain_path p = true -> path_wf p = true /\ root p <> "".
Proof.
  unfold plain_path, path_wf. intros H. apply andb_true_iff in H as [Hr Hp].
  apply String.eqb_eq in Hr. rewrite Hr. split; [|discriminate].
  cbn [String.eqb orb andb]. apply forallb_forall. intros c Hc.
  apply plain_part_ok. exact (proj1 (forallb_forall _ _) Hp c Hc).
Qed.

(** X6. For a check whose name has no slash, whatever the child gives back
    and whatever [_execute_check] returns or raises, the entries of the
    textfile directory other than the temporary file [<name>.prom.tmp] and
    the metric file [<name>.prom] of the check stay as they are: the metric
    files of the checks with other names are not touched (the temporary
    path being no symbolic link). *)
Theorem execute_check_frame (env : Env) (self : DynamicCheckRunner)
    (check_name : json) (script_path : Path) (config : json)
    (w : World) (res : result CheckResult) (w' : World) (c : string) :
  _execute_check env self check_name script_path config w = (res, w') ->
  PyStr.contains PyStr.slash (Json.str check_name) = false ->
  Fs.is_symlink (w_fs w) (output_file_of self check_name) = false ->
  plain c = true ->
  c <> Json.str check_name +:+ ".prom.tmp" ->
  c <> Json.str check_name +:+ ".prom" ->
  Fs.lstat (w_fs w') (PyPath.join (textfile_dir self) c)
  = Fs.lstat (w_fs w) (PyPath.join (textfile_dir self) c).
Proof.
  intros H Hname Hsym Hc Hc1 Hc2. apply plain_part_ok in Hc.
  eapply execute_check_keeps; [exact H|exact Hsym| |].
  - unfold output_file_of. intros E. apply join_part_inj in E; [contradiction|exact Hc|].
    apply part_ok_suffix; [exact Hname|reflexivity|cbn; lia].
  - unfold final_file_of. intros E. apply join_part_inj in E; [contradiction|exact Hc|].
    apply part_ok_suffix; [exact Hname|reflexivity|cbn; lia].
Qed.

(** X10. No script body is overwritten or deleted.  Whatever
    [_save_check_script] returns or raises, and for whatever record it is
    called, the script file of a plain check name and a hash without slash
    that is a regular file before the call is the same regular file after
    it. *)
Theorem save_keeps_entries (env : Env) (self : DynamicCheckRunner) (check : CheckInfo)
    (w : World) (r : result Path) (w' : World)
    (nm' : string) (hash' : json) (d : string) (x : bool) :
  _save_check_script env self check w = (r, w') ->
  plain nm' = true ->
  PyStr.contains PyStr.slash (Json.str hash') = false ->
  Fs.lstat (w_fs w) (script_file_of self nm' hash') = Some (File d x) ->
  Fs.lstat (w_fs w') (script_file_of self nm' hash') = Some (File d x).
Proof.
  intros H Hnm' Hh Hfile. apply plain_part_ok in Hnm'.
  eapply save_keeps_entry; [exact H| |exact Hfile].
  intros nm _. rewrite current_link_parts. unfold script_file_of, script_dir_of.
  pose proof (proj2 (part_ok_inv _ Hnm')) as Hslash.
  rewrite (join_part _ (nm' +:+ "_" +:+ Json.str hash' +:+ ".sh"))
    by (apply script_name_ok; assumption).
  rewrite (join_part _ nm' Hnm'). cbn [root parts].
  intros E. injection E as _ E. apply app_inj_tail in E as [_ E].
  apply (f_equal (PyStr.contains "_")) in E.
  rewrite !contains_app in E. cbn in E. rewrite orb_true_r in E. discriminate E.
Qed.

(** ** The script that is run is the script that was saved *)

Lemma mkdir_keeps_absent env q k :
  k <> q -> preserves (fun w => Fs.lstat (w_fs w) k = None) (Os.mkdir env q).
Proof.
  intros Hne w r w' H Hk. apply mkdir_fs in H as [[-> _]|(_ & -> & _)]; [exact Hk|].
  rewrite lstat_insert_ne by exact Hne. exact Hk.
Qed.

(** [mkdir(parents=True)] makes entries at the path and above it only. *)
Lemma mkdir_parents_keeps_absent env k n p :
  (forall j, k <> mkPath (root p) (firstn j (parts p))) ->
  preserves (fun w => Fs.lstat (w_fs w) k = None) (Os.mkdir_parents env n p).
Proof.
  revert p. induction n as [|n IH]; intros p Hk; cbn [Os.mkdir_parents].
  all: assert (Hp : k <> p)
    by (intros ->; apply (Hk (length (parts p))); rewrite firstn_all;
        destruct p; reflexivity).
  all: apply preserves_try_except; [apply mkdir_keeps_absent; exact Hp|intros e].
  - destruct e; try apply is_dir_check_keeps. apply preserves_pure. reflexivity.
  - destruct e; try apply is_dir_check_keeps.
    apply preserves_bind; [|intros _].
    + apply IH. intros j. unfold PyPath.parent. cbn [root parts].
      rewrite removelast_firstn_len, firstn_firstn. apply Hk.
    + unfold Os.mkdir_exist_ok.
      apply preserves_try_except; [apply mkdir_keeps_absent; exact Hp|intros e].
      apply is_dir_check_keeps.
Qed.

Lemma root_of_relative_app a t :
  PyPath.root_of a = "" -> PyPath.root_of (a +:+ String "_" t) = "".
Proof.
  destruct a as [|x [|y a]]; unfold PyPath.root_of.
  - intros _. change ("" +:+ String "_" t) with (String "_" t).
    destruct t; reflexivity.
  - rewrite !app_cons. change ("" +:+ String "_" t) with (String "_" t).
    destruct (Ascii.eqb x PyStr.slash); [discriminate|reflexivity].
  - rewrite !app_cons. destruct (Ascii.eqb x PyStr.slash); [|reflexivity].
    destruct (Ascii.eqb y PyStr.slash); [|discriminate].
    destruct a; [discriminate|]. destruct (Ascii.eqb _ _); discriminate.
Qed.

Lemma parts_of_suffix s t :
  PyStr.contains PyStr.slash t = false -> (2 <= String.length t)%nat ->
  exists init x, PyPath.parts_of (s +:+ t) = init ++ [x +:+ t].
Proof.
  intros Ht Hlen. destruct (split_last PyStr.slash s) as (init & x & Hs).
  exists (List.filter PyPath.keep_part init), x. unfold PyPath.parts_of.
  rewrite (split_app PyStr.slash s t init x Ht Hs).
  apply filter_snoc, keep_part_suffix, Hlen.
Qed.

Lemma split_contains c ch s :
  Ascii.eqb c ch = false -> PyStr.contains ch s = true ->
  Exists (fun x => PyStr.contains ch x = true) (PyStr.split c s).
Proof.
  intros Hc. induction s as [|a s IH]; [discriminate|].
  cbn [PyStr.contains PyStr.split]. intros H.
  destruct (Ascii.eqb a c) eqn:Hac.
  - apply Ascii.eqb_eq in Hac. subst a. rewrite Hc in H. cbn [orb] in H.
    apply Exists_cons_tl, IH, H.
  - destruct (Ascii.eqb a ch) eqn:Hach.
    + destruct (PyStr.split c s); apply Exists_cons_hd; cbn [PyStr.contains];
        rewrite Hach; reflexivity.
    + cbn [orb] in H. specialize (IH H).
      destruct (PyStr.split c s) as [|x l]; [inversion IH|].
      inversion IH; subst.
      * apply Exists_cons_hd. cbn [PyStr.contains]. rewrite Hach. assumption.
      * apply Exists_cons_tl. assumption.
Qed.

Lemma parts_of_contains ch s :
  Ascii.eqb PyStr.slash ch = false -> Ascii.eqb "."%char ch = false ->
  PyStr.contains ch s = true ->
  Exists (fun x => PyStr.contains ch x = true) (PyPath.parts_of s).
Proof.
  intros Hs Hd H. unfold PyPath.parts_of.
  pose proof (split_contains PyStr.slash ch s Hs H) as Hex.
  induction Hex as [x l Hx|x l _ IH]; cbn [List.filter].
  - assert (Hk : PyPath.keep_part x = true).
    { unfold PyPath.keep_part. destruct x as [|a [|b x]];
        [discriminate Hx| |cbn; destruct (Ascii.eqb a "."); reflexivity].
      cbn [PyStr.contains] in Hx. rewrite orb_false_r in Hx.
      apply Ascii.eqb_eq in Hx. subst a. cbn. rewrite Ascii.eqb_sym, Hd. reflexivity. }
    rewrite Hk. apply Exists_cons_hd. exact Hx.
  - destruct (PyPath.keep_part x); [apply Exists_cons_tl|]; exact IH.
Qed.

(** The text of the script file name, and its components below the
    directory of the check. *)
Lemma script_file_parts self nm hash :
  PyPath.root_of nm = "" ->
  exists comps,
    script_file_of self nm hash
    = mkPath (root (script_dir_of self nm)) (parts (script_dir_of self nm) ++ comps)
    /\ comps <> []
    /\ comps <> ["current.sh"].
Proof.
  intros Hrel. unfold script_file_of, PyPath.join.
  change (nm +:+ "_" +:+ Json.str hash +:+ ".sh")
    with (nm +:+ String "_" (Json.str hash +:+ ".sh")).
  rewrite (root_of_relative_app nm _ Hrel). cbn [String.eqb].
  eexists. split; [reflexivity|]. split.
  - change (nm +:+ String "_" (Json.str hash +:+ ".sh"))
      with (nm +:+ ("_" +:+ (Json.str hash +:+ ".sh"))).
    rewrite <- !append_assoc.
    destruct (parts_of_suffix ((nm +:+ "_") +:+ Json.str hash) ".sh" eq_refl
                ltac:(cbn; lia)) as (init & x & ->).
    intros H. apply app_eq_nil in H as [_ H]. discriminate H.
  - intros H.
    assert (Hex : Exists (fun x => PyStr.contains "_" x = true)
                         (PyPath.parts_of (nm +:+ String "_" (Json.str hash +:+ ".sh")))).
    { apply parts_of_contains; [reflexivity|reflexivity|].
      rewrite contains_app. cbn [PyStr.contains]. rewrite Ascii.eqb_refl.
      apply orb_true_r. }
    rewrite H in Hex. inversion Hex as [? ? Hc|? ? Hc]; subst.
    + vm_compute in Hc. discriminate Hc.
    + inversion Hc.
Qed.

Lemma script_file_not_link self nm hash :
  PyPath.root_of nm = "" ->
  script_file_of self nm hash <> current_link_of self nm.
Proof.
  intros Hrel. destruct (script_file_parts self nm hash Hrel) as (comps & -> & _ & Hc).
  rewrite current_link_parts. intros H. injection H as H.
  apply app_inv_head in H. contradiction.
Qed.

Lemma script_file_not_above self nm hash j :
  PyPath.root_of nm = "" ->
  script_file_of self nm hash
  <> mkPath (root (script_dir_of self nm)) (firstn j (parts (script_dir_of self nm))).
Proof.
  intros Hrel. destruct (script_file_parts self nm hash Hrel) as (comps & -> & Hc & _).
  intros H. injection H as H. apply (f_equal (@length string)) in H.
  rewrite length_app, length_firstn in H.
  destruct comps; [congruence|]. cbn [length] in H. lia.
Qed.

Lemma stat_absent (fs : FS) p : Fs.lstat fs p = None -> Fs.stat fs p = Some (p, None).
Proof.
  intros H. unfold Fs.stat. rewrite resolve_not_symlink.
  - rewrite H. reflexivity.
  - unfold Fs.is_symlink. rewrite H. reflexivity.
Qed.

Lemma stat_file (fs : FS) p d x :
  Fs.lstat fs p = Some (File d x) -> Fs.stat fs p = Some (p, Some (File d x)).
Proof.
  intros H. unfold Fs.stat. rewrite resolve_not_symlink.
  - rewrite H. reflexivity.
  - unfold Fs.is_symlink. rewrite H. reflexivity.
Qed.

Lemma resolve_step n (fs : FS) p :
  Fs.resolve (S n) fs p
  = match Fs.lstat fs p with
    | Some (Symlink t) => Fs.resolve n fs t
    | o => Some (p, o)
    end.
Proof. reflexivity. Qed.

Lemma stat_link_file (fs : FS) l p d x :
  Fs.lstat fs l = Some (Symlink p) -> Fs.lstat fs p = Some (File d x) ->
  Fs.stat fs l = Some (p, Some (File d x)).
Proof.
  intros Hl Hp. unfold Fs.stat, Fs.max_links. rewrite resolve_step, Hl.
  rewrite resolve_not_symlink.
  - rewrite Hp. reflexivity.
  - unfold Fs.is_symlink. rewrite Hp. reflexivity.
Qed.

Lemma save_body_new env self nm check body w u w' :
  script_content check = JStr body ->
  Fs.lstat (w_fs w) (script_file_of self nm (script_hash check)) = None ->
  save_body env self nm check w = (Ok u, w') ->
  Fs.lstat (w_fs w') (script_file_of self nm (script_hash check))
  = Some (File body true).
Proof.
  intros Hbody Habs H. unfold save_body in H.
  set (file := script_file_of self nm (script_hash check)) in *.
  pose proof (lstat_none_parts _ _ Habs) as Hparts.
  pose proof (stat_absent _ _ Habs) as Hstat.
  apply bind_ok in H as (fs & w0 & Hfs & H). invc Hfs.
  unfold Fs.exists_ in H. rewrite Hstat in H.
  destruct (sliceable _); [|discriminate H]. rewrite Hbody in H.
  apply bind_ok in H as (u1 & w1 & Hw & Hc).
  apply write_text_ok in Hw as (q & x & Hq & ->).
  assert (q = file) as -> by (destruct Hq as [Hq|[d Hq]]; congruence).
  apply chmod_755_ok in Hc as (q & n & fs' & Hq' & -> & ->). cbn [w_fs] in *.
  rewrite (stat_file _ file body x) in Hq' by (apply lstat_insert_eq; exact Hparts).
  invc Hq'. apply lstat_insert_eq. exact Hparts.
Qed.

(** X18. The script that is run is the script that was fetched.  For a
    record with a plain name and a hash without slash whose version is not
    in the cache yet (the cache directory being an absolute path of plain
    names), when [_save_check_script] returns, the script file of that name
    and hash holds the fetched text and is executable, and the child process
    that [_execute_check] starts next on the returned path runs that text on
    the serialized config. *)
Theorem saved_script_is_run (env : Env) (self : DynamicCheckRunner) (check : CheckInfo)
    (nm body : string) (w : World) (p : Path) (w' : World) :
  name check = JStr nm ->
  script_content check = JStr body ->
  plain_path (check_scripts_dir self) = true ->
  plain nm = true ->
  PyStr.contains PyStr.slash (Json.str (script_hash check)) = false ->
  Fs.lstat (w_fs w) (script_file_of self nm (script_hash check)) = None ->
  _save_check_script env self check w = (Ok p, w') ->
  Fs.lstat (w_fs w') (script_file_of self nm (script_hash check))
    = Some (File body true)
  /\ child_outcome env p (config check) w'
     = proc env (length (w_log w')) body (Json.dumps (config check)).
Proof.
  intros Hnm Hbody Hcache Hplain _ Habs H.
  destruct (plain_path_wf _ Hcache) as [Hwf _].
  pose proof (part_ok_root nm (plain_part_ok nm Hplain)) as Hrel.
  set (file := script_file_of self nm (script_hash check)) in *.
  rewrite (save_check_script_steps env self check nm Hnm) in H.
  apply bind_ok in H as (u1 & w1 & H1 & H).
  apply bind_ok in H as (u2 & w2 & H2 & H).
  apply bind_ok in H as (u3 & w3 & H3 & H).
  apply bind_ok in H as (u4 & w4 & H4 & H). invc H.
  assert (Hne : file <> current_link_of self nm)
    by (apply script_file_not_link; exact Hrel).
  assert (Ha1 : Fs.lstat (w_fs w1) file = None).
  { eapply (mkdir_parents_keeps_absent env file); [|exact H1|exact Habs].
    intros j. apply script_file_not_above. exact Hrel. }
  pose proof (save_body_new _ _ _ _ _ _ _ _ Hbody Ha1 H2) as Hf2.
  pose proof (remove_pointer_keeps_entry env self nm file _ Hne _ _ _ H3 Hf2) as Hf3.
  pose proof (symlink_to_keeps_entry env _ file file _ Hne _ _ _ H4 Hf3) as Hf4.
  split; [exact Hf4|].
  apply symlink_to_ok in H4 as (_ & _ & ->).
  unfold child_outcome, Os.subprocess_run. cbn [fst w_fs w_log].
  rewrite path_str_round_trip
    by (unfold current_link_of, script_dir_of; do 2 apply path_wf_join; exact Hwf).
  rewrite (stat_link_file _ _ file body true).
  - reflexivity.
  - apply lstat_insert_eq, current_link_nonempty.
  - cbn [w_fs] in Hf4. exact Hf4.
Qed.

(** ** A check always gives a result *)

Lemma stat_writable (fs : FS) p :
  writable_at fs p = true -> Fs.stat fs p = Some (p, Fs.lstat fs p).
Proof.
  unfold writable_at. intros H. unfold Fs.stat. apply resolve_not_symlink.
  unfold Fs.is_symlink. destruct (Fs.lstat fs p) as [[d x|t|]|]; congruence.
Qed.

Lemma resolve_insert_file n (fs : FS) k d x p q :
  writable_at fs k = true ->
  Fs.resolve n fs p = Some (q, Some Dir) ->
  Fs.resolve n (<[k := File d x]> fs) p = Some (q, Some Dir).
Proof.
  unfold writable_at. intros Hk. revert p.
  induction n as [|n IH]; intros p H; cbn [Fs.resolve] in *.
  all: destruct (decide (p = k)) as [->|Hne];
    [destruct (Fs.lstat fs k) as [[d' x'|t|]|]; congruence|].
  all: rewrite lstat_insert_ne by exact Hne.
  all: destruct (Fs.lstat fs p) as [[d' x'|t|]|]; try congruence.
  apply IH. exact H.
Qed.

Lemma parent_error_none (fs : FS) p :
  parts p <> [] -> Fs.is_dir fs (PyPath.parent p) = true -> Os.parent_error fs p = None.
Proof.
  unfold Os.parent_error, Fs.is_dir. intros Hp H. destruct (parts p); [congruence|].
  destruct (Fs.stat fs (PyPath.parent p)) as [[q [[d x|t|]|]]|]; congruence.
Qed.

Lemma parent_error_insert_file (fs : FS) k d x p :
  writable_at fs k = true ->
  Os.parent_error fs p = None ->
  Os.parent_error (<[k := File d x]> fs) p = None.
Proof.
  unfold Os.parent_error, Fs.stat. intros Hk H. destruct (parts p); [discriminate|].
  destruct (Fs.resolve Fs.max_links fs (PyPath.parent p)) as [[q [[d' x'|t|]|]]|] eqn:E;
    try discriminate.
  rewrite (resolve_insert_file _ _ _ _ _ _ _ Hk E). reflexivity.
Qed.

Section Healthy.

Variable env : Env.
Hypothesis healthy : forall n o, disk_fault env n o = NoFault.

Lemma write_text_returns p data w :
  writable_at (w_fs w) p = true ->
  Os.parent_error (w_fs w) p = None ->
  exists x,
    Os.write_text env p data w
    = (Ok tt, mkWorld (<[p := File data x]> (w_fs w))
                (w_log w ++ [mkEvent (OpWrite p data) (<[p := File data x]> (w_fs w))])
                (w_clock w)).
Proof.
  intros Hw Hpar. unfold Os.write_text.
  unfold bind at 1, get_fs at 1. cbv beta iota. rewrite (stat_writable _ _ Hw).
  unfold writable_at in Hw.
  destruct (Fs.lstat (w_fs w) p) as [[d x|t|]|]; try discriminate Hw.
  - exists x. unfold bind, fault_of. rewrite healthy. reflexivity.
  - exists false. rewrite Hpar. unfold bind, fault_of. rewrite healthy. reflexivity.
Qed.

Lemma rename_returns src dst d x w :
  Fs.lstat (w_fs w) src = Some (File d x) ->
  src <> dst ->
  writable_at (w_fs w) dst = true ->
  Os.parent_error (w_fs w) dst = None ->
  exists w', Os.rename env src dst w = (Ok tt, w').
Proof.
  intros Hsrc Hne Hw Hpar. unfold Os.rename.
  unfold bind at 1, get_fs at 1. cbv beta iota. rewrite Hsrc.
  rewrite bool_decide_eq_false_2 by exact Hne.
  unfold writable_at in Hw.
  destruct (Fs.lstat (w_fs w) dst) as [[d' x'|t|]|]; try discriminate Hw;
    rewrite Hpar; unfold bind, fault_of; rewrite healthy; eexists; reflexivity.
Qed.

Lemma publish_returns p dst data w :
  p <> dst ->
  writable_at (w_fs w) p = true -> writable_at (w_fs w) dst = true ->
  Os.parent_error (w_fs w) p = None -> Os.parent_error (w_fs w) dst = None ->
  exists w', (Os.write_text env p data ;;; Os.rename env p dst) w = (Ok tt, w').
Proof.
  intros Hne Hp Hd Hpp Hpd.
  destruct (write_text_returns p data w Hp Hpp) as (x & Hw).
  assert (Hparts : parts p <> []).
  { unfold Os.parent_error in Hpp. destruct (parts p); [discriminate|congruence]. }
  rewrite (bind_eq _ _ _ _ _ Hw).
  apply (rename_returns p dst data x); cbn [w_fs].
  - apply lstat_insert_eq. exact Hparts.
  - exact Hne.
  - unfold writable_at. rewrite lstat_insert_ne by congruence. exact Hd.
  - apply parent_error_insert_file; assumption.
Qed.

End Healthy.

Lemma join_suffix_parts p s t :
  PyStr.contains PyStr.slash t = false -> (2 <= String.length t)%nat ->
  parts (PyPath.join p (s +:+ t)) <> [].
Proof.
  intros Ht Hlen. destruct (parts_of_suffix s t Ht Hlen) as (init & x & Hparts).
  unfold PyPath.join, PyPath.of_str. destruct (String.eqb _ _); cbn [parts];
    rewrite Hparts; intros H; repeat apply app_eq_nil in H as [_ H]; discriminate H.
Qed.

(** X19. No script can stop the run.  On a disk that refuses no call, when
    the metric file of a check and its temporary file are in directories
    and each of the two is a regular file or not there, [_execute_check]
    returns a result whatever the child gives back: exit code, timeout or
    failure to start. *)
Theorem execute_check_returns (env : Env) (self : DynamicCheckRunner)
    (check_name : json) (script_path : Path) (config : json) (w : World) :
  (forall n o, disk_fault env n o = NoFault) ->
  Fs.is_dir (w_fs w) (PyPath.parent (output_file_of self check_name)) = true ->
  Fs.is_dir (w_fs w) (PyPath.parent (final_file_of self check_name)) = true ->
  writable_at (w_fs w) (output_file_of self check_name) = true ->
  writable_at (w_fs w) (final_file_of self check_name) = true ->
  exists r w',
    _execute_check env self check_name script_path config w = (Ok r, w')
    /\ success r = negb (is_failure (child_outcome env script_path config w)).
Proof.
  intros Hh Hdo Hdf Hwo Hwf.
  assert (Hpub : forall data, exists w',
            publish_check env self check_name data (child_world script_path config w)
            = (Ok tt, w')).
  { intros data. apply (publish_returns env Hh); cbn [child_world w_fs].
    - apply output_final_distinct.
    - exact Hwo.
    - exact Hwf.
    - apply parent_error_none; [|exact Hdo].
      apply (join_suffix_parts _ _ ".prom.tmp"); [reflexivity|cbn; lia].
    - apply parent_error_none; [|exact Hdf].
      apply (join_suffix_parts _ _ ".prom"); [reflexivity|cbn; lia]. }
  rewrite execute_check_unfold. cbv zeta.
  destruct (child_outcome env script_path config w) as [rc so se| |msg];
    cbn [is_failure].
  - destruct (rc =? 0)%Z.
    + destruct (Hpub so) as (w' & ->). eauto.
    + destruct (Hpub (_generate_error_metric check_name)) as (w' & ->). eauto.
  - destruct (Hpub (_generate_error_metric check_name)) as (w' & Hw).
    rewrite (bind_eq _ _ _ _ _ Hw). eauto.
  - destruct (Hpub (_generate_error_metric check_name)) as (w' & Hw).
    rewrite (bind_eq _ _ _ _ _ Hw). eauto.
Qed.

(** ** The further properties on the concrete hosts *)

(** Reading the config file of the example leaves the world and the host
    name as they are. *)
Lemma load_config_frame_witness :
  let x := _load_config Ex.self_no_url Ex2.w_config in
  snd x = Ex2.w_config
  /\ exists self', fst x = Ok self' /\ hostname self' = hostname Ex.self_no_url.
Proof.
  intros x.
  destruct (load_config_frame Ex.self_no_url Ex2.w_config (fst x) (snd x)
              (surjective_pairing x)) as (Hw & _ & Hs).
  split; [exact Hw|].
  assert (E : fst x = Ok (set_config_server_url Ex.self_no_url "http://cfg:8080/?a=b"))
    by (vm_compute; reflexivity).
  eexists. split; [exact E|].
  exact (proj1 (Hs _ E)).
Defined.

(** The second line of the config file sets the URL, the third is not
    looked at. *)
Lemma load_config_first_line_witness :
  _load_config Ex.self_no_url Ex2.w_config
  = (Ok (set_config_server_url Ex.self_no_url "http://cfg:8080/?a=b"), Ex2.w_config).
Proof.
  apply (load_config_first_line Ex.self_no_url Ex2.w_config Ex2.config_text
           ["# aami"]
           ("  AAMI_CONFIG_SERVER_URL=" +:+ dq +:+ "http://cfg:8080/?a=b" +:+ dq)
           (dq +:+ "http://cfg:8080/?a=b" +:+ dq)
           ["AAMI_CONFIG_SERVER_URL=http://other"]).
  - reflexivity.
  - vm_compute. reflexivity.
  - vm_compute. reflexivity.
  - repeat constructor.
  - vm_compute. reflexivity.
Defined.

(** On an empty disk both directories are made. *)
Lemma ensure_directories_spec_witness :
  let x := _ensure_directories Ex.env Ex.self Ex.w_empty in
  fst x = Ok tt
  /\ Fs.is_dir (w_fs (snd x)) (textfile_dir Ex.self) = true
  /\ Fs.is_dir (w_fs (snd x)) (check_scripts_dir Ex.self) = true.
Proof.
  intros x. assert (E : fst x = Ok tt) by (vm_compute; reflexivity).
  split; [exact E|].
  destruct (ensure_directories_spec _ _ _ _ _ (pair_fst_snd x _ E)) as (_ & Hd & _).
  exact (Hd eq_refl).
Defined.

(** The three records of the example are three checks. *)
Lemma fetch_all_or_nothing_witness :
  exists cs,
    fst (_fetch_effective_checks Ex.env Ex.self Ex.w0) = Ok (Some cs)
    /\ length cs = 3%nat.
Proof.
  destruct (fetch_all_or_nothing Ex.env Ex.self Ex.w0 (List.map JDict Ex.records) eq_refl)
    as (checks & Heq & Hall & _).
  destruct (Hall eq_refl) as (cs & -> & Hlen).
  exists cs. rewrite Heq. split; [reflexivity|exact Hlen].
Defined.

(** Running [A] leaves the entry [B.prom] of the textfile directory as it
    is. *)
Lemma execute_check_frame_witness :
  let x := _execute_check Ex.env Ex.self (JStr "A") (current_link_of Ex.self "A")
             (config Ex.checkA) Ex.w_saved in
  Fs.lstat (w_fs (snd x)) (PyPath.join (textfile_dir Ex.self) "B.prom")
  = Fs.lstat (w_fs Ex.w_saved) (PyPath.join (textfile_dir Ex.self) "B.prom").
Proof.
  intros x.
  apply (execute_check_frame Ex.env Ex.self (JStr "A") (current_link_of Ex.self "A")
           (config Ex.checkA) Ex.w_saved (fst x) (snd x) "B.prom").
  - apply surjective_pairing.
  - reflexivity.
  - vm_compute. reflexivity.
  - reflexivity.
  - intros H. vm_compute in H. discriminate H.
  - intros H. vm_compute in H. discriminate H.
Defined.


(** After [A] ran, its metric file holds its output and no temporary file
    is left. *)
Lemma execute_check_files_witness :
  let x := _execute_check Ex.env Ex.self (JStr "A") (current_link_of Ex.self "A")
             (config Ex.checkA) Ex.w_saved in
  Fs.lstat (w_fs (snd x)) (output_file_of Ex.self (JStr "A")) = None
  /\ exists e, Fs.lstat (w_fs (snd x)) (final_file_of Ex.self (JStr "A"))
               = Some (File ("up 1" +:+ nl) e).
Proof.
  intros x.
  assert (E : fst x = Ok (mkCheckResult (JStr "A") true ("up 1" +:+ nl) None))
    by (vm_compute; reflexivity).
  apply (execute_check_files _ _ _ _ _ _ _ _ (pair_fst_snd x _ E)).
  vm_compute. reflexivity.
Defined.

(** The status file after a run of three checks. *)
Lemma write_status_metrics_files_witness :
  let x := _write_status_metrics Ex.env Ex.self true 3 1 2 2 Ex.w0 in
  Fs.lstat (w_fs (snd x)) (status_temp_of Ex.self) = None
  /\ exists e, Fs.lstat (w_fs (snd x)) (status_file_of Ex.self)
               = Some (File (status_metrics 1 1000 2 3 1 2) e).
Proof.
  intros x.
  assert (E : fst x = Ok tt) by (vm_compute; reflexivity).
  destruct (write_status_metrics_files Ex.env Ex.self true 3 1 2 2 Ex.w0 (Ok tt) (snd x)
              (pair_fst_snd x _ E))
    as (_ & H); [vm_compute; reflexivity|].
  exact (H eq_refl).
Defined.

(** Saving [B] keeps the script file of [A]. *)
Lemma save_keeps_entries_witness :
  let x := _save_check_script Ex.env Ex.self Ex.checkB Ex.w_saved in
  Fs.lstat (w_fs (snd x)) (script_file_of Ex.self "A" (JStr "h1"))
  = Some (File Ex.script_A true).
Proof.
  intros x.
  apply (save_keeps_entries Ex.env Ex.self Ex.checkB Ex.w_saved (fst x) (snd x)
           "A" (JStr "h1") Ex.script_A true).
  - apply surjective_pairing.
  - reflexivity.
  - reflexivity.
  - vm_compute. reflexivity.
Defined.

(** After [A] is saved its pointer leads to its script file. *)
Lemma save_pointer_target_witness :
  let x := _save_check_script Ex.env Ex.self Ex.checkA Ex.w0 in
  fst x = Ok (current_link_of Ex.self "A")
  /\ Fs.lstat (w_fs (snd x)) (current_link_of Ex.self "A")
     = Some (Symlink (script_file_of Ex.self "A" (JStr "h1"))).
Proof.
  intros x.
  assert (E : fst x = Ok (current_link_of Ex.self "A")) by (vm_compute; reflexivity).
  split; [exact E|].
  destruct (save_pointer_target _ _ _ _ _ _ (pair_fst_snd x _ E))
    as (nm & Hnm & _ & Hl & _).
  injection Hnm as <-. exact Hl.
Defined.

(** A second version of [A]: the pointer moves, the first body stays. *)
Lemma save_switch_version_witness :
  let x := _save_check_script Ex.env Ex.self Ex.checkA Ex.w0 in
  let y := _save_check_script Ex.env Ex.self Ex2.checkA2 (snd x) in
  Fs.lstat (w_fs (snd y)) (current_link_of Ex.self "A")
  = Some (Symlink (script_file_of Ex.self "A" (JStr "h1b")))
  /\ Fs.lstat (w_fs (snd y)) (script_file_of Ex.self "A" (JStr "h1"))
     = Some (File Ex.script_A true).
Proof.
  intros x y.
  assert (E1 : fst x = Ok (current_link_of Ex.self "A")) by (vm_compute; reflexivity).
  assert (E2 : fst y = Ok (current_link_of Ex.self "A")) by (vm_compute; reflexivity).
  destruct (save_switch_version Ex.env Ex.self Ex.checkA Ex2.checkA2 "A" Ex.w0 _ _ _ _
              eq_refl eq_refl (pair_fst_snd x _ E1) (pair_fst_snd y _ E2))
    as (_ & Hl & Hkeep).
  split; [exact Hl|]. apply Hkeep. vm_compute. reflexivity.
Defined.

(** The three checks are run in the order [A], [B], [C]. *)
Lemma checks_run_in_order_witness :
  let c := check_results Ex.env Ex.self [Ex.checkA; Ex.checkB; Ex.checkC]
             (after_fetch Ex.self Ex.w0) in
  List.filter is_spawn (List.map ev_op (new_events (after_fetch Ex.self Ex.w0) (snd c)))
  = [OpSpawn ["/cache/A/current.sh"] "{}";
     OpSpawn ["/cache/B/current.sh"] ("{" +:+ dq +:+ "limit" +:+ dq +:+ ": 3}");
     OpSpawn ["/cache/C/current.sh"] "{}"].
Proof.
  intros c.
  assert (E : fst c = Ok [mkCheckResult (JStr "A") true ("up 1" +:+ nl) None;
                          mkCheckResult (JStr "B") false "partial output" (Some "boom");
                          mkCheckResult (JStr "C") false EmptyString (Some "Timeout")])
    by (vm_compute; reflexivity).
  destruct (checks_run_in_order _ _ _ _ _ _ (pair_fst_snd c _ E)) as (Hs & _).
  rewrite Hs. vm_compute. reflexivity.
Defined.

(** Equal status texts, equal numbers. *)
Lemma status_metrics_inj_witness :
  1 = 1 /\ 1004 = 1004 /\ 2 = 2 /\ 3 = 3 /\ 1 = 1 /\ 2 = 2.
Proof.
  exact (status_metrics_inj 1 1004 2 3 1 2 1 1004 2 3 1 2 eq_refl).
Defined.

(** No URL on the command line or in the environment: the one of the config
    file is taken; the host name is the one of the environment. *)
Lemma init_settings_witness :
  let args := parse_args Ex2.environ Ex2.flags in
  let x := __init__ Ex.env (arg_config_server args) (arg_hostname args) (arg_debug args)
             (arg_textfile_dir args) (arg_check_scripts_dir args)
             DEFAULT_CONFIG_FILE DEFAULT_LOG_FILE Ex2.w_config in
  exists self,
    fst x = Ok self
    /\ config_server_url self = "http://cfg:8080/?a=b"
    /\ hostname self = "node7"
    /\ Fs.is_dir (w_fs (snd x)) (textfile_dir self) = true.
Proof.
  intros args x.
  assert (E : fst x = Ok (mkRunner "http://cfg:8080/?a=b" "node7" false
                            (PyPath.of_str "/tf") (PyPath.of_str "/cache")
                            (PyPath.of_str DEFAULT_CONFIG_FILE)
                            (PyPath.of_str DEFAULT_LOG_FILE)))
    by (vm_compute; reflexivity).
  eexists. split; [exact E|].
  destruct (init_settings Ex.env Ex2.environ Ex2.flags Ex2.w_config _ (snd x)
              (pair_fst_snd x _ E)) as (Hurl & Hhost & Hd & _).
  split; [|split; [|exact Hd]].
  - rewrite Hurl. vm_compute. reflexivity.
  - rewrite Hhost. vm_compute. reflexivity.
Defined.

(** The child that is run for [A] is the fetched script. *)
Lemma saved_script_is_run_witness :
  let x := _save_check_script Ex.env Ex.self Ex.checkA Ex.w0 in
  fst x = Ok (current_link_of Ex.self "A")
  /\ Fs.lstat (w_fs (snd x)) (script_file_of Ex.self "A" (JStr "h1"))
     = Some (File Ex.script_A true)
  /\ child_outcome Ex.env (current_link_of Ex.self "A") (config Ex.checkA) (snd x)
     = Completed 0 ("up 1" +:+ nl) EmptyString.
Proof.
  intros x.
  assert (E : fst x = Ok (current_link_of Ex.self "A")) by (vm_compute; reflexivity).
  split; [exact E|].
  assert (Hnew : Fs.lstat (w_fs Ex.w0) (script_file_of Ex.self "A" (script_hash Ex.checkA))
                 = None) by (vm_compute; reflexivity).
  destruct (saved_script_is_run Ex.env Ex.self Ex.checkA "A" Ex.script_A Ex.w0
              (current_link_of Ex.self "A") (snd x)
              eq_refl eq_refl eq_refl eq_refl eq_refl Hnew (pair_fst_snd x _ E))
    as (Hfile & Hrun).
  split; [exact Hfile|]. rewrite Hrun. reflexivity.
Defined.

(** A record whose name is [null] is refused before anything is done. *)
Lemma save_bad_record_witness :
  _save_check_script Ex.env Ex.self
    (mkCheckInfo JNull (JStr Ex.script_A) (JStr "h1") (JDict [])) Ex.w0
  = (Raise TypeError, Ex.w0).
Proof.
  apply (proj1 (save_bad_record Ex.env Ex.self
                  (mkCheckInfo JNull (JStr Ex.script_A) (JStr "h1") (JDict [])) Ex.w0)).
  intros nm H. discriminate H.
Defined.

(** The run of the three checks ends with status 0: the runner was set up
    with a URL and the fetch succeeded. *)
Lemma main_exit_status_witness :
  fst (main Ex.env Ex.environ (CmdOptions Ex.flags) Ex.w0) = 0
  /\ exists self w0,
       (let args := parse_args Ex.environ Ex.flags in
        __init__ Ex.env (arg_config_server args) (arg_hostname args)
                 (arg_debug args) (arg_textfile_dir args)
                 (arg_check_scripts_dir args)
                 DEFAULT_CONFIG_FILE DEFAULT_LOG_FILE Ex.w0 = (Ok self, w0))
       /\ config_server_url self <> EmptyString
       /\ checks_of_outcome (urlopen Ex.env (fetch_url self)) <> None.
Proof.
  assert (E : fst (main Ex.env Ex.environ (CmdOptions Ex.flags) Ex.w0) = 0)
    by (vm_compute; reflexivity).
  split; [exact E|].
  destruct (proj2 (proj2 (main_exit_status Ex.env Ex.environ (CmdOptions Ex.flags) Ex.w0)) E)
    as [H|[H|(flags & self & w0 & Hc & Hi & Hu & Hf)]];
    [discriminate H|discriminate H|].
  injection Hc as <-. exists self, w0. auto.
Defined.

(** The script of [C] is not there: the check fails, and gives a result. *)
Lemma execute_check_returns_witness :
  exists r w',
    _execute_check Ex.env Ex.self (JStr "C") (current_link_of Ex.self "C")
                   (config Ex.checkC) Ex.w0 = (Ok r, w')
    /\ success r = false.
Proof.
  assert (Hh : forall n o, disk_fault Ex.env n o = NoFault) by reflexivity.
  assert (H1 : Fs.is_dir (w_fs Ex.w0) (PyPath.parent (output_file_of Ex.self (JStr "C")))
               = true) by (vm_compute; reflexivity).
  assert (H2 : Fs.is_dir (w_fs Ex.w0) (PyPath.parent (final_file_of Ex.self (JStr "C")))
               = true) by (vm_compute; reflexivity).
  assert (H3 : writable_at (w_fs Ex.w0) (output_file_of Ex.self (JStr "C")) = true)
    by (vm_compute; reflexivity).
  assert (H4 : writable_at (w_fs Ex.w0) (final_file_of Ex.self (JStr "C")) = true)
    by (vm_compute; reflexivity).
  destruct (execute_check_returns Ex.env Ex.self (JStr "C") (current_link_of Ex.self "C")
              (config Ex.checkC) Ex.w0 Hh H1 H2 H3 H4) as (r & w' & Hrun & Hs).
  exists r, w'. split; [exact Hrun|].
  rewrite Hs. vm_compute. reflexivity.
Defined.
